(* ===== verification/_CoqProject ===== *)
-Q . S2P
Prelude.v
PyUnicode.v
PyStr.v
PyFormat.v
Students.v
Console.v
Handlers.v
Report.v
Render.v
Driver.v
Sql.v
BookApi.v
