(* ===== verification/Prelude.v ===== *)
(** * A verification of the innowise_laboratory exercises

    ** The program

    The repository holds three exercises.  The one with state and rules is
    [src/lecture_3/student_grade_analyzer.py], an interactive console
    program: [main] owns a list of student records ([Student]: a name and
    a list of int grades) and loops over a menu read from standard input.
    Choice 1 ([add_new_student]) reads a name, strips it, refuses it when
    empty or when [find_student] (case- and space-insensitive) finds it,
    and appends a new record.  Choice 2 ([add_grades_for_student]) reads a
    name, finds the record, and reads grade lines until 'done', appending
    every int in [[0, 100]] to that record in place and warning on the
    rest.  Choice 3 ([show_report]) prints each student's average (N/A
    without grades) and, over the defined averages, their max, min and
    mean.  Choice 4 ([find_top_performer]) prints the student with the
    highest average, the first one on ties.  Choice 5 leaves the loop; a
    Ctrl-C ([KeyboardInterrupt]) anywhere is caught by [main], which prints
    a farewell.  The components interact only through the shared list
    (the handlers read it, two of them mutate it) and the console.

    The second exercise, [src/lecture_5/book_api], is a FastAPI service
    over a SQLAlchemy table of books (id, title, author, optional year):
    [create_book], [list_books] (offset/limit paging), [delete_book],
    [update_book] (partial update of the fields a [BookUpdate] body sets)
    and [search_books] ([ILIKE '%q%'] on title and author, equality on
    year, then paging).  The routes share nothing but the table, and each
    request runs in its own session.  The third, [src/lecture_6/main.py],
    is a one-route health check.

    ** The files

    - [Prelude] (this file): the state/exception monad [PyM] the model is
      written in (Python's effects: state, the exceptions that cross
      functions, and the fuel bounding [while True] loops), stdpp's monad
      classes instantiated for it; the semantics of the builtins the code
      calls: [sum] of ints ([py_sum]), int true division with its
      [ZeroDivisionError] ([py_truediv], exact), and CPython's single-pass [max]
      and [min] with their first-extremum tie rule ([py_select1],
      [py_max_by], [py_max], [py_min]); the [respects]/[fuel_safe]
      combinators by which a handler inherits a property from its pieces;
      generic lemmas on lists, [list_find] and the scans.
    - [PyUnicode]: the part of CPython 3.11's Unicode 14.0 character
      database the string methods read: [Py_UNICODE_ISSPACE]
      ([py_isspace]), the decimal digits of every script
      ([py_todecimal]), the full lowercase mapping ([lower_full], with
      U+0130 lowering to two code points), and the cased and
      case-ignorable properties; each table agrees with CPython on every
      code point below [0x110000].
    - [PyStr]: Python's [str] as a list of code points ([pystr], with its
      literal notation [pystr_scope] reading UTF-8 source text), and
      [str.strip] ([do_strip]), [str.lower] ([do_lower], with
      [handle_capital_sigma]'s final-sigma rule) and [int(str)]
      ([_PyUnicode_TransformDecimalAndSpaceToASCII], then
      [PyLong_FromString]: signs, underscores between digits, the
      4300-digit limit) as CPython 3.11 implements them.
    - [PyFormat]: binary64 floats as the rationals they denote: [rn]
      rounds to the nearest double, ties to even, with subnormals ([rne]
      rounds to an integer, [flog2] is the leading bit); [py_float_div] is
      CPython's correctly rounded [int / int], [py_fsum] the float [sum]
      rounded after each addition, [py_float_mean] is [sum(xs) / len(xs)];
      [format_1f] is [format(y, '.1f')] (half to even on the exact binary
      value) and [py_str_int] is [str(int)] with its 4300-digit limit.
    - [Students]: the record, [find_student], the two list mutations
      ([append_student], [append_grade]), the registry invariant
      [registry_wf] (stripped non-empty names, unique after lowering,
      grades in range; also as the executable [registry_wfb]), and the
      abstract registry of the specification ([AbsSpec]: a [gmap] from the
      normalised name to the record) with the refinement lemmas.
    - [Console]: the world ([students], [stdin], [stdout]), one [msg]
      constructor per [print] of the code, [input()] ([py_input]: prompt,
      then a line, [EOFError] at end of input, [KeyboardInterrupt] on
      Ctrl-C), and the relation [io_rel] every step keeps (invariant kept,
      input only consumed from the front).
    - [Handlers]: menu choices 1 and 2, the grade loop and its token
      classification [classify_grade].
    - [Report]: menu choices 3 and 4, every average a double; the lines
      each prints on a registry ([report_output], [top_output]).
    - [Driver]: the menu iteration, [main_loop], [main] with its
      [except KeyboardInterrupt], [run_program] on a given input, the exit
      status, and the session state machine [session_step].
    - [Render]: the text of every [msg] ([render], one f-string per
      [print], [print_menu] as [menu_text]) and of a whole run
      ([stdout_text]); the transcripts of the specification's scenario and
      of the rounding cases.
    - [Sql]: the [books] table and the statements the ORM emits.  The
      table's definition ([database.py], [models.py]) is not among the
      sources; it is modelled from the specification's entity and SQLite's
      documented behaviour: rows in rowid order, the rowid allocator as the
      interface [RowidAlloc] (a fresh id above every id in use) with
      SQLite's rule as its instance, [NOT NULL] title and author, and
      [ILIKE] as [lower(a) LIKE lower(b)] with SQLite's ASCII [lower] and
      its [%]/[_] pattern matcher [like].  The map view [table_abs] and
      its lemmas relate each statement to a [gmap] operation.
    - [BookApi]: [schemas.py] (the bodies, with a [BookUpdate] field absent,
      [null] or given), the five routes as functions from validated
      parameters and the table to the response and the new table
      ([Query] validation as 422, missing ids as 404, the [setattr] loop
      and the commit's failure on a [NULL] required field as 500), the
      dispatcher [handle], the map specification [BookSpec], and the
      health check.

    ** The theorems

    - Registry: [find_student] is the abstract map's lookup at the
      normalised query, appending a student or a grade is the map's insert
      ([Students.find_student_abs], [abs_append_student],
      [abs_append_grade]); menu choice 1 implements the specification's
      [addStudent] on that map, message and registry
      ([Handlers.add_new_student_refines] against [spec_add_student]); the invariant holds in every state a session
      reaches ([Driver.session_reachable_wf], by induction on the steps)
      and in every world a run ends in ([Driver.run_program_wf]).
    - Handlers, every branch: valid grades appended in order and counted,
      other records untouched ([add_grades_for_student_spec]); refusals
      that read nothing or change nothing; a duplicate name refused, two
      distinct names both found; a Ctrl-C or end of input inside the grade
      loop raises with the grades already entered kept in the list.
    - Report: N/A is never 0 ([student_average_spec]); the printed
      statistics are the max, min and float mean of the per-student
      averages, with [0 <= min <= max <= 100] and the mean in [[0, 100]]
      ([report_summary_bounds]); the top performer has the highest average,
      ties going to the first registered, and its average is the report's
      maximum; CPython's one-pass [max(key=)] equals its reference
      specification ([Prelude.py_max_by_first_max_ref]).
    - Numbers: the model's rounding is IEEE 754 round-to-nearest on
      binary64 ([PyFormat.rn_correct]: [rn x] is a double and no double is
      nearer), which is what makes the float model CPython's; an average
      [k / 10] prints as that decimal ([format_1f_tenths_exact]).
    - Strings: [str.lower] and [str.strip] commute on every string
      ([PyStr.py_lower_strip]: whitespace is neither cased nor
      case-ignorable, so it never changes the final-sigma choice), and
      lowering is idempotent ([py_lower_idem]); both rest on facts of the
      tables proved once over the code points they name
      ([PyUnicode.lower_full_forall]).  Grade tokens are read as [int()]
      reads them, digits of every script included
      ([Handlers.classify_grade_python_int]); names are matched by
      [lower()], which is not caseless: "ΟΔΟΣ" and "οδοσ" are two
      students ([Handlers.lower_not_caseless]).
    - Output: the specification's scenario prints exactly CPython's text
      ([Driver.spec_scenario_transcript]); the printed overall average can
      lie below the printed minimum ([Render.overall_below_min]).
    - Driver: a run ends either by [main] returning or by an [EOFError]
      escaping it, never by a [KeyboardInterrupt] and never for lack of
      fuel ([run_program_exit]); [run_program] refines the state machine
      ([run_program_refines_session]); without a 5 and without Ctrl-C the
      run always ends in [EOFError] with status 1, an exit path the
      specification does not have ([run_program_eof]); the session
      terminates: [sn session_step] (well-founded on the unread input)
      and every state reaches a final state ([session_terminates]).
    - Book service: every request changes the table as the map
      specification says ([BookApi.handle_refines_state]); a whole run of
      requests from the empty table is the abstract service on the map
      alone ([serve_refines_spec]): SQLite's next rowid is the
      specification's [spec_fresh], one above the largest id in use, so a
      deleted newest id is given again ([serve_reuses_id]); every reachable
      table has strictly increasing ids ([service_reachable_wf]); PUT replaces exactly the fields the body
      sets and answers 500 on an explicit [null] title or author; a created
      book is found under a fresh id and deleting it restores the table;
      DELETE removes exactly one row; missing ids answer 404; paging with
      [skip = k * limit] returns every row once; the chained search filters
      are one conjunction, and on a query without wildcards the [ILIKE]
      filter is substring search ([Sql.like_contains], against the
      reference [substringb]) while [_] and [%] in a query are wildcards
      ([search_title_wildcards]); the case folding is ASCII only, "é"
      does not find "École" ([search_title_ascii_only]).  An int parameter outside SQLite's
      64-bit range answers 500 (or the 422/404 of an earlier check) and
      leaves the table unchanged ([handle_int_overflow]); the refinement
      [handle_refines_state] holds exactly on the requests that bind.
      From the empty table, the ids [serve] produces stay between 1 and
      the number of requests ([serve_ids_bounded]), which justifies the
      rowid rule below.

    ** Bounds, fuel and what is abstracted

    Python ints are unbounded: grades, sums and counts are [Z] and [nat].
    A Python float is the rational it denotes, and each float operation
    rounds its exact result with [rn]: the quotients [sum / len], every
    addition of [sum(averages)], the conversion of [len(averages)] and the
    final division.  [rn] has no overflow to infinity: the printed values
    are at most 100 and the sums at most [100 * 2^40] under the
    [2^40]-student bound of [report_summary_bounds], far below [2^1024].
    [sum] of floats is CPython 3.11's (the interpreter here), which adds
    in a C double; 3.12 and later compensate the rounding errors instead.
    Randomly generated sessions give texts identical to CPython's.  The two
    [while True] loops run on fuel; [run_program] gives one unit more than
    the number of input lines, which is enough because every iteration
    that continues has read a line ([main_loop_fuel_irrelevant] shows the
    result is the same for every sufficient fuel and never [OutOfFuel]).
    A [KeyboardInterrupt] is modelled where the program waits for input
    ([input()] reading a Ctrl-C), not between two bytecodes.  Strings are
    sequences of Unicode code points: an input line is the [str] [input()]
    returns, after the decoding of standard input (UTF-8), which is not
    modelled; the string methods are exact on every code point, and
    randomly generated sessions with Greek, Turkish, full-width and
    Arabic-Indic input print the same text as CPython.  In the book
    service, text is a list of code points too; ids, years and paging
    parameters are
    [Z], and the binding of each to SQLite's 64-bit INTEGER is checked
    where the code binds it ([Sql.int64]).  SQLite's rowid choice after
    [2^63-1] (a random unused rowid) is not modelled: [serve_ids_bounded]
    shows it is not reached by fewer than [2^63-1] requests.  HTTP
    framing, JSON and pydantic coercions are not modelled: a route
    receives its parameters already validated for type.  The [BookRead]
    validation of a response always succeeds in the model: a row's title
    and author are [text], not optional, because the commit turns a
    [NULL] into a 500 before any row holds one ([Sql.commit_obj]).
    [database.py] and [models.py] are not among the sources; the table
    is modelled from the specification and SQLite's documentation, and
    engines and transactions beyond commit-or-rollback are not modelled.

    ** Further work

    Every function and class of the sources is mapped; what remains is
    the depth of the theorems, not the breadth of the model.
*)

From stdpp Require Export base list strings.
From Stdlib Require Export ZArith QArith Qminmax Lia Lqa.

(** [QArith] opens [Q_scope]; the development writes [%Q] where it means
    rationals. *)
Close Scope Q_scope.

(** ** Python exceptions and the state/exception monad

    The programs of the repository are Python; the effects they have are
    state (a registry mutated in place, an input stream consumed line by
    line, an output stream), and the exceptions that cross function
    boundaries.  [PyM W A] is a computation over the world [W] that returns
    an [A], raises a Python exception, or runs out of the fuel that bounds
    its [while True] loops. *)

Inductive py_exc : Type :=
  | EOFError
  | KeyboardInterrupt.

#[export] Instance py_exc_eq_dec : EqDecision py_exc.
Proof. solve_decision. Defined.

Inductive outcome (A : Type) : Type :=
  | Ret (a : A)
  | Raise (e : py_exc)
  | OutOfFuel.
Arguments Ret {A} a.
Arguments Raise {A} e.
Arguments OutOfFuel {A}.

Definition PyM (W A : Type) : Type := W → outcome A * W.

#[export] Instance PyM_ret W : MRet (PyM W) := λ A a w, (Ret a, w).
#[export] Instance PyM_bind W : MBind (PyM W) := λ A B k m w,
  match m w with
  | (Ret a, w') => k a w'
  | (Raise e, w') => (Raise e, w')
  | (OutOfFuel, w') => (OutOfFuel, w')
  end.
#[export] Instance PyM_throw W : MThrow py_exc (PyM W) := λ A e w, (Raise e, w).

Definition out_of_fuel {W A} : PyM W A := λ w, (OutOfFuel, w).
Definition get_world {W} : PyM W W := λ w, (Ret w, w).
Definition modify_world {W} (f : W → W) : PyM W unit := λ w, (Ret tt, f w).

(** ** Python builtins used by the code

    [sum] of a list of ints starts at [0] and adds from the left. *)
Definition py_sum (l : list Z) : Z := fold_left Z.add l 0%Z.

(** True division of two ints: [a / b] raises [ZeroDivisionError] when
    [b = 0] (the [None] here), and gives a float otherwise. *)
Definition py_truediv (a b : Z) : option Q :=
  if Z.eqb b 0 then None else Some (inject_Z a / inject_Z b)%Q.

(** Strict comparison of floats, [x < y]. *)
Definition Qltb (x y : Q) : bool := negb (Qle_bool y x).

(** CPython's [max] and [min] (bltinmodule.c, [min_max]) scan the iterable
    once and replace the current candidate by an item only when the item
    compares strictly better ([Py_GT] for [max], [Py_LT] for [min]); they
    raise [ValueError] on an empty iterable.  [py_select1 better x xs] is
    that scan started with the first item [x]. *)
Definition select_step {A} (better : A → A → bool) (best y : A) : A :=
  if better y best then y else best.

Definition py_select1 {A} (better : A → A → bool) (x : A) (xs : list A) : A :=
  fold_left (select_step better) xs x.

(** [max(l, key=k)]: replace when [k item > k best]. *)
Definition py_max_by {A} (key : A → Q) (x : A) (xs : list A) : A :=
  py_select1 (λ y best, Qltb (key best) (key y)) x xs.

(** [max(l)] and [min(l)] on a list of floats. *)
Definition py_max (x : Q) (xs : list Q) : Q :=
  py_select1 (λ y best, Qltb best y) x xs.
Definition py_min (x : Q) (xs : list Q) : Q :=
  py_select1 (λ y best, Qltb y best) x xs.

(** The reference specification of [max(l, key=k)]: the first element of
    [l] whose key is at least the key of every element. *)
Definition first_max_ref {A} (key : A → Q) (l : list A) : option A :=
  find (λ y, forallb (λ z, Qle_bool (key z) (key y)) l) l.

(** ** Automation *)

Create HintDb pyrt.
Create Rewrite HintDb pyrt_rw.

Ltac invc H := inversion H; subst; clear H.

(** Case analysis on the comparisons the builtins make. *)
Ltac case_qltb :=
  repeat match goal with
  | |- context [Qltb ?x ?y] =>
      let E := fresh "E" in destruct (Qltb x y) eqn:E
  | H : context [Qltb ?x ?y] |- _ =>
      let E := fresh "E" in destruct (Qltb x y) eqn:E
  end.

(** ** Lemmas on the builtins *)

Section Builtins.
Local Open Scope Q_scope.

Lemma Qltb_spec (x y : Q) : Qltb x y = true ↔ x < y.
Proof.
  unfold Qltb. rewrite negb_true_iff.
  split; intros H.
  - apply Qnot_le_lt. intros Hle. apply Qle_bool_iff in Hle. congruence.
  - destruct (Qle_bool y x) eqn:E; [|done]. apply Qle_bool_iff in E. lra.
Qed.

Lemma Qltb_false (x y : Q) : Qltb x y = false ↔ y <= x.
Proof.
  unfold Qltb. rewrite negb_false_iff. apply Qle_bool_iff.
Qed.

Lemma fold_left_Zadd_acc (l : list Z) (a : Z) :
  fold_left Z.add l a = (a + fold_left Z.add l 0)%Z.
Proof.
  revert a. induction l as [|x l IH]; intros a; simpl; [lia|].
  rewrite (IH (a + x)%Z), (IH (0 + x)%Z). lia.
Qed.

Lemma py_sum_cons (x : Z) (l : list Z) : py_sum (x :: l) = (x + py_sum l)%Z.
Proof. unfold py_sum. simpl. apply fold_left_Zadd_acc. Qed.

Lemma py_sum_app (l1 l2 : list Z) : py_sum (l1 ++ l2) = (py_sum l1 + py_sum l2)%Z.
Proof.
  induction l1 as [|x l1 IH]; [done|].
  rewrite <-app_comm_cons, !py_sum_cons, IH. lia.
Qed.

(** Each element within [[lo, hi]] bounds the sum by [lo * n] and [hi * n]. *)
Lemma py_sum_bounds (lo hi : Z) (l : list Z) :
  Forall (λ g, lo <= g <= hi)%Z l →
  (lo * Z.of_nat (length l) <= py_sum l <= hi * Z.of_nat (length l))%Z.
Proof.
  induction 1 as [|x l Hx _ IH]; [unfold py_sum; simpl; lia|].
  rewrite py_sum_cons. simpl length. lia.
Qed.

Lemma Qdiv_bounds (lo hi s n : Q) :
  0 < n → lo * n <= s <= hi * n → lo <= s / n <= hi.
Proof.
  intros Hn [Hl Hh]. split.
  - apply Qle_shift_div_l; [done|]. lra.
  - apply Qle_shift_div_r; [done|]. lra.
Qed.

(** The scan of [max(l, key=k)] returns its starting element, or an element
    of the rest that is strictly above the start and every element before it
    and at least every element after it. *)
Lemma select_fold_spec {A} (key : A → Q) (xs : list A) (b r : A) :
  fold_left (select_step (λ y best, Qltb (key best) (key y))) xs b = r →
  (r = b ∧ ∀ y, y ∈ xs → key y <= key b) ∨
  (∃ pre post, xs = pre ++ r :: post ∧ key b < key r ∧
     (∀ y, y ∈ pre → key y < key r) ∧ (∀ y, y ∈ post → key y <= key r)).
Proof.
  revert b. induction xs as [|x xs IH]; intros b Hr; simpl in Hr.
  { left. split; [done|]. intros y Hy. by apply elem_of_nil in Hy. }
  change (select_step _ b x) with (if Qltb (key b) (key x) then x else b) in Hr.
  destruct (Qltb (key b) (key x)) eqn:E.
  - apply Qltb_spec in E. right.
    destruct (IH x Hr) as [[-> Hall] | (pre & post & -> & Hlt & Hpre & Hpost)].
    + exists [], xs. split; [done|]. split; [done|]. split; [|done].
      intros y Hy. by apply elem_of_nil in Hy.
    + exists (x :: pre), post. split; [done|]. split; [lra|]. split; [|done].
      intros y [->|Hy]%elem_of_cons; [lra|]. by apply Hpre.
  - apply Qltb_false in E.
    destruct (IH b Hr) as [[Hr' Hall] | (pre & post & Heq & Hlt & Hpre & Hpost)].
    + left. split; [done|]. intros y [->|Hy]%elem_of_cons; [done|]. by apply Hall.
    + right. exists (x :: pre), post. rewrite Heq. split; [done|]. split; [done|].
      split; [|done]. intros y [->|Hy]%elem_of_cons; [lra|]. by apply Hpre.
Qed.

(** [max(l, key=k)] returns the first element of maximal key: every element
    before it has a strictly smaller key, and no element has a larger one. *)
Lemma py_max_by_spec {A} (key : A → Q) (x : A) (xs : list A) :
  let r := py_max_by key x xs in
  ∃ pre post, x :: xs = pre ++ r :: post ∧
    (∀ y, y ∈ pre → key y < key r) ∧ (∀ y, y ∈ x :: xs → key y <= key r).
Proof.
  intros r. pose proof (select_fold_spec key xs x r eq_refl) as Hs. clearbody r.
  destruct Hs as [[-> Hall] | (pre & post & -> & Hlt & Hpre & Hpost)].
  - exists [], xs. split; [done|]. split.
    + intros y Hy. by apply elem_of_nil in Hy.
    + intros y [->|Hy]%elem_of_cons; [lra|]. by apply Hall.
  - exists (x :: pre), post. split; [done|]. split.
    + intros y [->|Hy]%elem_of_cons; [lra|]. by apply Hpre.
    + intros y [->|[Hy|[->|Hy]%elem_of_cons]%elem_of_app]%elem_of_cons; [lra| |lra|by apply Hpost].
      specialize (Hpre y Hy). lra.
Qed.

Lemma py_max_by_elem {A} (key : A → Q) (x : A) (xs : list A) :
  py_max_by key x xs ∈ x :: xs.
Proof.
  destruct (py_max_by_spec key x xs) as (pre & post & Heq & _ & _).
  rewrite Heq. apply elem_of_app. right. apply elem_of_cons. by left.
Qed.

Lemma py_max_by_ge {A} (key : A → Q) (x : A) (xs : list A) (y : A) :
  y ∈ x :: xs → key y <= key (py_max_by key x xs).
Proof.
  destruct (py_max_by_spec key x xs) as (pre & post & _ & _ & Hall). apply Hall.
Qed.

Lemma select1_ext {A} (b1 b2 : A → A → bool) (x : A) (xs : list A) :
  (∀ y z, b1 y z = b2 y z) → py_select1 b1 x xs = py_select1 b2 x xs.
Proof.
  intros Hb. unfold py_select1. revert x. induction xs as [|y xs IH]; intros x; [done|].
  simpl. unfold select_step at 2 4. rewrite Hb. apply IH.
Qed.

Lemma py_max_as_by (x : Q) (xs : list Q) : py_max x xs = py_max_by id x xs.
Proof. by apply select1_ext. Qed.

Lemma py_min_as_by (x : Q) (xs : list Q) : py_min x xs = py_max_by Qopp x xs.
Proof.
  apply select1_ext. intros y z.
  apply Bool.eq_iff_eq_true. rewrite !Qltb_spec. lra.
Qed.

Lemma py_max_elem_ge (x : Q) (xs : list Q) :
  py_max x xs ∈ x :: xs ∧ ∀ y, y ∈ x :: xs → y <= py_max x xs.
Proof.
  rewrite py_max_as_by. split; [apply py_max_by_elem|].
  intros y Hy. by apply (py_max_by_ge id).
Qed.

Lemma py_min_elem_le (x : Q) (xs : list Q) :
  py_min x xs ∈ x :: xs ∧ ∀ y, y ∈ x :: xs → py_min x xs <= y.
Proof.
  rewrite py_min_as_by. split; [apply py_max_by_elem|].
  intros y Hy. pose proof (py_max_by_ge Qopp x xs y Hy). simpl in *. lra.
Qed.

End Builtins.

#[export] Hint Rewrite py_sum_cons py_sum_app : pyrt_rw.
#[export] Hint Resolve py_max_by_elem py_max_by_ge : pyrt.

(** ** Generic lemmas on [list_find] *)

Section ListFind.
Context {A : Type}.

Lemma list_find_ext_Forall (P Q : A → Prop) `{∀ x, Decision (P x)} `{∀ x, Decision (Q x)}
    (l : list A) :
  Forall (λ x, P x ↔ Q x) l → list_find P l = list_find Q l.
Proof.
  induction 1 as [|x l Hx _ IH]; [done|]. simpl.
  case_decide as HP; case_decide as HQ; try tauto. by rewrite IH.
Qed.

(** Updating one element with a function that keeps the predicate leaves
    the search at the same index. *)
Lemma list_find_alter (P : A → Prop) `{∀ x, Decision (P x)} (h : A → A) (i : nat) (l : list A) :
  (∀ x, P (h x) ↔ P x) →
  list_find P (alter h i l) =
  (λ jx : nat * A, if decide (jx.1 = i) then (jx.1, h jx.2) else jx) <$> list_find P l.
Proof.
  intros Hh. revert i. induction l as [|x l IH]; intros i; [done|].
  destruct i as [|i].
  - simpl. pose proof (Hh x). case_decide; case_decide; try tauto; try done.
    destruct (list_find P l) as [[j y]|]; [|done]. simpl.
    repeat case_decide; first [done | lia].
  - change (alter h (S i) (x :: l)) with (x :: alter h i l). cbn [list_find].
    case_decide as Hx.
    + simpl. repeat case_decide; first [done | lia].
    + rewrite IH. destruct (list_find P l) as [[j y]|]; [|done]. simpl.
      repeat case_decide; simpl; first [done | lia].
Qed.

End ListFind.

(** ** Relations a computation respects

    [respects R m]: from any world [w], the world [m] leaves is [R]-related
    to [w], whatever the outcome (a normal return, an exception, or running
    out of fuel).  With [R] a preorder this composes through [≫=]; the
    registry invariant and the shrinking of the input stream are both
    proved this way. *)
Definition respects {W A} (R : relation W) (m : PyM W A) : Prop :=
  ∀ w, R w (m w).2.

Section Respects.
Context {W : Type} (R : relation W) `{!PreOrder R}.

Lemma respects_ret {A} (a : A) : respects R (mret a).
Proof. intros w. simpl. reflexivity. Qed.

Lemma respects_bind {A B} (m : PyM W A) (k : A → PyM W B) :
  respects R m → (∀ a, respects R (k a)) → respects R (m ≫= k).
Proof.
  intros Hm Hk w. unfold mbind, PyM_bind. specialize (Hm w).
  destruct (m w) as [[a|e|] w']; simpl in *; [|done|done].
  etrans; [exact Hm|apply Hk].
Qed.

Lemma respects_throw {A} (e : py_exc) : respects R (mthrow (M:=PyM W) (A:=A) e).
Proof. intros w. simpl. reflexivity. Qed.

Lemma respects_out_of_fuel {A} : respects R (out_of_fuel (A:=A)).
Proof. intros w. simpl. reflexivity. Qed.

Lemma respects_get_world : respects R get_world.
Proof. intros w. simpl. reflexivity. Qed.

Lemma respects_modify_world (f : W → W) : (∀ w, R w (f w)) → respects R (modify_world f).
Proof. intros Hf w. apply Hf. Qed.

End Respects.

#[export] Hint Resolve respects_ret respects_throw respects_out_of_fuel
  respects_get_world : pyrt.

(** Decompose a goal [respects R (m ≫= k)] into its pieces. *)
Ltac respects_step :=
  repeat match goal with
  | |- respects _ (_ ≫= _) => apply respects_bind; [|intros ?]
  | |- ∀ _, _ => intros ?
  | |- respects _ (match ?x with _ => _ end) => destruct x
  | |- respects _ (if ?b then _ else _) => destruct b
  end.

(** ** [max(l, key=k)] and [max(map(k, l))] pick the same position *)

Lemma select_fold_map {A} (key : A → Q) (xs : list A) (b : A) :
  key (fold_left (select_step (λ y best, Qltb (key best) (key y))) xs b) =
  fold_left (select_step (λ y best, Qltb best y)) (map key xs) (key b).
Proof.
  revert b. induction xs as [|x xs IH]; intros b; [done|]. simpl. rewrite IH.
  f_equal. unfold select_step. by destruct (Qltb (key b) (key x)).
Qed.

Lemma py_max_by_map {A} (key : A → Q) (x : A) (xs : list A) :
  key (py_max_by key x xs) = py_max (key x) (map key xs).
Proof. apply select_fold_map. Qed.

(** An element of [filter P l] splits [l] at one of its positions. *)
Lemma filter_split {A} (P : A → Prop) `{∀ x, Decision (P x)} (l l1 l2 : list A) (x : A) :
  filter P l = l1 ++ x :: l2 →
  ∃ pre post, l = pre ++ x :: post ∧ filter P pre = l1 ∧ P x.
Proof.
  revert l1. induction l as [|y l IH]; intros l1 Hf.
  { rewrite filter_nil in Hf. by destruct l1. }
  rewrite filter_cons in Hf. case_decide as Hy.
  - destruct l1 as [|z l1]; simpl in Hf; injection Hf as Hyx Hf; subst.
    + exists [], l. split; [done|]. by rewrite filter_nil.
    + destruct (IH l1 Hf) as (pre & post & -> & Hpre & Hx).
      exists (z :: pre), post. split; [done|]. rewrite filter_cons. case_decide; [|done].
      by rewrite Hpre.
  - destruct (IH l1 Hf) as (pre & post & -> & Hpre & Hx).
    exists (y :: pre), post. split; [done|]. rewrite filter_cons. by case_decide.
Qed.

(** ** Computations without loops never run out of fuel *)

Definition fuel_safe {W A} (m : PyM W A) : Prop := ∀ w, (m w).1 ≠ OutOfFuel.

Section FuelSafe.
Context {W : Type}.

Lemma fuel_safe_ret {A} (a : A) : fuel_safe (W:=W) (mret a).
Proof. intros w. done. Qed.

Lemma fuel_safe_bind {A B} (m : PyM W A) (k : A → PyM W B) :
  fuel_safe m → (∀ a, fuel_safe (k a)) → fuel_safe (m ≫= k).
Proof.
  intros Hm Hk w. unfold mbind, PyM_bind. specialize (Hm w).
  destruct (m w) as [[a|e|] w']; simpl in *; [apply Hk|done|done].
Qed.

Lemma fuel_safe_get_world : fuel_safe (W:=W) get_world.
Proof. intros w. done. Qed.

Lemma fuel_safe_modify_world (f : W → W) : fuel_safe (modify_world f).
Proof. intros w. done. Qed.

End FuelSafe.

#[export] Hint Resolve fuel_safe_ret fuel_safe_get_world fuel_safe_modify_world : pyrt.

Lemma bind_not_out_of_fuel {W A B} (m : PyM W A) (k : A → PyM W B) (w : W) :
  (m w).1 ≠ OutOfFuel → (∀ a, fuel_safe (k a)) → ((m ≫= k) w).1 ≠ OutOfFuel.
Proof.
  intros Hm Hk. unfold mbind, PyM_bind.
  destruct (m w) as [[a|e|] w']; simpl in *; [apply Hk|done|done].
Qed.

Lemma bind_ret_const {W A B} (m : PyM W A) (b b' : B) (w w' : W) :
  (m ≫= λ _, mret b) w = (Ret b', w') → b' = b.
Proof.
  unfold mbind, PyM_bind, mret, PyM_ret.
  destruct (m w) as [[a|e|] w'']; intros H; simplify_eq; done.
Qed.

(** ** The scan against its reference specification *)

Lemma find_app_cons {A} (p : A → bool) (pre post : list A) (r : A) :
  Forall (λ y, p y = false) pre → p r = true → find p (pre ++ r :: post) = Some r.
Proof.
  induction 1 as [|y pre Hy _ IH]; intros Hr; simpl; [by rewrite Hr|]. by rewrite Hy, IH.
Qed.

(** CPython's single-pass [max(l, key=k)] returns the first element whose
    key is at least every key: the reference [first_max_ref]. *)
Theorem py_max_by_first_max_ref {A} (key : A → Q) (x : A) (xs : list A) :
  first_max_ref key (x :: xs) = Some (py_max_by key x xs).
Proof.
  unfold first_max_ref.
  destruct (py_max_by_spec key x xs) as (pre & post & Hsplit & Hlt & Hle).
  set (p := λ y, forallb (λ z, Qle_bool (key z) (key y)) (x :: xs)).
  rewrite Hsplit. apply find_app_cons; unfold p.
  - apply Forall_forall. intros y Hy. apply not_true_iff_false. intros Hall.
    apply forallb_forall with (x := py_max_by key x xs) in Hall.
    + apply Qle_bool_iff in Hall. specialize (Hlt y Hy). lra.
    + apply list_elem_of_In. rewrite Hsplit. apply elem_of_app. right. by left.
  - apply forallb_forall. intros z Hz. apply Qle_bool_iff, Hle. by apply list_elem_of_In.
Qed.

(** Discharge a closed side condition of a witness by evaluation; a
    [Forall] over a literal list is split first, so that evaluation never
    runs under a binder. *)
Ltac discharge :=
  lazymatch goal with
  | |- Forall _ [] => constructor
  | |- Forall _ (_ :: _) => constructor; [cbv beta; discharge | discharge]
  | |- _ ∧ _ => split; discharge
  | _ => first [ lia
               | apply (bool_decide_unpack _); vm_compute; exact I
               | vm_compute; reflexivity
               | vm_compute; discriminate ]
  end.
