(* ===== verification/PyUnicode.v ===== *)
(** * CPython's Unicode character data, as [str] uses it

    The string methods the analyzer calls consult CPython's character
    database ([Objects/unicodectype.c] over the tables generated into
    [unicodetype_db.h]); the interpreter is CPython 3.11, whose database is
    Unicode 14.0.0.  This file holds the part of it those methods read,
    each as a function on code points ([Z]):
    - [py_isspace] is [Py_UNICODE_ISSPACE]: the ASCII table
      [_Py_ascii_whitespace] below 128, [_PyUnicode_IsWhitespace] above;
    - [py_todecimal] is [Py_UNICODE_TODECIMAL]: the decimal digits come in
      blocks of ten consecutive code points from a zero ([decimal_zeros]);
    - [lower_full] is [_PyUnicode_ToLowerFull]: one code point maps to two
      (U+0130 to [i] and U+0307), every other one to one code point, given
      by the stride ranges of [lower_ranges];
    - [py_iscased] and [py_iscaseignorable] are [_PyUnicode_IsCased] and
      [_PyUnicode_IsCaseIgnorable], the two properties [str.lower] reads
      around a capital sigma.
    The tables are data: they agree with CPython 3.11 on every code point
    below [0x110000].  The lemmas state what [PyStr] needs of them
    (lowering is idempotent, keeps whitespace and never yields a capital
    sigma), each proved once over the finitely many code points the
    tables name ([lower_full_forall]). *)

From S2P Require Import Prelude.

Local Open Scope Z_scope.

(** ** Whitespace *)

(** [_Py_ascii_whitespace]: 9-13 and 28-32. *)
Definition ascii_whitespace (c : Z) : bool :=
  ((9 <=? c) && (c <=? 13)) || ((28 <=? c) && (c <=? 32)).

(** The code points [_PyUnicode_IsWhitespace] accepts. *)
Definition unicode_whitespace_chars : list Z :=
  [9; 10; 11; 12; 13; 28; 29; 30; 31; 32; 133; 160; 5760;
   8192; 8193; 8194; 8195; 8196; 8197; 8198; 8199; 8200; 8201; 8202;
   8232; 8233; 8239; 8287; 12288].

Definition unicode_whitespace (c : Z) : bool :=
  bool_decide (c ∈ unicode_whitespace_chars).

(** [Py_UNICODE_ISSPACE(ch)]. *)
Definition py_isspace (c : Z) : bool :=
  if c <? 128 then ascii_whitespace c else unicode_whitespace c.

(** ** Decimal digits *)

Definition decimal_zeros : list Z := [
  48; 1632; 1776; 1984; 2406; 2534; 2662; 2790; 2918; 3046;
  3174; 3302; 3430; 3558; 3664; 3792; 3872; 4160; 4240; 6112;
  6160; 6470; 6608; 6784; 6800; 6992; 7088; 7232; 7248; 42528;
  43216; 43264; 43472; 43504; 43600; 44016; 65296; 66720; 68912; 69734;
  69872; 69942; 70096; 70384; 70736; 70864; 71248; 71360; 71472; 71904;
  72016; 72784; 73040; 73120; 92768; 92864; 93008; 120782; 120792; 120802;
  120812; 120822; 123200; 123632; 125264; 130032].

(** [Py_UNICODE_TODECIMAL(ch)], [None] for [-1]. *)
Definition py_todecimal (c : Z) : option Z :=
  (λ z, c - z) <$> find (λ z, (z <=? c) && (c <? z + 10)) decimal_zeros.

(** ** Cased and case-ignorable code points *)

Definition in_ranges (rs : list (Z * Z)) (c : Z) : bool :=
  existsb (λ r, (r.1 <=? c) && (c <=? r.2)) rs.

Definition cased_ranges : list (Z * Z) := [
  (65, 90); (97, 122); (170, 170); (181, 181); (186, 186); (192, 214);
  (216, 246); (248, 442); (444, 447); (452, 659); (661, 696); (704, 705);
  (736, 740); (837, 837); (880, 883); (886, 887); (890, 893); (895, 895);
  (902, 902); (904, 906); (908, 908); (910, 929); (931, 1013); (1015, 1153);
  (1162, 1327); (1329, 1366); (1376, 1416); (4256, 4293); (4295, 4295); (4301, 4301);
  (4304, 4346); (4349, 4351); (5024, 5109); (5112, 5117); (7296, 7304); (7312, 7354);
  (7357, 7359); (7424, 7615); (7680, 7957); (7960, 7965); (7968, 8005); (8008, 8013);
  (8016, 8023); (8025, 8025); (8027, 8027); (8029, 8029); (8031, 8061); (8064, 8116);
  (8118, 8124); (8126, 8126); (8130, 8132); (8134, 8140); (8144, 8147); (8150, 8155);
  (8160, 8172); (8178, 8180); (8182, 8188); (8305, 8305); (8319, 8319); (8336, 8348);
  (8450, 8450); (8455, 8455); (8458, 8467); (8469, 8469); (8473, 8477); (8484, 8484);
  (8486, 8486); (8488, 8488); (8490, 8493); (8495, 8500); (8505, 8505); (8508, 8511);
  (8517, 8521); (8526, 8526); (8544, 8575); (8579, 8580); (9398, 9449); (11264, 11492);
  (11499, 11502); (11506, 11507); (11520, 11557); (11559, 11559); (11565, 11565); (42560, 42605);
  (42624, 42653); (42786, 42887); (42891, 42894); (42896, 42954); (42960, 42961); (42963, 42963);
  (42965, 42969); (42997, 42998); (43000, 43002); (43824, 43866); (43868, 43880); (43888, 43967);
  (64256, 64262); (64275, 64279); (65313, 65338); (65345, 65370); (66560, 66639); (66736, 66771);
  (66776, 66811); (66928, 66938); (66940, 66954); (66956, 66962); (66964, 66965); (66967, 66977);
  (66979, 66993); (66995, 67001); (67003, 67004); (67456, 67456); (67459, 67461); (67463, 67504);
  (67506, 67514); (68736, 68786); (68800, 68850); (71840, 71903); (93760, 93823); (119808, 119892);
  (119894, 119964); (119966, 119967); (119970, 119970); (119973, 119974); (119977, 119980); (119982, 119993);
  (119995, 119995); (119997, 120003); (120005, 120069); (120071, 120074); (120077, 120084); (120086, 120092);
  (120094, 120121); (120123, 120126); (120128, 120132); (120134, 120134); (120138, 120144); (120146, 120485);
  (120488, 120512); (120514, 120538); (120540, 120570); (120572, 120596); (120598, 120628); (120630, 120654);
  (120656, 120686); (120688, 120712); (120714, 120744); (120746, 120770); (120772, 120779); (122624, 122633);
  (122635, 122654); (125184, 125251); (127280, 127305); (127312, 127337); (127344, 127369)].

Definition case_ignorable_ranges : list (Z * Z) := [
  (39, 39); (46, 46); (58, 58); (94, 94); (96, 96); (168, 168);
  (173, 173); (175, 175); (180, 180); (183, 184); (688, 879); (884, 885);
  (890, 890); (900, 901); (903, 903); (1155, 1161); (1369, 1369); (1375, 1375);
  (1425, 1469); (1471, 1471); (1473, 1474); (1476, 1477); (1479, 1479); (1524, 1524);
  (1536, 1541); (1552, 1562); (1564, 1564); (1600, 1600); (1611, 1631); (1648, 1648);
  (1750, 1757); (1759, 1768); (1770, 1773); (1807, 1807); (1809, 1809); (1840, 1866);
  (1958, 1968); (2027, 2037); (2042, 2042); (2045, 2045); (2070, 2093); (2137, 2139);
  (2184, 2184); (2192, 2193); (2200, 2207); (2249, 2306); (2362, 2362); (2364, 2364);
  (2369, 2376); (2381, 2381); (2385, 2391); (2402, 2403); (2417, 2417); (2433, 2433);
  (2492, 2492); (2497, 2500); (2509, 2509); (2530, 2531); (2558, 2558); (2561, 2562);
  (2620, 2620); (2625, 2626); (2631, 2632); (2635, 2637); (2641, 2641); (2672, 2673);
  (2677, 2677); (2689, 2690); (2748, 2748); (2753, 2757); (2759, 2760); (2765, 2765);
  (2786, 2787); (2810, 2815); (2817, 2817); (2876, 2876); (2879, 2879); (2881, 2884);
  (2893, 2893); (2901, 2902); (2914, 2915); (2946, 2946); (3008, 3008); (3021, 3021);
  (3072, 3072); (3076, 3076); (3132, 3132); (3134, 3136); (3142, 3144); (3146, 3149);
  (3157, 3158); (3170, 3171); (3201, 3201); (3260, 3260); (3263, 3263); (3270, 3270);
  (3276, 3277); (3298, 3299); (3328, 3329); (3387, 3388); (3393, 3396); (3405, 3405);
  (3426, 3427); (3457, 3457); (3530, 3530); (3538, 3540); (3542, 3542); (3633, 3633);
  (3636, 3642); (3654, 3662); (3761, 3761); (3764, 3772); (3782, 3782); (3784, 3789);
  (3864, 3865); (3893, 3893); (3895, 3895); (3897, 3897); (3953, 3966); (3968, 3972);
  (3974, 3975); (3981, 3991); (3993, 4028); (4038, 4038); (4141, 4144); (4146, 4151);
  (4153, 4154); (4157, 4158); (4184, 4185); (4190, 4192); (4209, 4212); (4226, 4226);
  (4229, 4230); (4237, 4237); (4253, 4253); (4348, 4348); (4957, 4959); (5906, 5908);
  (5938, 5939); (5970, 5971); (6002, 6003); (6068, 6069); (6071, 6077); (6086, 6086);
  (6089, 6099); (6103, 6103); (6109, 6109); (6155, 6159); (6211, 6211); (6277, 6278);
  (6313, 6313); (6432, 6434); (6439, 6440); (6450, 6450); (6457, 6459); (6679, 6680);
  (6683, 6683); (6742, 6742); (6744, 6750); (6752, 6752); (6754, 6754); (6757, 6764);
  (6771, 6780); (6783, 6783); (6823, 6823); (6832, 6862); (6912, 6915); (6964, 6964);
  (6966, 6970); (6972, 6972); (6978, 6978); (7019, 7027); (7040, 7041); (7074, 7077);
  (7080, 7081); (7083, 7085); (7142, 7142); (7144, 7145); (7149, 7149); (7151, 7153);
  (7212, 7219); (7222, 7223); (7288, 7293); (7376, 7378); (7380, 7392); (7394, 7400);
  (7405, 7405); (7412, 7412); (7416, 7417); (7468, 7530); (7544, 7544); (7579, 7679);
  (8125, 8125); (8127, 8129); (8141, 8143); (8157, 8159); (8173, 8175); (8189, 8190);
  (8203, 8207); (8216, 8217); (8228, 8228); (8231, 8231); (8234, 8238); (8288, 8292);
  (8294, 8303); (8305, 8305); (8319, 8319); (8336, 8348); (8400, 8432); (11388, 11389);
  (11503, 11505); (11631, 11631); (11647, 11647); (11744, 11775); (11823, 11823); (12293, 12293);
  (12330, 12333); (12337, 12341); (12347, 12347); (12441, 12446); (12540, 12542); (40981, 40981);
  (42232, 42237); (42508, 42508); (42607, 42610); (42612, 42621); (42623, 42623); (42652, 42655);
  (42736, 42737); (42752, 42785); (42864, 42864); (42888, 42890); (42994, 42996); (43000, 43001);
  (43010, 43010); (43014, 43014); (43019, 43019); (43045, 43046); (43052, 43052); (43204, 43205);
  (43232, 43249); (43263, 43263); (43302, 43309); (43335, 43345); (43392, 43394); (43443, 43443);
  (43446, 43449); (43452, 43453); (43471, 43471); (43493, 43494); (43561, 43566); (43569, 43570);
  (43573, 43574); (43587, 43587); (43596, 43596); (43632, 43632); (43644, 43644); (43696, 43696);
  (43698, 43700); (43703, 43704); (43710, 43711); (43713, 43713); (43741, 43741); (43756, 43757);
  (43763, 43764); (43766, 43766); (43867, 43871); (43881, 43883); (44005, 44005); (44008, 44008);
  (44013, 44013); (64286, 64286); (64434, 64450); (65024, 65039); (65043, 65043); (65056, 65071);
  (65106, 65106); (65109, 65109); (65279, 65279); (65287, 65287); (65294, 65294); (65306, 65306);
  (65342, 65342); (65344, 65344); (65392, 65392); (65438, 65439); (65507, 65507); (65529, 65531);
  (66045, 66045); (66272, 66272); (66422, 66426); (67456, 67461); (67463, 67504); (67506, 67514);
  (68097, 68099); (68101, 68102); (68108, 68111); (68152, 68154); (68159, 68159); (68325, 68326);
  (68900, 68903); (69291, 69292); (69446, 69456); (69506, 69509); (69633, 69633); (69688, 69702);
  (69744, 69744); (69747, 69748); (69759, 69761); (69811, 69814); (69817, 69818); (69821, 69821);
  (69826, 69826); (69837, 69837); (69888, 69890); (69927, 69931); (69933, 69940); (70003, 70003);
  (70016, 70017); (70070, 70078); (70089, 70092); (70095, 70095); (70191, 70193); (70196, 70196);
  (70198, 70199); (70206, 70206); (70367, 70367); (70371, 70378); (70400, 70401); (70459, 70460);
  (70464, 70464); (70502, 70508); (70512, 70516); (70712, 70719); (70722, 70724); (70726, 70726);
  (70750, 70750); (70835, 70840); (70842, 70842); (70847, 70848); (70850, 70851); (71090, 71093);
  (71100, 71101); (71103, 71104); (71132, 71133); (71219, 71226); (71229, 71229); (71231, 71232);
  (71339, 71339); (71341, 71341); (71344, 71349); (71351, 71351); (71453, 71455); (71458, 71461);
  (71463, 71467); (71727, 71735); (71737, 71738); (71995, 71996); (71998, 71998); (72003, 72003);
  (72148, 72151); (72154, 72155); (72160, 72160); (72193, 72202); (72243, 72248); (72251, 72254);
  (72263, 72263); (72273, 72278); (72281, 72283); (72330, 72342); (72344, 72345); (72752, 72758);
  (72760, 72765); (72767, 72767); (72850, 72871); (72874, 72880); (72882, 72883); (72885, 72886);
  (73009, 73014); (73018, 73018); (73020, 73021); (73023, 73029); (73031, 73031); (73104, 73105);
  (73109, 73109); (73111, 73111); (73459, 73460); (78896, 78904); (92912, 92916); (92976, 92982);
  (92992, 92995); (94031, 94031); (94095, 94111); (94176, 94177); (94179, 94180); (110576, 110579);
  (110581, 110587); (110589, 110590); (113821, 113822); (113824, 113827); (118528, 118573); (118576, 118598);
  (119143, 119145); (119155, 119170); (119173, 119179); (119210, 119213); (119362, 119364); (121344, 121398);
  (121403, 121452); (121461, 121461); (121476, 121476); (121499, 121503); (121505, 121519); (122880, 122886);
  (122888, 122904); (122907, 122913); (122915, 122916); (122918, 122922); (123184, 123197); (123566, 123566);
  (123628, 123631); (125136, 125142); (125252, 125259); (127995, 127999); (917505, 917505); (917536, 917631);
  (917760, 917999)].

Definition py_iscased (c : Z) : bool := in_ranges cased_ranges c.
Definition py_iscaseignorable (c : Z) : bool := in_ranges case_ignorable_ranges c.

(** ** Lowercase mapping *)

(** [CR lo hi step delta]: every [c] in [[lo, hi]] with [c - lo] a multiple
    of [step] lowers to [c + delta]. *)
Record case_range : Type := CR {
  cr_lo : Z;
  cr_hi : Z;
  cr_step : Z;
  cr_delta : Z;
}.

Definition cr_mem (r : case_range) (c : Z) : bool :=
  (cr_lo r <=? c) && (c <=? cr_hi r) && (Z.rem (c - cr_lo r) (cr_step r) =? 0).

Definition lower_ranges : list case_range := [
  CR 65 90 1 32; CR 192 214 1 32; CR 216 222 1 32; CR 256 302 2 1; CR 306 310 2 1;
  CR 313 327 2 1; CR 330 374 2 1; CR 376 376 1 (-121); CR 377 381 2 1; CR 385 385 1 210;
  CR 386 388 2 1; CR 390 390 1 206; CR 391 391 1 1; CR 393 394 1 205; CR 395 395 1 1;
  CR 398 398 1 79; CR 399 399 1 202; CR 400 400 1 203; CR 401 401 1 1; CR 403 403 1 205;
  CR 404 404 1 207; CR 406 406 1 211; CR 407 407 1 209; CR 408 408 1 1; CR 412 412 1 211;
  CR 413 413 1 213; CR 415 415 1 214; CR 416 420 2 1; CR 422 422 1 218; CR 423 423 1 1;
  CR 425 425 1 218; CR 428 428 1 1; CR 430 430 1 218; CR 431 431 1 1; CR 433 434 1 217;
  CR 435 437 2 1; CR 439 439 1 219; CR 440 440 1 1; CR 444 444 1 1; CR 452 452 1 2;
  CR 453 453 1 1; CR 455 455 1 2; CR 456 456 1 1; CR 458 458 1 2; CR 459 475 2 1;
  CR 478 494 2 1; CR 497 497 1 2; CR 498 500 2 1; CR 502 502 1 (-97); CR 503 503 1 (-56);
  CR 504 542 2 1; CR 544 544 1 (-130); CR 546 562 2 1; CR 570 570 1 10795; CR 571 571 1 1;
  CR 573 573 1 (-163); CR 574 574 1 10792; CR 577 577 1 1; CR 579 579 1 (-195); CR 580 580 1 69;
  CR 581 581 1 71; CR 582 590 2 1; CR 880 882 2 1; CR 886 886 1 1; CR 895 895 1 116;
  CR 902 902 1 38; CR 904 906 1 37; CR 908 908 1 64; CR 910 911 1 63; CR 913 929 1 32;
  CR 931 939 1 32; CR 975 975 1 8; CR 984 1006 2 1; CR 1012 1012 1 (-60); CR 1015 1015 1 1;
  CR 1017 1017 1 (-7); CR 1018 1018 1 1; CR 1021 1023 1 (-130); CR 1024 1039 1 80; CR 1040 1071 1 32;
  CR 1120 1152 2 1; CR 1162 1214 2 1; CR 1216 1216 1 15; CR 1217 1229 2 1; CR 1232 1326 2 1;
  CR 1329 1366 1 48; CR 4256 4293 1 7264; CR 4295 4295 1 7264; CR 4301 4301 1 7264; CR 5024 5103 1 38864;
  CR 5104 5109 1 8; CR 7312 7354 1 (-3008); CR 7357 7359 1 (-3008); CR 7680 7828 2 1; CR 7838 7838 1 (-7615);
  CR 7840 7934 2 1; CR 7944 7951 1 (-8); CR 7960 7965 1 (-8); CR 7976 7983 1 (-8); CR 7992 7999 1 (-8);
  CR 8008 8013 1 (-8); CR 8025 8031 2 (-8); CR 8040 8047 1 (-8); CR 8072 8079 1 (-8); CR 8088 8095 1 (-8);
  CR 8104 8111 1 (-8); CR 8120 8121 1 (-8); CR 8122 8123 1 (-74); CR 8124 8124 1 (-9); CR 8136 8139 1 (-86);
  CR 8140 8140 1 (-9); CR 8152 8153 1 (-8); CR 8154 8155 1 (-100); CR 8168 8169 1 (-8); CR 8170 8171 1 (-112);
  CR 8172 8172 1 (-7); CR 8184 8185 1 (-128); CR 8186 8187 1 (-126); CR 8188 8188 1 (-9); CR 8486 8486 1 (-7517);
  CR 8490 8490 1 (-8383); CR 8491 8491 1 (-8262); CR 8498 8498 1 28; CR 8544 8559 1 16; CR 8579 8579 1 1;
  CR 9398 9423 1 26; CR 11264 11311 1 48; CR 11360 11360 1 1; CR 11362 11362 1 (-10743); CR 11363 11363 1 (-3814);
  CR 11364 11364 1 (-10727); CR 11367 11371 2 1; CR 11373 11373 1 (-10780); CR 11374 11374 1 (-10749); CR 11375 11375 1 (-10783);
  CR 11376 11376 1 (-10782); CR 11378 11378 1 1; CR 11381 11381 1 1; CR 11390 11391 1 (-10815); CR 11392 11490 2 1;
  CR 11499 11501 2 1; CR 11506 11506 1 1; CR 42560 42604 2 1; CR 42624 42650 2 1; CR 42786 42798 2 1;
  CR 42802 42862 2 1; CR 42873 42875 2 1; CR 42877 42877 1 (-35332); CR 42878 42886 2 1; CR 42891 42891 1 1;
  CR 42893 42893 1 (-42280); CR 42896 42898 2 1; CR 42902 42920 2 1; CR 42922 42922 1 (-42308); CR 42923 42923 1 (-42319);
  CR 42924 42924 1 (-42315); CR 42925 42925 1 (-42305); CR 42926 42926 1 (-42308); CR 42928 42928 1 (-42258); CR 42929 42929 1 (-42282);
  CR 42930 42930 1 (-42261); CR 42931 42931 1 928; CR 42932 42946 2 1; CR 42948 42948 1 (-48); CR 42949 42949 1 (-42307);
  CR 42950 42950 1 (-35384); CR 42951 42953 2 1; CR 42960 42960 1 1; CR 42966 42968 2 1; CR 42997 42997 1 1;
  CR 65313 65338 1 32; CR 66560 66599 1 40; CR 66736 66771 1 40; CR 66928 66938 1 39; CR 66940 66954 1 39;
  CR 66956 66962 1 39; CR 66964 66965 1 39; CR 68736 68786 1 64; CR 71840 71871 1 32; CR 93760 93791 1 32;
  CR 125184 125217 1 34].

(** [_PyUnicode_ToLowerFull(ch, res)]: the code points [res] receives. *)
Definition lower_full (c : Z) : list Z :=
  if c =? 304 then [105; 775]
  else match find (λ r, cr_mem r c) lower_ranges with
       | Some r => [c + cr_delta r]
       | None => [c]
       end.

(** ** The finitely many code points the lowercase table changes *)

Definition cr_elems (r : case_range) : list Z :=
  (λ k, cr_lo r + cr_step r * Z.of_nat k) <$>
    seq 0 (S (Z.to_nat ((cr_hi r - cr_lo r) / cr_step r))).

Definition lower_domain : list Z := 304 :: mjoin (cr_elems <$> lower_ranges).

(** Decide a closed proposition by evaluating its decision procedure. *)
Ltac decide_by_eval := apply (bool_decide_unpack _); vm_compute; exact I.

Lemma cr_mem_elems (r : case_range) (c : Z) :
  0 < cr_step r → cr_mem r c = true → c ∈ cr_elems r.
Proof.
  intros Hs Hm. unfold cr_mem in Hm.
  apply andb_prop in Hm as [Hm Hrem]. apply andb_prop in Hm as [Hlo Hhi].
  apply Z.leb_le in Hlo. apply Z.leb_le in Hhi. apply Z.eqb_eq in Hrem.
  apply Z.rem_mod_eq_0 in Hrem; [|lia].
  apply list_elem_of_fmap. exists (Z.to_nat ((c - cr_lo r) / cr_step r)).
  split.
  - rewrite Z2Nat.id by (apply Z.div_pos; lia).
    pose proof (Z.div_mod (c - cr_lo r) (cr_step r)) as Hd. lia.
  - apply list_elem_of_In, in_seq. split; [lia|].
    assert ((c - cr_lo r) / cr_step r ≤ (cr_hi r - cr_lo r) / cr_step r)
      by (apply Z.div_le_mono; lia).
    pose proof (Z.div_pos (c - cr_lo r) (cr_step r)). lia.
Qed.

Lemma lower_ranges_step : Forall (λ r, 0 < cr_step r) lower_ranges.
Proof. decide_by_eval. Qed.

(** A property of [lower_full c] holds for every code point when it holds
    on [lower_domain] and wherever [lower_full] is the identity. *)
Lemma lower_full_forall (P : Z → Prop) :
  Forall P lower_domain → (∀ c, lower_full c = [c] → P c) → ∀ c, P c.
Proof.
  intros Hdom Hid c. rewrite Forall_forall in Hdom.
  destruct (decide (c = 304)) as [->|Hc]; [apply Hdom; by left|].
  destruct (find (λ r, cr_mem r c) lower_ranges) as [r|] eqn:Ef.
  - apply find_some in Ef as [Hin Hm]. apply Hdom, elem_of_cons. right.
    apply list_elem_of_In in Hin. apply list_elem_of_join. exists (cr_elems r). split.
    + apply cr_mem_elems; [|done]. by apply (proj1 (Forall_forall _ _) lower_ranges_step).
    + apply list_elem_of_fmap. by exists r.
  - apply Hid. unfold lower_full. by rewrite (proj2 (Z.eqb_neq _ _) Hc), Ef.
Qed.

(** ** What the string methods need of the tables *)

(** Lowering again changes nothing, and never yields a capital sigma. *)
Lemma lower_full_fixed (c : Z) :
  Forall (λ d, lower_full d = [d] ∧ d ≠ 931) (lower_full c).
Proof.
  revert c. apply lower_full_forall; [decide_by_eval|].
  intros c Hc. rewrite Hc. constructor; [|done]. split; [done|].
  intros ->. by vm_compute in Hc.
Qed.

Lemma lower_full_space (c : Z) : py_isspace c = true → lower_full c = [c].
Proof.
  revert c. apply (lower_full_forall (λ c, py_isspace c = true → lower_full c = [c]));
    [decide_by_eval|]. by intros c Hc _.
Qed.

(** A code point that is not whitespace lowers to at least one code point,
    none of them whitespace. *)
Lemma lower_full_nonspace (c : Z) :
  py_isspace c = false → lower_full c ≠ [] ∧ Forall (λ d, py_isspace d = false) (lower_full c).
Proof.
  revert c. apply (lower_full_forall (λ c, py_isspace c = false →
    lower_full c ≠ [] ∧ Forall (λ d, py_isspace d = false) (lower_full c))); [decide_by_eval|].
  intros c Hc Hs. rewrite Hc. split; [done|]. by constructor.
Qed.

Lemma py_isspace_chars (c : Z) : py_isspace c = true → c ∈ unicode_whitespace_chars.
Proof.
  unfold py_isspace, ascii_whitespace, unicode_whitespace. intros Hs.
  destruct (c <? 128); [|by apply bool_decide_eq_true in Hs].
  destruct (decide (c ∈ unicode_whitespace_chars)) as [|Hn]; [done|]. exfalso.
  unfold unicode_whitespace_chars in Hn. rewrite !not_elem_of_cons in Hn.
  apply orb_true_iff in Hs as [Hs|Hs]; apply andb_prop in Hs as [H1 H2];
    apply Z.leb_le in H1; apply Z.leb_le in H2; lia.
Qed.

(** Whitespace is neither cased nor case-ignorable: it ends the scans
    around a capital sigma. *)
Lemma py_isspace_uncased (c : Z) :
  py_isspace c = true → py_iscaseignorable c = false ∧ py_iscased c = false.
Proof.
  intros Hs. apply py_isspace_chars in Hs. revert c Hs. apply Forall_forall.
  decide_by_eval.
Qed.
