(* ===== verification/PyStr.v ===== *)
(** * Python's [str] and the string methods the analyzer calls

    A [str] is a sequence of code points ([pystr], a list of [Z]); a string
    literal of this development is the UTF-8 text of a Rocq string literal
    read as code points (the notation scope [pystr_scope]).  The methods
    are CPython 3.11's, over the character data of [PyUnicode]:
    - [py_strip] is [str.strip()] ([do_strip]): drop [Py_UNICODE_ISSPACE]
      code points at both ends;
    - [py_lower] is [str.lower()] ([do_lower]): each code point through
      [_PyUnicode_ToLowerFull], except a capital sigma, which
      [handle_capital_sigma] lowers to the final form when a cased letter
      precedes it and none follows it (case-ignorable code points skipped);
    - [py_int] is [int(s)] ([PyLong_FromUnicodeObject]): every non-ASCII
      whitespace becomes a space and every decimal digit of any script its
      ASCII digit ([_PyUnicode_TransformDecimalAndSpaceToASCII]), then
      [PyLong_FromString] reads ASCII whitespace, one sign, digits with
      single underscores between them (at most 4300, the default
      [sys.set_int_max_str_digits] limit) and whitespace to the end. *)

From S2P Require Import Prelude PyUnicode.
From Stdlib Require Import Strings.Byte.

Local Open Scope Z_scope.

(** ** [str] *)

Definition pystr : Type := list Z.

(** *** Literals *)

Inductive pystr_lit : Type := PyStrLit (s : list Z).

Definition id_pystr : pystr → pystr := id.

Definition byte_z (b : byte) : Z := Z.of_N (Byte.to_N b).

(** UTF-8 decoding of the bytes of a literal (the source files are UTF-8);
    a truncated sequence keeps its lead byte. *)
Fixpoint utf8_decode (bs : list byte) : list Z :=
  match bs with
  | [] => []
  | b :: r =>
      let x := byte_z b in
      if x <? 192 then x :: utf8_decode r
      else if x <? 224 then
        match r with
        | b1 :: r1 => (x - 192) * 64 + (byte_z b1 - 128) :: utf8_decode r1
        | [] => [x]
        end
      else if x <? 240 then
        match r with
        | b1 :: b2 :: r2 =>
            ((x - 224) * 64 + (byte_z b1 - 128)) * 64 + (byte_z b2 - 128) :: utf8_decode r2
        | _ => [x]
        end
      else
        match r with
        | b1 :: b2 :: b3 :: r3 =>
            (((x - 240) * 64 + (byte_z b1 - 128)) * 64 + (byte_z b2 - 128)) * 64
              + (byte_z b3 - 128) :: utf8_decode r3
        | _ => [x]
        end
  end.

Definition parse_pystr (bs : list byte) : pystr_lit := PyStrLit (utf8_decode bs).

(** Literals are printed back when they are ASCII. *)
Definition print_pystr (l : pystr_lit) : option (list byte) :=
  match l with
  | PyStrLit s => mapM (λ z, if z <? 128 then Byte.of_N (Z.to_N z) else None) s
  end.

Declare Scope pystr_scope.
Delimit Scope pystr_scope with py.
Bind Scope pystr_scope with pystr.
#[warnings="-via-type-mismatch,-via-type-remapping"]
String Notation pystr parse_pystr print_pystr
  (via pystr_lit mapping [id_pystr => PyStrLit]) : pystr_scope.

(** ** [str.strip()] *)

Fixpoint lstrip_l (l : pystr) : pystr :=
  match l with
  | [] => []
  | c :: r => if py_isspace c then lstrip_l r else l
  end.

Definition rstrip_l (l : pystr) : pystr := rev (lstrip_l (rev l)).

(** [do_strip(self, BOTHSTRIP)]: the left end first, then the right end of
    what remains. *)
Definition py_strip (s : pystr) : pystr := rstrip_l (lstrip_l s).

(** ** [str.lower()] *)

(** One direction of the scans of [handle_capital_sigma]: skip the
    case-ignorable code points, then test the first other one for being
    cased ([false] at the end of the string). *)
Fixpoint cased_after_ignorable (l : list Z) : bool :=
  match l with
  | [] => false
  | c :: r => if py_iscaseignorable c then cased_after_ignorable r else py_iscased c
  end.

(** [handle_capital_sigma]: [before] is the string before the sigma, nearest
    first; [after] the string after it.  U+03C2 (final sigma) when a cased
    letter precedes and none follows, U+03C3 otherwise. *)
Definition handle_capital_sigma (before after : list Z) : Z :=
  if cased_after_ignorable before && negb (cased_after_ignorable after) then 962 else 963.

(** [lower_ucs4]: the code points one position lowers to. *)
Definition lower_ucs4 (before : list Z) (c : Z) (after : list Z) : list Z :=
  if c =? 931 then [handle_capital_sigma before after] else lower_full c.

(** [do_lower]: the loop over the positions of the string. *)
Fixpoint do_lower (before s : list Z) : list Z :=
  match s with
  | [] => []
  | c :: after => lower_ucs4 before c after ++ do_lower (c :: before) after
  end.

Definition py_lower (s : pystr) : pystr := do_lower [] s.

(** ** [int(str)] in base 10 *)

(** [_PyUnicode_TransformDecimalAndSpaceToASCII]: an ASCII string is
    returned as it is; otherwise code points below 127 are kept, other
    whitespace becomes a space, a decimal digit its ASCII digit, and the
    first other code point a ['?'] that ends the result. *)
Fixpoint transform_go (s : list Z) : list Z :=
  match s with
  | [] => []
  | c :: r =>
      if c <? 127 then c :: transform_go r
      else if py_isspace c then 32 :: transform_go r
      else match py_todecimal c with
           | Some d => 48 + d :: transform_go r
           | None => [63]
           end
  end.

Definition transform_decimal_and_space (s : pystr) : list Z :=
  if forallb (λ c, c <? 128) s then s else transform_go s.

(** [Py_ISSPACE] of [pyctype.h]: ASCII whitespace, for [PyLong_FromString]. *)
Definition ctype_isspace (c : Z) : bool := (c =? 32) || ((9 <=? c) && (c <=? 13)).

Fixpoint skip_ctype_space (l : list Z) : list Z :=
  match l with
  | c :: r => if ctype_isspace c then skip_ctype_space r else l
  | [] => []
  end.

(** The digit scan of [PyLong_FromString]: [prev_us] records that the
    previous character was an underscore, or that no digit has been read
    (a leading underscore and an empty digit string are refused, as are a
    doubled and a trailing underscore); the value, the number of digits
    and the rest of the buffer. *)
Fixpoint int_digits (l : list Z) (acc : Z) (prev_us : bool) (n : nat)
    : option (Z * nat * list Z) :=
  match l with
  | [] => if prev_us then None else Some (acc, n, [])
  | c :: r =>
      if c =? 95 then
        if prev_us then None else int_digits r acc true n
      else if (48 <=? c) && (c <=? 57) then int_digits r (acc * 10 + (c - 48)) false (S n)
      else if prev_us then None else Some (acc, n, l)
  end.

Definition int_max_str_digits : nat := 4300.

(** [PyLong_FromString(buffer, &end, 10)] followed by the check that it
    read the whole buffer. *)
Definition long_from_string (b : list Z) : option Z :=
  let l := skip_ctype_space b in
  let '(sign, body) :=
    match l with
    | c :: r => if c =? 43 then (1, r) else if c =? 45 then (-1, r) else (1, l)
    | [] => (1, l)
    end in
  match int_digits body 0 true 0 with
  | Some (v, n, rest) =>
      if (int_max_str_digits <? n)%nat then None
      else if bool_decide (skip_ctype_space rest = []) then Some (sign * v) else None
  | None => None
  end.

(** [PyLong_FromUnicodeObject(s, 10)]; [None] is the [ValueError].  The
    buffer is a C string: [PyLong_FromString] stops at a NUL, which then
    fails the end-of-buffer check. *)
Definition py_int (s : pystr) : option Z :=
  let b := transform_decimal_and_space s in
  if bool_decide (0 ∈ b) then None else long_from_string b.

(** ** Lemmas on [strip] *)

Definition isspace_true (c : Z) : Prop := py_isspace c = true.
Definition isspace_false (c : Z) : Prop := py_isspace c = false.

(** The first code point of a string is not whitespace. *)
Definition head_nonspace (l : list Z) : Prop :=
  match l with c :: _ => py_isspace c = false | [] => True end.

Lemma lstrip_l_split (l : pystr) :
  ∃ pre, l = pre ++ lstrip_l l ∧ Forall isspace_true pre.
Proof.
  induction l as [|c l IH]; simpl; [by exists []|].
  destruct (py_isspace c) eqn:E; [|by exists []].
  destruct IH as (pre & Hl & Hpre). exists (c :: pre).
  split; [simpl; by rewrite <-Hl | by constructor].
Qed.

Lemma lstrip_l_head (l : pystr) : head_nonspace (lstrip_l l).
Proof.
  induction l as [|c l IH]; simpl; [done|]. by destruct (py_isspace c) eqn:E.
Qed.

Lemma lstrip_l_id (l : pystr) : head_nonspace l → lstrip_l l = l.
Proof. destruct l as [|c l]; simpl; [done|]. by intros ->. Qed.

Lemma lstrip_l_spaces (pre l : pystr) :
  Forall isspace_true pre → lstrip_l (pre ++ l) = lstrip_l l.
Proof. induction 1 as [|c pre Hc _ IH]; [done|]. simpl. by rewrite Hc. Qed.

Lemma lstrip_l_all_spaces (l : pystr) : Forall isspace_true l → lstrip_l l = [].
Proof. intros Hl. rewrite <-(app_nil_r l). by rewrite lstrip_l_spaces. Qed.

Lemma rstrip_l_split (l : pystr) :
  ∃ suf, l = rstrip_l l ++ suf ∧ Forall isspace_true suf.
Proof.
  unfold rstrip_l. destruct (lstrip_l_split (rev l)) as (pre & Hl & Hpre).
  exists (rev pre). split.
  - rewrite <-rev_app_distr, <-Hl. by rewrite rev_involutive.
  - by apply Forall_rev.
Qed.

(** Every string is whitespace, its stripped form, and whitespace; the
    stripped form begins and ends with a code point that is not
    whitespace. *)
Lemma py_strip_decomp (s : pystr) :
  ∃ pre suf, s = pre ++ py_strip s ++ suf ∧ Forall isspace_true pre ∧
    Forall isspace_true suf ∧ head_nonspace (py_strip s) ∧ head_nonspace (rev (py_strip s)).
Proof.
  destruct (lstrip_l_split s) as (pre & Hs & Hpre).
  destruct (rstrip_l_split (lstrip_l s)) as (suf & Hl & Hsuf).
  exists pre, suf. unfold py_strip. split; [by rewrite <-Hl|]. do 2 (split; [done|]). split.
  - pose proof (lstrip_l_head s) as Hh. rewrite Hl in Hh.
    by destruct (rstrip_l (lstrip_l s)).
  - unfold rstrip_l. rewrite rev_involutive. apply lstrip_l_head.
Qed.

(** Whitespace around a string with non-whitespace ends is what [strip]
    removes. *)
Lemma py_strip_spaces (pre m suf : pystr) :
  Forall isspace_true pre → Forall isspace_true suf →
  head_nonspace m → head_nonspace (rev m) → py_strip (pre ++ m ++ suf) = m.
Proof.
  intros Hpre Hsuf Hm Hr. unfold py_strip, rstrip_l. rewrite lstrip_l_spaces by done.
  destruct m as [|c m'].
  - simpl. by rewrite (lstrip_l_all_spaces suf Hsuf).
  - rewrite (lstrip_l_id ((c :: m') ++ suf)) by done.
    rewrite rev_app_distr, lstrip_l_spaces by by apply Forall_rev.
    rewrite lstrip_l_id by done. apply rev_involutive.
Qed.

Lemma py_strip_idem (s : pystr) : py_strip (py_strip s) = py_strip s.
Proof.
  destruct (py_strip_decomp s) as (_ & _ & _ & _ & _ & Hh & Hr).
  rewrite <-(app_nil_l (py_strip s)), <-(app_nil_r (py_strip s)) at 1.
  by apply py_strip_spaces.
Qed.

(** ** Lemmas on [lower] *)

(** A code point that ends both scans around a sigma. *)
Definition sigma_neutral (c : Z) : Prop :=
  py_iscaseignorable c = false ∧ py_iscased c = false.

Definition head_neutral (l : list Z) : Prop :=
  match l with c :: _ => sigma_neutral c | [] => True end.

Lemma cased_after_ignorable_app (x y : list Z) :
  head_neutral y → cased_after_ignorable (x ++ y) = cased_after_ignorable x.
Proof.
  intros Hy. induction x as [|c x IH]; simpl.
  - destruct y as [|c y]; [done|]. destruct Hy as [Hi Hc]. simpl. by rewrite Hi, Hc.
  - by rewrite IH.
Qed.

Lemma lower_ucs4_after (b x y : list Z) (c : Z) :
  head_neutral y → lower_ucs4 b c (x ++ y) = lower_ucs4 b c x.
Proof.
  intros Hy. unfold lower_ucs4, handle_capital_sigma. by rewrite ?cased_after_ignorable_app.
Qed.

Lemma lower_ucs4_before (b1 b2 : list Z) (c : Z) (a : list Z) :
  head_neutral b2 → lower_ucs4 (b1 ++ b2) c a = lower_ucs4 b1 c a.
Proof.
  intros Hb. unfold lower_ucs4, handle_capital_sigma. by rewrite ?cased_after_ignorable_app.
Qed.

Lemma lower_ucs4_nosigma (b a : list Z) (c : Z) : c ≠ 931 → lower_ucs4 b c a = lower_full c.
Proof. intros Hc. unfold lower_ucs4. by rewrite (proj2 (Z.eqb_neq _ _) Hc). Qed.

(** Splitting a string before a neutral code point splits its lowering. *)
Lemma do_lower_app (b x y : list Z) :
  head_neutral y → do_lower b (x ++ y) = do_lower b x ++ do_lower (rev x ++ b) y.
Proof.
  intros Hy. revert b. induction x as [|c x IH]; intros b; [done|]. simpl.
  rewrite lower_ucs4_after, IH, <-!app_assoc by done. done.
Qed.

(** What precedes a neutral code point does not matter. *)
Lemma do_lower_before (b1 b2 s : list Z) :
  head_neutral b2 → do_lower (b1 ++ b2) s = do_lower b1 s.
Proof.
  intros Hb. revert b1. induction s as [|c s IH]; intros b1; [done|]. simpl.
  rewrite lower_ucs4_before by done. f_equal. apply (IH (c :: b1)).
Qed.

(** Without a capital sigma, [lower] maps each code point on its own. *)
Lemma do_lower_nosigma (b s : list Z) :
  Forall (λ c, c ≠ 931) s → do_lower b s = concat (map lower_full s).
Proof.
  intros Hs. revert b. induction Hs as [|c s Hc _ IH]; intros b; [done|]. simpl.
  by rewrite lower_ucs4_nosigma, IH.
Qed.

Lemma mjoin_lower_full_fixed (s : list Z) :
  Forall (λ d, lower_full d = [d]) s → concat (map lower_full s) = s.
Proof. induction 1 as [|d s Hd _ IH]; [done|]. simpl. by rewrite Hd, IH. Qed.

Lemma lower_ucs4_fixed (b a : list Z) (c : Z) :
  Forall (λ d, lower_full d = [d] ∧ d ≠ 931) (lower_ucs4 b c a).
Proof.
  unfold lower_ucs4, handle_capital_sigma. case_match; [|apply lower_full_fixed].
  repeat constructor; repeat case_match; first [by vm_compute | done].
Qed.

Lemma do_lower_fixed (b s : list Z) :
  Forall (λ d, lower_full d = [d] ∧ d ≠ 931) (do_lower b s).
Proof.
  revert b. induction s as [|c s IH]; intros b; simpl; [done|].
  apply Forall_app. split; [apply lower_ucs4_fixed | apply IH].
Qed.

Lemma py_lower_idem (s : pystr) : py_lower (py_lower s) = py_lower s.
Proof.
  unfold py_lower. pose proof (do_lower_fixed [] s) as Hf.
  rewrite do_lower_nosigma by (eapply Forall_impl; [exact Hf|]; by intros ? [_ ?]).
  apply mjoin_lower_full_fixed. eapply Forall_impl; [exact Hf|]. by intros ? [? _].
Qed.

Lemma space_sigma_neutral (c : Z) : py_isspace c = true → sigma_neutral c.
Proof. apply py_isspace_uncased. Qed.

Lemma space_not_sigma (c : Z) : py_isspace c = true → c ≠ 931.
Proof. intros Hs ->. by vm_compute in Hs. Qed.

Lemma spaces_head_neutral (l : list Z) : Forall isspace_true l → head_neutral l.
Proof. destruct 1; [done|]. by apply space_sigma_neutral. Qed.

(** Lowering a string of whitespace leaves it unchanged. *)
Lemma do_lower_spaces (b l : list Z) : Forall isspace_true l → do_lower b l = l.
Proof.
  intros Hl. rewrite do_lower_nosigma.
  - apply mjoin_lower_full_fixed. eapply Forall_impl; [exact Hl|]. apply lower_full_space.
  - eapply Forall_impl; [exact Hl|]. apply space_not_sigma.
Qed.

Lemma do_lower_spaces_app (b pre y : list Z) :
  Forall isspace_true pre → do_lower b (pre ++ y) = pre ++ do_lower (rev pre ++ b) y.
Proof.
  intros Hpre. revert b. induction Hpre as [|c pre Hc _ IH]; intros b; [done|]. simpl.
  rewrite lower_ucs4_nosigma, lower_full_space by auto using space_not_sigma.
  rewrite IH, <-app_assoc. done.
Qed.

Lemma lower_ucs4_nonspace (b a : list Z) (c : Z) :
  py_isspace c = false → lower_ucs4 b c a ≠ [] ∧ Forall isspace_false (lower_ucs4 b c a).
Proof.
  intros Hc. unfold lower_ucs4, handle_capital_sigma. case_match; [|by apply lower_full_nonspace].
  split; [done|]. repeat constructor; repeat case_match; by vm_compute.
Qed.

Lemma lower_ucs4_nonnil (b a : list Z) (c : Z) : lower_ucs4 b c a ≠ [].
Proof.
  destruct (py_isspace c) eqn:Hc; [|by apply lower_ucs4_nonspace].
  rewrite lower_ucs4_nosigma, lower_full_space by auto using space_not_sigma. done.
Qed.

Lemma head_nonspace_app (l r : list Z) :
  l ≠ [] → Forall isspace_false l → head_nonspace (l ++ r).
Proof. destruct l as [|c l]; [done|]. intros _ Hl. by inversion Hl. Qed.

Lemma head_nonspace_all (l : list Z) : Forall isspace_false l → head_nonspace l.
Proof. destruct 1; done. Qed.

(** Lowering keeps a non-whitespace first and last code point. *)
Lemma do_lower_head (b s : list Z) : head_nonspace s → head_nonspace (do_lower b s).
Proof.
  destruct s as [|c s]; [done|]. simpl. intros Hc.
  apply head_nonspace_app; by apply lower_ucs4_nonspace.
Qed.

Lemma do_lower_last (b s : list Z) : head_nonspace (rev s) → head_nonspace (rev (do_lower b s)).
Proof.
  revert b. induction s as [|c s IH]; intros b Hs; [done|]. simpl. rewrite rev_app_distr.
  destruct s as [|c' s'].
  - simpl in *. apply head_nonspace_all, Forall_rev. by apply lower_ucs4_nonspace.
  - cbn [rev] in Hs. rewrite <-app_assoc in Hs.
    assert (Hne : rev (do_lower (c :: b) (c' :: s')) ≠ []).
    { simpl. rewrite rev_app_distr. intros H. apply app_eq_nil in H as [_ H].
      apply (f_equal (@rev Z)) in H. rewrite rev_involutive in H.
      by apply (lower_ucs4_nonnil (c :: b) s' c'). }
    pose proof (IH (c :: b)) as IH'. simpl rev in IH' at 1.
    destruct (rev (do_lower (c :: b) (c' :: s'))) eqn:E; [done|]. apply IH'.
    destruct (rev s') as [|d ds]; simpl in *; done.
Qed.

(** On every string, [str.lower()] and [str.strip()] commute:
    [name.strip().lower()] equals [name.lower().strip()].  Lowering keeps
    whitespace and never produces or removes it, and whitespace is neither
    cased nor case-ignorable, so the whitespace [strip] removes never
    changes whether a capital sigma lowers to its final form. *)
Theorem py_lower_strip (s : pystr) : py_lower (py_strip s) = py_strip (py_lower s).
Proof.
  destruct (py_strip_decomp s) as (pre & suf & Hs & Hpre & Hsuf & Hh & Hr).
  set (m := py_strip s) in *. clearbody m. subst s. symmetry. unfold py_lower.
  rewrite do_lower_spaces_app, do_lower_app by (done || by apply spaces_head_neutral).
  rewrite !app_nil_r, (do_lower_spaces _ suf Hsuf).
  rewrite <-(app_nil_l (rev pre)), do_lower_before by by apply spaces_head_neutral, Forall_rev.
  apply py_strip_spaces; try done; [apply do_lower_head | apply do_lower_last]; done.
Qed.

Lemma do_lower_nil (b s : list Z) : do_lower b s = [] ↔ s = [].
Proof.
  split; [|by intros ->]. destruct s as [|c s]; [done|]. simpl.
  intros H. apply app_eq_nil in H as [H _]. by apply lower_ucs4_nonnil in H.
Qed.

Lemma py_lower_empty (s : pystr) : py_lower s = [] ↔ s = [].
Proof. apply do_lower_nil. Qed.

#[export] Hint Rewrite py_strip_idem py_lower_idem : pyrt_rw.

(** Proofs about the handlers treat the string operations as opaque. *)
Arguments py_strip : simpl never.
Arguments py_lower : simpl never.
Arguments py_int : simpl never.
