(* ===== verification/PyFormat.v ===== *)
(** * Python's number formatting: [str(int)], [int / int] and [format(x, '.1f')]

    The analyzer prints numbers in two ways.  A count goes through
    [str(int)] (the f-string [{grades_added}]): decimal digits, a leading
    [-] for negatives, and a [ValueError] beyond [sys.int_info]'s 4300
    digits ([py_str_int]).  An average is a binary64 float: [sum / len] of
    two ints is CPython's [long_true_divide], which is correctly rounded to
    nearest, ties to even ([rn]), and [{avg:.1f}] prints it with one
    decimal, again correctly rounded, ties to even, on the exact binary
    value ([format_1f], [tenths]).  The model computes on exact rationals;
    a float is the rational [rn] returns, [m * 2^e] with a 53-bit [m]
    ([is_double]).  The [sum] of floats ([py_fsum]) and the mean
    [sum(xs) / len(xs)] ([py_float_mean]) round after every operation. *)

From S2P Require Import Prelude PyUnicode PyStr.
From Stdlib Require Import Qpower Qround Qabs.

Local Open Scope pystr_scope.

(** ** [str(int)] *)

Definition digit_char (d : Z) : Z := (48 + d)%Z.

(** The digits of [n >= 0], most significant first, in front of [acc];
    [fuel] bounds the number of digits. *)
Fixpoint decimal_digits (fuel : nat) (n : Z) (acc : pystr) : pystr :=
  match fuel with
  | O => acc
  | S f =>
      let acc' := digit_char (n mod 10) :: acc in
      if (n <? 10)%Z then acc' else decimal_digits f (n / 10) acc'
  end.

(** A number below [2^(k+1)] has at most [k + 1] decimal digits. *)
Definition z_decimal (n : Z) : pystr := decimal_digits (S (Z.to_nat (Z.log2 n))) n [].

(** [str(n)]: [None] is the [ValueError] of a result longer than the
    int-to-string conversion limit. *)
Definition py_str_int (n : Z) : option pystr :=
  let ds := z_decimal (Z.abs n) in
  if (length ds <=? int_max_str_digits)%nat then
    Some ((if (n <? 0)%Z then "-" else "") ++ ds)
  else None.

(** ** Rounding to an integer, ties to even *)

Definition rne (y : Q) : Z :=
  let f := Qfloor y in
  let r := (y - inject_Z f)%Q in
  if Qltb r (1#2) then f
  else if Qltb (1#2) r then (f + 1)%Z
  else if Z.even f then f else (f + 1)%Z.

(** ** Binary64 *)

Definition pow2 (k : Z) : Q := (2#1) ^ k.

(** [floor(log2 x)] for [x > 0]: the difference of the bit lengths of the
    numerator and the denominator, or one less. *)
Definition flog2 (x : Q) : Z :=
  let k := (Z.log2 (Qnum x) - Z.log2 (Zpos (Qden x)))%Z in
  if Qle_bool (pow2 k) x then k else (k - 1)%Z.

(** The exponent of the last significand bit: 53 bits below the leading
    one, but not below the subnormal quantum [2^-1074]. *)
Definition binary64_exp (x : Q) : Z := Z.max (flog2 x - 52) (-1074).

Definition rn_pos (x : Q) : Q :=
  let e := binary64_exp x in Qred (inject_Z (rne (x / pow2 e)) * pow2 e).

(** The float nearest to [x], ties to even. *)
Definition rn (x : Q) : Q :=
  if Qltb 0 x then rn_pos x
  else if Qltb x 0 then (- rn_pos (- x))%Q
  else 0%Q.

(** A binary64 value (overflow aside): an integer significand of at most
    53 bits times a power of two no smaller than the subnormal quantum. *)
Definition is_double (q : Q) : Prop :=
  ∃ m e, (Z.abs m <= 2 ^ 53)%Z ∧ (-1074 <= e)%Z ∧ (q == inject_Z m * pow2 e)%Q.

(** [a / b] on two Python ints: [ZeroDivisionError] when [b = 0], else the
    correctly rounded float. *)
Definition py_float_div (a b : Z) : option Q := rn <$> py_truediv a b.

(** [sum(xs)] of a list of floats (the start value is the int [0]):
    CPython 3.11's [builtin_sum] adds the floats one by one in a C
    [double], each addition rounded. *)
Definition py_fsum (xs : list Q) : Q := fold_left (λ acc x, rn (acc + x)%Q) xs 0%Q.

(** [sum(xs) / len(xs)]: a float divided by an int, which CPython converts
    to the nearest float first. *)
Definition py_float_mean (xs : list Q) : Q :=
  rn (py_fsum xs / rn (inject_Z (Z.of_nat (length xs)))).

(** ** [format(y, '.1f')] *)

(** The number of tenths printed for [y >= 0]. *)
Definition tenths (y : Q) : Z := rne (10 * y).

Definition tenths_text (neg : bool) (t : Z) : pystr :=
  (if neg then "-" else "") ++ z_decimal (t / 10) ++ "." ++ [digit_char (t mod 10)].

Definition format_1f (y : Q) : pystr :=
  if Qltb y 0 then tenths_text true (tenths (- y)) else tenths_text false (tenths y).

(** ** Rounding to an integer *)

Local Open Scope Q_scope.

Lemma rne_bounds (y : Q) : -(1#2) <= inject_Z (rne y) - y <= 1#2.
Proof.
  unfold rne. pose proof (Qfloor_le y) as Hf. pose proof (Qlt_floor y) as Hc.
  rewrite inject_Z_plus in Hc. set (f := Qfloor y) in *. clearbody f.
  change (inject_Z 1) with 1 in Hc.
  destruct (Qltb (y - inject_Z f) (1#2)) eqn:E1; [apply Qltb_spec in E1; lra|apply Qltb_false in E1].
  destruct (Qltb (1#2) (y - inject_Z f)) eqn:E2; [apply Qltb_spec in E2|apply Qltb_false in E2];
    [|destruct (Z.even f)]; rewrite ?inject_Z_plus; change (inject_Z 1) with 1; lra.
Qed.

(** An integer strictly closer than one half to [y] is the rounding of [y]. *)
Lemma rne_near (y : Q) (k : Z) : -(1#2) < y - inject_Z k < 1#2 → rne y = k.
Proof.
  intros Hk. pose proof (rne_bounds y) as Hr.
  assert (Hlt : -1 < inject_Z (rne y - k) < 1) by (unfold Z.sub; rewrite inject_Z_plus, inject_Z_opp; lra).
  destruct Hlt as [Hlo Hhi]. change (-1) with (inject_Z (-1)) in Hlo. change 1 with (inject_Z 1) in Hhi.
  rewrite <-Zlt_Qlt in Hlo, Hhi. lia.
Qed.

Lemma rne_Z (k : Z) : rne (inject_Z k) = k.
Proof. apply rne_near. lra. Qed.

(** ** Powers of two *)

Lemma pow2_pos (k : Z) : 0 < pow2 k.
Proof. apply Qpower_0_lt. lra. Qed.

Lemma pow2_add (j k : Z) : pow2 (j + k) == pow2 j * pow2 k.
Proof. apply Qpower_plus. lra. Qed.

Lemma pow2_le (j k : Z) : (j <= k)%Z → pow2 j <= pow2 k.
Proof. intros. apply Qpower_le_compat_l; [done|lra]. Qed.

Lemma pow2_Z (k : Z) : (0 <= k)%Z → pow2 k == inject_Z (2 ^ k).
Proof. intros Hk. unfold pow2. by rewrite Zpower_Qpower. Qed.

(** ** The error of [rn] *)

Lemma rn_pos_error (x : Q) :
  - (pow2 (binary64_exp x) * (1#2)) <= rn_pos x - x <= pow2 (binary64_exp x) * (1#2).
Proof.
  unfold rn_pos. rewrite Qred_correct. set (e := binary64_exp x). pose proof (pow2_pos e) as Hp.
  pose proof (rne_bounds (x / pow2 e)) as [Hlo Hhi]. set (m := inject_Z (rne _)) in *.
  assert (Hx : (m - x / pow2 e) * pow2 e == m * pow2 e - x) by (field; lra).
  apply (Qmult_le_compat_r _ _ (pow2 e)) in Hlo, Hhi; [|lra..]. rewrite Hx in Hlo, Hhi. lra.
Qed.

(** Below [2^j] ([j >= 0]) the leading bit is below [j]. *)
Lemma flog2_lt (x : Q) (j : Z) : 0 < x → (0 <= j)%Z → x < pow2 j → (flog2 x < j)%Z.
Proof.
  intros Hx Hj Hxj. unfold flog2. destruct x as [a b]. cbn [Qnum Qden].
  set (k := (Z.log2 a - Z.log2 (Z.pos b))%Z).
  destruct (Qle_bool (pow2 k) (a # b)) eqn:Hle.
  - apply Qle_bool_iff in Hle. destruct (Z.lt_ge_cases k j) as [|Hkj]; [done|].
    apply pow2_le in Hkj. lra.
  - rewrite pow2_Z in Hxj by done. unfold Qlt in Hxj. simpl in Hxj. rewrite Z.mul_1_r in Hxj.
    unfold Qlt in Hx. simpl in Hx.
    assert (Hl : (Z.log2 a <= Z.log2 (2 ^ j * Z.pos b))%Z) by (apply Z.log2_le_mono; lia).
    rewrite Z.mul_comm, Z.log2_mul_pow2 in Hl by lia. unfold k. lia.
Qed.

(** Every float below 128 is within [2^-47] of the value it rounds. *)
Lemma rn_error_small (x : Q) :
  0 <= x < 128 → - pow2 (-47) <= rn x - x <= pow2 (-47).
Proof.
  intros [H0 H128]. unfold rn.
  destruct (Qltb 0 x) eqn:E1; [apply Qltb_spec in E1|apply Qltb_false in E1].
  - assert (He : (binary64_exp x <= -46)%Z).
    { unfold binary64_exp. assert (flog2 x < 7)%Z; [|lia].
      apply flog2_lt; [done|lia|]. rewrite pow2_Z by lia. done. }
    apply pow2_le in He. change (pow2 (-46)) with (1 # 70368744177664) in He.
    pose proof (rn_pos_error x) as Hb. set (P := pow2 (binary64_exp x)) in *.
    change (pow2 (-47)) with (1 # 140737488355328). lra.
  - destruct (Qltb x 0) eqn:E2; [apply Qltb_spec in E2; lra|].
    change (pow2 (-47)) with (1 # 140737488355328). lra.
Qed.

(** ** [rn] is monotone and exact on small integers *)

Lemma Qfrac_le (p q r s : Z) :
  (0 < q)%Z → (0 < s)%Z → inject_Z p / inject_Z q <= inject_Z r / inject_Z s ↔ (p * s <= r * q)%Z.
Proof.
  intros Hq Hs. rewrite <-(Z2Pos.id q), <-(Z2Pos.id s) by done. rewrite <-!Qmake_Qdiv.
  unfold Qle. simpl. rewrite !Z2Pos.id by done. reflexivity.
Qed.

Lemma Qfrac_lt (p q r s : Z) :
  (0 < q)%Z → (0 < s)%Z → inject_Z p / inject_Z q < inject_Z r / inject_Z s ↔ (p * s < r * q)%Z.
Proof.
  intros Hq Hs. rewrite <-(Z2Pos.id q), <-(Z2Pos.id s) by done. rewrite <-!Qmake_Qdiv.
  unfold Qlt. simpl. rewrite !Z2Pos.id by done. reflexivity.
Qed.

Lemma pow2_sub (i j : Z) : (0 <= i)%Z → (0 <= j)%Z → pow2 (i - j) == inject_Z (2 ^ i) / inject_Z (2 ^ j).
Proof. intros. unfold pow2. rewrite Qpower_minus by lra. by rewrite !Zpower_Qpower. Qed.

(** [flog2] is [floor(log2 x)]. *)
Lemma flog2_spec (x : Q) : 0 < x → pow2 (flog2 x) <= x < pow2 (flog2 x + 1).
Proof.
  intros Hx. unfold flog2. destruct x as [a b]. cbn [Qnum Qden].
  assert (Ha : (0 < a)%Z) by (unfold Qlt in Hx; simpl in Hx; lia).
  pose proof (Z.log2_spec a Ha) as [Ha1 Ha2].
  pose proof (Z.log2_spec (Z.pos b) ltac:(lia)) as [Hb1 Hb2].
  pose proof (Z.log2_nonneg a). pose proof (Z.log2_nonneg (Z.pos b)).
  set (la := Z.log2 a) in *. set (lb := Z.log2 (Z.pos b)) in *.
  rewrite <-Z.add_1_r in Ha2, Hb2.
  assert (Hpa : (0 < 2 ^ la)%Z) by (apply Z.pow_pos_nonneg; lia).
  assert (Hpb : (0 < 2 ^ lb)%Z) by (apply Z.pow_pos_nonneg; lia).
  assert (Hpb1 : (0 < 2 ^ (lb + 1))%Z) by (apply Z.pow_pos_nonneg; lia).
  assert (HA : pow2 (la - lb - 1) <= a # b).
  { rewrite Qmake_Qdiv. replace (la - lb - 1)%Z with (la - (lb + 1))%Z by lia. rewrite pow2_sub by lia.
    apply Qfrac_le; [lia|lia|nia]. }
  assert (HB : a # b < pow2 (la - lb + 1)).
  { rewrite Qmake_Qdiv. replace (la - lb + 1)%Z with (la + 1 - lb)%Z by lia. rewrite pow2_sub by lia.
    apply Qfrac_lt; [lia|apply Z.pow_pos_nonneg; lia|].
    rewrite Z.pow_add_r in * by lia. nia. }
  destruct (Qle_bool (pow2 (la - lb)) (a # b)) eqn:E.
  - apply Qle_bool_iff in E. split; [done|exact HB].
  - split; [exact HA|]. replace (la - lb - 1 + 1)%Z with (la - lb)%Z by lia.
    apply Qnot_le_lt. intros Hle. apply Qle_bool_iff in Hle. congruence.
Qed.

Lemma rne_floor (y : Q) : (Qfloor y <= rne y <= Qfloor y + 1)%Z.
Proof. unfold rne. repeat case_match; lia. Qed.

Lemma rne_mono (y1 y2 : Q) : y1 <= y2 → (rne y1 <= rne y2)%Z.
Proof.
  intros Hy. pose proof (Qfloor_resp_le _ _ Hy) as Hf.
  destruct (Z.eq_dec (Qfloor y1) (Qfloor y2)) as [E|Hne].
  - unfold rne. rewrite <-E. set (f := Qfloor y1).
    destruct (Qltb (y1 - inject_Z f) (1#2)) eqn:A1; [apply Qltb_spec in A1|apply Qltb_false in A1];
    destruct (Qltb (1#2) (y1 - inject_Z f)) eqn:B1; try apply Qltb_spec in B1; try apply Qltb_false in B1;
    destruct (Qltb (y2 - inject_Z f) (1#2)) eqn:A2; try apply Qltb_spec in A2; try apply Qltb_false in A2;
    destruct (Qltb (1#2) (y2 - inject_Z f)) eqn:B2; try apply Qltb_spec in B2; try apply Qltb_false in B2;
    repeat case_match; try lia; lra.
  - pose proof (rne_floor y1). pose proof (rne_floor y2). lia.
Qed.

Lemma pow2_lt_inv (j k : Z) : pow2 j < pow2 k → (j < k)%Z.
Proof. intros H. destruct (Z.lt_ge_cases j k) as [|Hkj]; [done|]. apply pow2_le in Hkj. lra. Qed.

(** The float of [x] lies at or below a power of two above [x] whose
    exponent is at least the quantum of [x]. *)
Lemma rn_pos_le_pow (x : Q) (j : Z) :
  x <= pow2 j → (binary64_exp x <= j)%Z → rn_pos x <= pow2 j.
Proof.
  intros Hx Hj. unfold rn_pos. rewrite Qred_correct. set (e := binary64_exp x) in *.
  pose proof (pow2_pos e) as He.
  assert (Hq : x / pow2 e <= inject_Z (2 ^ (j - e))).
  { rewrite <-pow2_Z by lia. unfold pow2 at 2. rewrite Qpower_minus by lra. fold (pow2 j) (pow2 e).
    apply Qmult_le_compat_r; [done|]. apply Qlt_le_weak, Qinv_lt_0_compat, He. }
  apply rne_mono in Hq. rewrite rne_Z, Zle_Qle in Hq.
  apply Qle_trans with (inject_Z (2 ^ (j - e)) * pow2 e); [apply Qmult_le_compat_r; lra|].
  rewrite <-pow2_Z by lia. rewrite <-pow2_add. replace (j - e + e)%Z with j by lia. lra.
Qed.

Lemma rn_pos_ge_pow (y : Q) (j : Z) :
  pow2 j <= y → (binary64_exp y <= j)%Z → pow2 j <= rn_pos y.
Proof.
  intros Hy Hj. unfold rn_pos. rewrite Qred_correct. set (e := binary64_exp y) in *.
  pose proof (pow2_pos e) as He.
  assert (Hq : inject_Z (2 ^ (j - e)) <= y / pow2 e).
  { rewrite <-pow2_Z by lia. unfold pow2 at 1. rewrite Qpower_minus by lra. fold (pow2 j) (pow2 e).
    apply Qmult_le_compat_r; [done|]. apply Qlt_le_weak, Qinv_lt_0_compat, He. }
  apply rne_mono in Hq. rewrite rne_Z, Zle_Qle in Hq.
  apply Qle_trans with (inject_Z (2 ^ (j - e)) * pow2 e); [|apply Qmult_le_compat_r; lra].
  rewrite <-pow2_Z by lia. rewrite <-pow2_add. replace (j - e + e)%Z with j by lia. lra.
Qed.

Lemma rn_pos_mono (x y : Q) : 0 < x → x <= y → rn_pos x <= rn_pos y.
Proof.
  intros Hx Hxy. pose proof (flog2_spec x Hx) as [Hx1 Hx2].
  pose proof (flog2_spec y ltac:(lra)) as [Hy1 Hy2].
  assert (Hf : (flog2 x <= flog2 y)%Z).
  { enough (flog2 x < flog2 y + 1)%Z by lia. apply pow2_lt_inv. lra. }
  destruct (Z.eq_dec (binary64_exp x) (binary64_exp y)) as [E|Hne].
  - unfold rn_pos. rewrite !Qred_correct, E. set (e := binary64_exp y).
    pose proof (pow2_pos e) as He. apply Qmult_le_compat_r; [|lra].
    rewrite <-Zle_Qle. apply rne_mono. apply Qmult_le_compat_r; [done|].
    apply Qlt_le_weak, Qinv_lt_0_compat, He.
  - assert (Hlt : (flog2 x < flog2 y)%Z /\ binary64_exp y = (flog2 y - 52)%Z)
      by (unfold binary64_exp in *; lia).
    destruct Hlt as [Hlt Hey].
    apply Qle_trans with (pow2 (flog2 y)).
    + apply rn_pos_le_pow; [|unfold binary64_exp in *; lia].
      apply Qle_trans with (pow2 (flog2 x + 1)); [lra|]. apply pow2_le. lia.
    + apply rn_pos_ge_pow; [done|lia].
Qed.

Lemma rne_nonneg (y : Q) : 0 <= y → (0 <= rne y)%Z.
Proof.
  intros Hy. pose proof (rne_bounds y) as [Hlo _].
  assert (H : -1 < inject_Z (rne y)) by lra. change (-1) with (inject_Z (-1)) in H.
  rewrite <-Zlt_Qlt in H. lia.
Qed.

Lemma rn_nonneg (x : Q) : 0 <= x → 0 <= rn x.
Proof.
  intros Hx. unfold rn. destruct (Qltb 0 x) eqn:E1.
  - unfold rn_pos. rewrite Qred_correct. apply Qmult_le_0_compat; [|apply Qlt_le_weak, pow2_pos].
    change 0 with (inject_Z 0). rewrite <-Zle_Qle. apply rne_nonneg.
    apply Qle_shift_div_l; [apply pow2_pos|lra].
  - apply Qltb_false in E1. destruct (Qltb x 0) eqn:E2; [apply Qltb_spec in E2; lra|]. lra.
Qed.

Lemma format_1f_nonneg (y : Q) :
  0 <= y → format_1f y = (tenths_text false (tenths y)).
Proof.
  intros Hy. unfold format_1f. destruct (Qltb y 0) eqn:E; [apply Qltb_spec in E; lra|done].
Qed.

(** Rounding to the nearest float preserves the order of nonnegative values. *)
Lemma rn_mono (x y : Q) : 0 <= x → x <= y → rn x <= rn y.
Proof.
  intros Hx Hxy. unfold rn.
  destruct (Qltb 0 x) eqn:E1; [apply Qltb_spec in E1|apply Qltb_false in E1];
  destruct (Qltb 0 y) eqn:E2; try apply Qltb_spec in E2; try apply Qltb_false in E2;
  try (destruct (Qltb x 0) eqn:E3; [apply Qltb_spec in E3; lra|]);
  try (destruct (Qltb y 0) eqn:E4; [apply Qltb_spec in E4; lra|]).
  - by apply rn_pos_mono.
  - lra.
  - pose proof (rn_nonneg y ltac:(lra)) as Hy. unfold rn in Hy.
    rewrite (proj2 (Qltb_spec 0 y) E2) in Hy. done.
  - lra.
Qed.

(** Integers below [2^53] are floats. *)
Lemma rn_Z (k : Z) : (0 <= k < 2 ^ 53)%Z → rn (inject_Z k) == inject_Z k.
Proof.
  intros Hk. destruct (Z.eq_dec k 0) as [->|Hk0]; [reflexivity|].
  assert (Hpos : 0 < inject_Z k) by (change 0 with (inject_Z 0); rewrite <-Zlt_Qlt; lia).
  unfold rn. rewrite (proj2 (Qltb_spec _ _) Hpos). unfold rn_pos.
  assert (He : (binary64_exp (inject_Z k) <= 0)%Z).
  { unfold binary64_exp. enough (flog2 (inject_Z k) < 53)%Z by lia.
    apply flog2_lt; [done|lia|]. rewrite pow2_Z by lia. rewrite <-Zlt_Qlt. lia. }
  set (e := binary64_exp (inject_Z k)) in *.
  assert (Hone : pow2 (- e) * pow2 e == 1) by (rewrite <-pow2_add; by replace (- e + e)%Z with 0%Z by lia).
  pose proof (pow2_pos e).
  assert (Hback : inject_Z (k * 2 ^ (- e)) * pow2 e == inject_Z k).
  { rewrite inject_Z_mult, <-pow2_Z by lia. rewrite <-Qmult_assoc, Hone. apply Qmult_1_r. }
  assert (Hdiv : inject_Z k / pow2 e == inject_Z (k * 2 ^ (- e))).
  { rewrite <-Hback at 1. field. lra. }
  rewrite (rne_near _ (k * 2 ^ (- e))) by (rewrite Hdiv; lra).
  by rewrite Qred_correct.
Qed.

(** ** [rn] lands on a binary64 value *)

Lemma rn_pos_double (x : Q) : 0 < x → is_double (rn_pos x).
Proof.
  intros Hx. unfold rn_pos. set (e := binary64_exp x).
  assert (He : (flog2 x - 52 <= e)%Z ∧ (-1074 <= e)%Z) by (unfold e, binary64_exp; lia).
  pose proof (pow2_pos e) as Hp.
  assert (Hy : 0 <= x / pow2 e < pow2 53).
  { split; [apply Qle_shift_div_l; lra|apply Qlt_shift_div_r; [done|]].
    rewrite <-pow2_add. eapply Qlt_le_trans; [apply (flog2_spec x Hx)|]. apply pow2_le. lia. }
  exists (rne (x / pow2 e)), e. split; [|split; [lia|apply Qred_correct]].
  pose proof (rne_nonneg _ (proj1 Hy)). pose proof (rne_bounds (x / pow2 e)) as [_ Hhi].
  assert (Hlt : inject_Z (rne (x / pow2 e)) < inject_Z (2 ^ 53 + 1)).
  { rewrite inject_Z_plus. change (pow2 53) with (inject_Z (2 ^ 53)) in Hy.
    change (inject_Z 1) with 1. lra. }
  rewrite <-Zlt_Qlt in Hlt. lia.
Qed.

Lemma rn_double (x : Q) : is_double (rn x).
Proof.
  unfold rn. destruct (Qltb 0 x) eqn:E1; [apply Qltb_spec in E1; by apply rn_pos_double|].
  destruct (Qltb x 0) eqn:E2.
  - apply Qltb_spec in E2. destruct (rn_pos_double (- x)) as (m & e & Hm & He & Heq); [lra|].
    exists (- m)%Z, e. split; [lia|split; [done|]]. rewrite Heq, inject_Z_opp. ring.
  - exists 0%Z, 0%Z. split; [lia|split; [lia|reflexivity]].
Qed.

(** ** [rn] is round-to-nearest *)

(** No integer is closer to [y] than [rne y]. *)
Lemma rne_nearest (y : Q) (k : Z) : Qabs (inject_Z (rne y) - y) <= Qabs (inject_Z k - y).
Proof.
  pose proof (rne_bounds y) as Hb.
  pose proof (Qle_Qabs (inject_Z k - y)). pose proof (Qle_Qabs (- (inject_Z k - y))).
  rewrite Qabs_opp in *.
  apply Qabs_Qle_condition.
  destruct (Z.eq_dec k (rne y)) as [->|Hne]; [split; lra|].
  assert (Hk : (k <= rne y - 1 ∨ rne y + 1 <= k)%Z) by lia.
  destruct Hk as [Hk|Hk].
  - assert (inject_Z k + 1 <= inject_Z (rne y))
      by (change 1 with (inject_Z 1); rewrite <-inject_Z_plus, <-Zle_Qle; lia). split; lra.
  - assert (inject_Z (rne y) + 1 <= inject_Z k)
      by (change 1 with (inject_Z 1); rewrite <-inject_Z_plus, <-Zle_Qle; lia). split; lra.
Qed.

(** Among the multiples of [2^(binary64_exp x)], [rn_pos x] is nearest to [x]. *)
Lemma rn_pos_nearest_grid (x : Q) (k : Z) :
  Qabs (rn_pos x - x) <= Qabs (inject_Z k * pow2 (binary64_exp x) - x).
Proof.
  unfold rn_pos. rewrite Qred_correct. set (e := binary64_exp x). pose proof (pow2_pos e) as Hp.
  assert (E : ∀ j : Z, inject_Z j * pow2 e - x == (inject_Z j - x / pow2 e) * pow2 e)
    by (intros j; field; lra).
  rewrite !E, !Qabs_Qmult, (Qabs_pos (pow2 e)) by lra.
  apply Qmult_le_compat_r; [apply rne_nearest|lra].
Qed.

Lemma rn_pos_nearest (x d : Q) : 0 < x → is_double d → Qabs (rn_pos x - x) <= Qabs (d - x).
Proof.
  intros Hx (m & e' & Hm & He' & ->). set (e := binary64_exp x).
  destruct (Z.le_gt_cases e e') as [Hle|Hgt].
  - assert (Hd : inject_Z m * pow2 e' == inject_Z (m * 2 ^ (e' - e)) * pow2 e).
    { rewrite inject_Z_mult, <-pow2_Z by lia. rewrite <-Qmult_assoc, <-pow2_add.
      by replace (e' - e + e)%Z with e' by lia. }
    rewrite Hd. apply rn_pos_nearest_grid.
  - assert (He : e = (flog2 x - 52)%Z) by (unfold e, binary64_exp in *; lia).
    destruct (flog2_spec x Hx) as [HP _].
    assert (HPg : pow2 (flog2 x) == inject_Z (2 ^ 52) * pow2 e).
    { rewrite <-pow2_Z, <-pow2_add by lia. by rewrite He, Z.add_sub_assoc, Z.add_comm, Z.add_simpl_r. }
    pose proof (rn_pos_nearest_grid x (2 ^ 52)) as Hg. fold e in Hg. rewrite <-HPg in Hg.
    rewrite (Qabs_neg (pow2 (flog2 x) - x)) in Hg by lra.
    assert (Hd : inject_Z m * pow2 e' <= pow2 (flog2 x)).
    { pose proof (pow2_pos e').
      assert (Hm' : inject_Z m <= inject_Z (2 ^ 53)) by (rewrite <-Zle_Qle; lia).
      apply (Qle_trans _ (inject_Z (2 ^ 53) * pow2 e')); [by apply Qmult_le_compat_r; lra|].
      rewrite <-pow2_Z, <-pow2_add by lia. apply pow2_le. lia. }
    pose proof (Qle_Qabs (- (inject_Z m * pow2 e' - x))). rewrite Qabs_opp in *. lra.
Qed.

(** [rn] is the round-to-nearest of IEEE 754 binary64, overflow
    aside: its result is a double, and no double is closer to [x]. *)
Theorem rn_correct (x : Q) :
  is_double (rn x) ∧ ∀ d, is_double d → Qabs (rn x - x) <= Qabs (d - x).
Proof.
  split; [apply rn_double|]. intros d Hd. unfold rn.
  destruct (Qltb 0 x) eqn:E1; [apply Qltb_spec in E1; by apply rn_pos_nearest|apply Qltb_false in E1].
  destruct (Qltb x 0) eqn:E2; [apply Qltb_spec in E2|apply Qltb_false in E2].
  - destruct Hd as (m & e & Hm & He & Hd).
    assert (Hd' : is_double (- d)).
    { exists (- m)%Z, e. split; [lia|split; [done|]]. rewrite Hd, inject_Z_opp. ring. }
    pose proof (rn_pos_nearest (- x) (- d) ltac:(lra) Hd') as H.
    assert (E : - rn_pos (- x) - x == - (rn_pos (- x) - - x)) by ring.
    assert (E' : d - x == - (- d - - x)) by ring.
    rewrite E, E', !Qabs_opp. exact H.
  - assert (E : 0 - x == 0) by lra. rewrite E. apply Qabs_nonneg.
Qed.

(** ** Float sums of values in [[0, 100]] *)

Lemma fsum_bounds_aux (xs : list Q) (acc : Q) (k : Z) :
  Forall (λ x, 0 <= x <= 100) xs → 0 <= acc <= inject_Z (100 * k) →
  (0 <= k)%Z → (k + Z.of_nat (length xs) <= 2 ^ 40)%Z →
  0 <= fold_left (λ acc x, rn (acc + x)%Q) xs acc <= inject_Z (100 * (k + Z.of_nat (length xs))).
Proof.
  revert acc k. induction xs as [|x xs IH]; intros acc k Hxs Hacc Hk Hlen; simpl.
  - by rewrite Z.add_0_r.
  - apply Forall_cons in Hxs as [Hx Hxs]; cbv beta in Hx. simpl length in Hlen.
    replace (k + Z.of_nat (S (length xs)))%Z with (k + 1 + Z.of_nat (length xs))%Z by lia.
    apply IH; [done| |lia|lia]. split; [apply rn_nonneg; lra|].
    rewrite <-(rn_Z (100 * (k + 1))) by lia. apply rn_mono; [lra|].
    rewrite inject_Z_mult, inject_Z_plus in *. change (inject_Z 100) with 100 in *.
    change (inject_Z 1) with 1. lra.
Qed.

Lemma py_float_mean_bounds (xs : list Q) :
  xs ≠ [] → Forall (λ x, 0 <= x <= 100) xs → (Z.of_nat (length xs) <= 2 ^ 40)%Z →
  0 <= py_float_mean xs <= 100.
Proof.
  intros Hne Hxs Hlen. unfold py_float_mean, py_fsum.
  pose proof (fsum_bounds_aux xs 0 0 Hxs ltac:(by split; compute) ltac:(lia) ltac:(lia)) as [Hlo Hhi].
  set (S := fold_left _ xs 0) in *. set (n := Z.of_nat (length xs)) in *.
  assert (Hn : (1 <= n)%Z) by (destruct xs; [done|unfold n; simpl; lia]).
  assert (Hrn : rn (inject_Z n) == inject_Z n) by (apply rn_Z; lia).
  assert (Hnq : 1 <= inject_Z n) by (change 1 with (inject_Z 1); rewrite <-Zle_Qle; lia).
  assert (HS : 0 <= S / rn (inject_Z n) <= 100).
  { rewrite Hrn. split; [apply Qle_shift_div_l; lra|apply Qle_shift_div_r; [lra|]].
    rewrite Z.add_0_l, inject_Z_mult in Hhi. change (inject_Z 100) with 100 in Hhi. lra. }
  split; [apply rn_nonneg; lra|].
  rewrite <-(rn_Z 100) by lia. apply rn_mono; change (inject_Z 100) with 100; lra.
Qed.

(** ** The formatting theorems *)

(** [10 * rn x] is within [1/2] of [10 * x] by a wide margin below 128. *)
Lemma tenths_rn (x : Q) (k : Z) :
  0 <= x < 128 → -(1#4) <= 10 * x - inject_Z k <= 1#4 → tenths (rn x) = k.
Proof.
  intros Hx Hk. unfold tenths. apply rne_near.
  pose proof (rn_error_small x Hx) as He. change (pow2 (-47)) with (1 # 140737488355328) in He.
  lra.
Qed.

(** An average that is a multiple of [0.1] between 0 and 100 is
    printed by [{avg:.1f}] as exactly that decimal, although the float
    Python holds for it is not that number. *)
Theorem format_1f_tenths_exact (k : Z) :
  (0 <= k <= 1000)%Z → format_1f (rn (inject_Z k / 10)) = (tenths_text false k).
Proof.
  intros Hk. assert (H0 : 0 <= inject_Z k / 10 < 128).
  { split; [apply Qle_shift_div_l; [lra|]|apply Qlt_shift_div_r; [lra|]];
      rewrite ?Qmult_0_l; change 0 with (inject_Z 0); [rewrite <-Zle_Qle; lia|].
    change (128 * 10) with (inject_Z 1280). rewrite <-Zlt_Qlt. lia. }
  rewrite format_1f_nonneg by (apply rn_nonneg; lra). do 3 f_equal.
  apply tenths_rn; [done|]. assert (E : 10 * (inject_Z k / 10) == inject_Z k) by field.
  rewrite E. lra.
Qed.

(** ** Witnesses *)

Lemma format_1f_tenths_exact_witness :
  (0 <= 625 <= 1000)%Z ∧
  format_1f (rn (inject_Z 625 / 10)) = (tenths_text false 625).
Proof. split; [lia|]. apply format_1f_tenths_exact. lia. Defined.

