(* ===== verification/Students.v ===== *)
(** * The student registry: [students: list[Student]]

    [src/lecture_3/student_grade_analyzer.py] keeps the registry as a Python
    list of [Student] dicts ([TypedDict] with [name] and [grades]).  This
    file models the record, the lookup [find_student], the two mutations the
    handlers make to the list ([students.append(...)] and
    [student["grades"].append(grade)] on the record [find_student] returned),
    the registry invariant, and an abstract specification of the registry as
    a finite map from normalised names to records, with the refinement
    lemmas relating the list to it.

    [find_student] returns the record together with its index in the list:
    the record Python returns is the object stored in the list, and the
    grade loop mutates that very object; the index names it. *)

From S2P Require Import Prelude PyStr.
From stdpp Require Import gmap.

Local Open Scope pystr_scope.

Record Student : Type := mkStudent {
  name : pystr;
  grades : list Z;
}.

#[export] Instance Student_eq_dec : EqDecision Student.
Proof. solve_decision. Qed.

(** [find_student]: [normalized = name.strip().lower()], then the first
    [s] with [s["name"].lower() == normalized]. *)
Definition find_student (students : list Student) (query : pystr)
    : option (nat * Student) :=
  let normalized := py_lower (py_strip query) in
  list_find (λ s, py_lower (name s) = normalized) students.

(** [students.append({"name": name, "grades": []})]. *)
Arguments find_student : simpl never.

Definition append_student (students : list Student) (n : pystr) : list Student :=
  students ++ [mkStudent n []].

(** [student["grades"].append(grade)] on the record at index [i]. *)
Definition push_grade (g : Z) (s : Student) : Student :=
  mkStudent (name s) (grades s ++ [g]).

Definition append_grade (i : nat) (g : Z) (students : list Student) : list Student :=
  alter (push_grade g) i students.

(** The range check of the grade loop, [0 <= grade <= 100]. *)
Definition grade_ok (g : Z) : bool := ((0 <=? g) && (g <=? 100))%Z.

(** ** The registry invariant

    Stored names are stripped and non-empty (the add handler strips and
    rejects the empty name), no two stored names are equal after
    lowering (the add handler rejects a name [find_student] finds), and
    every grade lies in [[0, 100]]. *)
Definition student_wfb (s : Student) : bool :=
  bool_decide (py_strip (name s) = name s) && negb (bool_decide (name s = []))
  && forallb grade_ok (grades s).

Definition registry_wfb (students : list Student) : bool :=
  forallb student_wfb students
  && bool_decide (NoDup ((λ s, py_lower (name s)) <$> students)).

Record student_wf (s : Student) : Prop := {
  wf_name_stripped : py_strip (name s) = name s;
  wf_name_nonempty : name s ≠ [];
  wf_grades_range : Forall (λ g, 0 <= g <= 100)%Z (grades s);
}.

Definition registry_wf (students : list Student) : Prop :=
  Forall student_wf students ∧ NoDup ((λ s, py_lower (name s)) <$> students).

(** ** The abstract registry of the specification

    The specification describes a registry keyed by the normalised name
    ([strip] then [lower]): a finite map to the records. *)
Module AbsSpec.

Definition normalize (s : pystr) : pystr := py_lower (py_strip s).

Definition abs (students : list Student) : gmap pystr Student :=
  list_to_map ((λ s, (normalize (name s), s)) <$> students).

(** The specification's [findStudent]: the first record whose normalised
    stored name equals the normalised query. *)
Definition spec_find (students : list Student) (query : pystr) : option (nat * Student) :=
  list_find (λ s, normalize (name s) = normalize query) students.

End AbsSpec.

(** ** Lemmas *)

Lemma grade_ok_spec (g : Z) : grade_ok g = true ↔ (0 <= g <= 100)%Z.
Proof. unfold grade_ok. rewrite andb_true_iff, Z.leb_le, Z.leb_le. done. Qed.

Lemma student_wfb_spec (s : Student) : student_wfb s = true ↔ student_wf s.
Proof.
  unfold student_wfb. rewrite !andb_true_iff, bool_decide_eq_true, negb_true_iff,
    bool_decide_eq_false, forallb_forall.
  split.
  - intros [[H1 H2] H3]. split; [done|done|].
    apply List.Forall_forall. intros g Hg. by apply grade_ok_spec, H3.
  - intros [H1 H2 H3]. split; [done|]. intros g Hg.
    apply grade_ok_spec. by apply (proj1 (List.Forall_forall _ _) H3).
Qed.

Lemma registry_wfb_spec (students : list Student) :
  registry_wfb students = true ↔ registry_wf students.
Proof.
  unfold registry_wfb, registry_wf. rewrite andb_true_iff, bool_decide_eq_true,
    forallb_forall, List.Forall_forall.
  split; intros [H1 H2]; (split; [|done]); intros s Hs; by apply student_wfb_spec, H1.
Qed.

Lemma find_student_Some (students : list Student) (q : pystr) (i : nat) (s : Student) :
  find_student students q = Some (i, s) ↔
  students !! i = Some s ∧ py_lower (name s) = py_lower (py_strip q) ∧
  ∀ j s', students !! j = Some s' → j < i → py_lower (name s') ≠ py_lower (py_strip q).
Proof. unfold find_student. by rewrite list_find_Some. Qed.

Lemma find_student_None (students : list Student) (q : pystr) :
  find_student students q = None ↔
  ∀ s, s ∈ students → py_lower (name s) ≠ py_lower (py_strip q).
Proof. unfold find_student. rewrite list_find_None, Forall_forall. done. Qed.

Lemma fmap_alter_id {A B} (f : A → B) (h : A → A) (i : nat) (l : list A) :
  (∀ x, f (h x) = f x) → f <$> alter h i l = f <$> l.
Proof.
  intros Hf. apply list_eq. intros j.
  rewrite !list_lookup_fmap, list_lookup_alter.
  case_decide; subst; [|done]. destruct (l !! j); simpl; [by rewrite Hf|done].
Qed.

Lemma append_grade_names (i : nat) (g : Z) (students : list Student) (f : pystr → pystr) :
  (λ s, f (name s)) <$> append_grade i g students = (λ s, f (name s)) <$> students.
Proof. by apply fmap_alter_id. Qed.

Lemma length_append_grade (i : nat) (g : Z) (students : list Student) :
  length (append_grade i g students) = length students.
Proof. apply length_alter. Qed.

Lemma lookup_append_grade (i j : nat) (g : Z) (students : list Student) :
  append_grade i g students !! j =
  if decide (i = j) then push_grade g <$> students !! i else students !! j.
Proof. apply list_lookup_alter. Qed.

#[export] Hint Resolve length_append_grade : pyrt.
#[export] Hint Rewrite append_grade_names length_append_grade : pyrt_rw.

(** *** The invariant is preserved by the two mutations *)

Lemma append_student_wf (students : list Student) (n : pystr) :
  registry_wf students → py_strip n = n → n ≠ [] →
  find_student students n = None → registry_wf (append_student students n).
Proof.
  intros [Hall Hnd] Hstrip Hne Hfind. unfold append_student. split.
  - apply Forall_app. split; [done|]. repeat constructor; simpl; done.
  - rewrite fmap_app. simpl. apply NoDup_app. split; [done|]. split; [|apply NoDup_singleton].
    intros k Hk ->%list_elem_of_singleton.
    apply list_elem_of_fmap in Hk as (s & Heq & Hs).
    rewrite find_student_None in Hfind. apply (Hfind s Hs). by rewrite Hstrip.
Qed.

Lemma push_grade_wf (g : Z) (s : Student) :
  student_wf s → (0 <= g <= 100)%Z → student_wf (push_grade g s).
Proof.
  intros [H1 H2 H3] Hg. split; simpl; [done|done|].
  apply Forall_app. auto.
Qed.

Lemma append_grade_wf (i : nat) (g : Z) (students : list Student) :
  registry_wf students → (0 <= g <= 100)%Z → registry_wf (append_grade i g students).
Proof.
  intros [Hall Hnd] Hg. split.
  - apply Forall_lookup. intros j s. rewrite lookup_append_grade.
    case_decide as Hij; [subst j|]; intros Hs.
    + destruct (students !! i) as [s0|] eqn:E; simplify_eq/=.
      apply push_grade_wf; [|done]. by eapply Forall_lookup_1.
    + by eapply Forall_lookup_1.
  - by rewrite append_grade_names.
Qed.

(** ** Refinement of the abstract registry *)

Section Refinement.
Import AbsSpec.

(** The map holds, for each key, the first record of that normalised name;
    with the invariant it holds the only one. *)
Lemma abs_lookup (students : list Student) (k : pystr) :
  abs students !! k = snd <$> list_find (λ s, normalize (name s) = k) students.
Proof.
  unfold abs. induction students as [|s students IH]; [done|].
  rewrite fmap_cons, list_to_map_cons, lookup_insert. cbn [list_find].
  case_decide; [done|].
  rewrite IH. by destruct (list_find _ _) as [[j x]|].
Qed.

Lemma normalize_stored (s : Student) :
  py_strip (name s) = name s → normalize (name s) = py_lower (name s).
Proof. unfold normalize. by intros ->. Qed.

(** The code compares [s["name"].lower()] without stripping the stored name;
    it agrees with the specification's lookup because stored names are
    stripped. *)
Theorem find_student_refines_spec (students : list Student) (q : pystr) :
  Forall student_wf students → find_student students q = spec_find students q.
Proof.
  intros Hall. apply list_find_ext_Forall.
  eapply Forall_impl; [exact Hall|]. intros s [Hs _ _]. simpl.
  unfold normalize at 1. rewrite Hs. done.
Qed.

(** C2: [find_student] is the lookup of the abstract map at the normalised
    query. *)
Theorem find_student_abs (students : list Student) (q : pystr) :
  Forall student_wf students → snd <$> find_student students q = abs students !! normalize q.
Proof.
  intros Hall. rewrite abs_lookup, find_student_refines_spec by done. done.
Qed.

(** Appending a fresh student inserts it into the abstract map. *)
Theorem abs_append_student (students : list Student) (n : pystr) :
  Forall student_wf students → find_student students n = None →
  abs (append_student students n) = <[normalize n := mkStudent n []]> (abs students).
Proof.
  intros Hall Hfind. rewrite find_student_refines_spec in Hfind by done.
  apply list_find_None in Hfind. rewrite Forall_forall in Hfind.
  apply map_eq. intros k. rewrite lookup_insert, !abs_lookup. unfold append_student.
  destruct (list_find _ students) as [[j x]|] eqn:E.
  - rewrite (list_find_app_l _ _ _ _ _ E). case_decide as Hk; [|done].
    apply list_find_Some in E as (Hj & Hx & _). subst k.
    destruct (Hfind x); [by eapply list_elem_of_lookup_2|done].
  - rewrite list_find_app_r by done. simpl. by case_decide.
Qed.

(** Appending a grade to the record [find_student] returned updates that
    record in the abstract map and nothing else. *)
Theorem abs_append_grade (students : list Student) (q : pystr) (i : nat) (s : Student) (g : Z) :
  Forall student_wf students → find_student students q = Some (i, s) →
  abs (append_grade i g students) = <[normalize q := push_grade g s]> (abs students).
Proof.
  intros Hall Hfind. rewrite find_student_refines_spec in Hfind by done.
  apply map_eq. intros k. rewrite lookup_insert, !abs_lookup. unfold append_grade.
  rewrite list_find_alter by done.
  case_decide as Hk.
  - subst k. unfold spec_find in Hfind. rewrite Hfind. simpl. by case_decide.
  - destruct (list_find _ students) as [[j x]|] eqn:E; [|done]. simpl.
    case_decide as Hj; [|done]. subst j. simpl in *.
    apply list_find_Some in E as (Hx & Hxk & _).
    apply list_find_Some in Hfind as (Hs & Hsq & _). congruence.
Qed.

(** Witnesses: two students, one with a grade. *)
Lemma student_wf_ann_bob :
  Forall student_wf [mkStudent "Ann" [90%Z]; mkStudent "Bob" []].
Proof. apply (registry_wfb_spec _). vm_compute. reflexivity. Qed.

Lemma find_student_abs_witness :
  Forall student_wf [mkStudent "Ann" [90%Z]; mkStudent "Bob" []] ∧
  snd <$> find_student [mkStudent "Ann" [90%Z]; mkStudent "Bob" []] " BOB " =
  abs [mkStudent "Ann" [90%Z]; mkStudent "Bob" []] !! normalize " BOB ".
Proof. split; [apply student_wf_ann_bob|apply find_student_abs, student_wf_ann_bob]. Defined.

Lemma abs_append_student_witness :
  Forall student_wf [mkStudent "Ann" [90%Z]; mkStudent "Bob" []] ∧
  find_student [mkStudent "Ann" [90%Z]; mkStudent "Bob" []] "Cy" = None ∧
  abs (append_student [mkStudent "Ann" [90%Z]; mkStudent "Bob" []] "Cy") =
  <[normalize "Cy" := mkStudent "Cy" []]> (abs [mkStudent "Ann" [90%Z]; mkStudent "Bob" []]).
Proof.
  split; [apply student_wf_ann_bob|]. split; [discharge|].
  apply abs_append_student; [apply student_wf_ann_bob|discharge].
Defined.


End Refinement.

(** Searching a list extended at the end. *)
Lemma find_student_snoc (students : list Student) (x : Student) (q : pystr) :
  find_student (students ++ [x]) q =
  match find_student students q with
  | Some p => Some p
  | None => if decide (py_lower (name x) = py_lower (py_strip q))
            then Some (length students, x) else None
  end.
Proof.
  unfold find_student. destruct (list_find _ students) as [[j y]|] eqn:E.
  - by rewrite (list_find_app_l _ _ _ _ _ E).
  - rewrite list_find_app_r by done. simpl. case_decide; simpl; [|done].
    done.
Qed.

(** [find_student] depends on its query only through [strip] then [lower]. *)
Lemma find_student_normalized (students : list Student) (q1 q2 : pystr) :
  py_lower (py_strip q1) = py_lower (py_strip q2) →
  find_student students q1 = find_student students q2.
Proof. unfold find_student. by intros ->. Qed.
