(* ===== verification/Console.v ===== *)
(** * The console: [input()], [print()] and the world they act on

    The analyzer talks to the user only through [input(prompt)] and
    [print(...)].  The world of a run is the registry (the [students] list
    [main] owns), the lines still to be read from standard input, and the
    lines printed so far.  Each [print] of
    [src/lecture_3/student_grade_analyzer.py] is one constructor of [msg]
    carrying the values its f-string interpolates; [Render] gives the text
    each one writes.

    [input(prompt)] writes the prompt, then reads one line: at end of file
    it raises [EOFError], and a Ctrl-C typed while it waits raises
    [KeyboardInterrupt]. *)

From S2P Require Import Prelude PyStr PyFormat Students.

Local Open Scope pystr_scope.

(** What standard input delivers to one [input()] call. *)
Inductive input_event : Type :=
  | Line (s : pystr)
  | CtrlC.

Inductive prompt : Type :=
  | PromptName    (* "Enter student name: " *)
  | PromptGrade   (* "Enter a grade (or 'done' to finish): " *)
  | PromptChoice. (* "Enter your choice: " *)

Inductive msg : Type :=
  | MPrompt (p : prompt)
  (* add_new_student *)
  | MNameEmpty                         (* Student name cannot be empty. *)
  | MStudentExists (n : pystr)        (* Student '{name}' already exists. *)
  | MStudentAdded (n : pystr)         (* Student '{name}' added. *)
  (* add_grades_for_student *)
  | MNoStudentsAddFirst                (* No students found. Please add a student first. *)
  | MStudentNotFound (n : pystr)      (* Student '{name}' not found. *)
  | MInvalidNumber                     (* Invalid input. Please enter a number. *)
  | MGradeOutOfRange                   (* Invalid grade. Please enter a value between 0 and 100. *)
  | MGradesUpdated (n : pystr) (added : Z)
                                       (* Grades updated for '{name}'. ({grades_added} grade(s) added) *)
  (* show_report *)
  | MNoStudentsToReport                (* No students to report. *)
  | MReportHeader                      (* \n--- Student Report --- *)
  | MAverageNA (n : pystr)            (* {name}'s average grade is N/A. *)
  | MAverage (n : pystr) (avg : Q)    (* {name}'s average grade is {avg:.1f}. *)
  | MNoGradesYet                       (* No grades have been added yet. *)
  | MRule                              (* ------------------------ *)
  | MRuleEnd                           (* ------------------------\n *)
  | MMaxAverage (q : Q)                (* Max Average: {max_avg:.1f} *)
  | MMinAverage (q : Q)                (* Min Average: {min_avg:.1f} *)
  | MOverallAverage (q : Q)            (* Overall Average: {overall_avg:.1f} *)
  (* find_top_performer *)
  | MNoStudentsFound                   (* No students found. *)
  | MNoGradesForTop                    (* No grades available to determine top performer. *)
  | MTopStudent (n : pystr) (avg : Q) (* The student with the highest average is ... *)
  (* main *)
  | MMenu                              (* print_menu(): the six menu lines *)
  | MInvalidChoiceNaN                  (* Invalid choice. Please enter a number from 1 to 5. *)
  | MInvalidChoiceRange                (* Invalid choice. Please select a number from 1 to 5. *)
  | MExiting                           (* Exiting program. *)
  | MExitingInterrupt.                 (* \nExiting program. *)

Record world : Type := mkWorld {
  students : list Student;
  stdin : list input_event;
  stdout : list msg;
}.

Abbreviation M := (PyM world).

Definition print (m : msg) : M unit :=
  modify_world (λ w, mkWorld (students w) (stdin w) (stdout w ++ [m])).

(** [input(prompt)]: the prompt is written before the read. *)
Definition py_input (p : prompt) : M pystr := λ w,
  let out := stdout w ++ [MPrompt p] in
  match stdin w with
  | [] => (Raise EOFError, mkWorld (students w) [] out)
  | Line s :: rest => (Ret s, mkWorld (students w) rest out)
  | CtrlC :: rest => (Raise KeyboardInterrupt, mkWorld (students w) rest out)
  end.

Definition get_students : M (list Student) := λ w, (Ret (students w), w).

(** An in-place mutation of the registry list or of one of its records. *)
Definition modify_students (f : list Student → list Student) : M unit :=
  modify_world (λ w, mkWorld (f (students w)) (stdin w) (stdout w)).

(** ** What every step of the program keeps

    [io_rel w w']: the registry invariant carries over from [w] to [w'], and
    the input left in [w'] is a suffix of the input left in [w] (input is
    only ever consumed from the front).  The console primitives respect it;
    the handlers and the main loop inherit it through [respects_bind]. *)
Definition io_rel (w w' : world) : Prop :=
  (registry_wf (students w) → registry_wf (students w')) ∧
  stdin w' `suffix_of` stdin w.

#[export] Instance io_rel_preorder : PreOrder io_rel.
Proof.
  split.
  - intros w. split; [done|reflexivity].
  - intros w1 w2 w3 [H12 L12] [H23 L23]. split; [tauto|by etrans].
Qed.

Lemma io_rel_length (w w' : world) : io_rel w w' → length (stdin w') ≤ length (stdin w).
Proof. intros [_ H]. by apply suffix_length. Qed.

Lemma print_io (m : msg) : respects io_rel (print m).
Proof. intros [st inp out]. split; simpl; [done|reflexivity]. Qed.

Lemma py_input_io (p : prompt) : respects io_rel (py_input p).
Proof.
  intros [st inp out]. unfold py_input. simpl.
  destruct inp as [|[s|] inp]; split; simpl; try done; by apply suffix_cons_r.
Qed.

Lemma get_students_io : respects io_rel get_students.
Proof. intros w. reflexivity. Qed.

Lemma modify_students_io (f : list Student → list Student) :
  (∀ st, registry_wf st → registry_wf (f st)) → respects io_rel (modify_students f).
Proof. intros Hf [st inp out]. split; simpl; [apply Hf|reflexivity]. Qed.

#[export] Hint Resolve print_io py_input_io get_students_io : pyrt.

(** A [print] and a registry mutation leave the input untouched; an
    [input()] that returns consumed exactly one line. *)
Lemma py_input_Ret (p : prompt) (w w' : world) (s : pystr) :
  py_input p w = (Ret s, w') → stdin w = Line s :: stdin w'.
Proof.
  destruct w as [st [|[s'|] inp] out]; unfold py_input; simpl; intros H; simplify_eq; done.
Qed.

(** Run the console primitives of a goal on a concrete world. *)
Ltac run_M :=
  repeat (unfold mbind, PyM_bind, mret, PyM_ret, mthrow, PyM_throw, py_input, print,
    modify_students, modify_world, get_students, get_world, out_of_fuel; simpl).

Lemma print_fuel_safe (m : msg) : fuel_safe (print m).
Proof. intros w. done. Qed.

Lemma py_input_fuel_safe (p : prompt) : fuel_safe (py_input p).
Proof. intros [st [|[s|] inp] out]; done. Qed.

Lemma get_students_fuel_safe : fuel_safe get_students.
Proof. intros w. done. Qed.

Lemma modify_students_fuel_safe (f : list Student → list Student) :
  fuel_safe (modify_students f).
Proof. intros w. done. Qed.

#[export] Hint Resolve print_fuel_safe py_input_fuel_safe get_students_fuel_safe
  modify_students_fuel_safe modify_students_io : pyrt.

(** Close a [fuel_safe] or [respects io_rel] goal built from the console
    primitives with [≫=], [if] and [match]. *)
Ltac by_composition :=
  repeat match goal with
  | |- fuel_safe (_ ≫= _) => apply fuel_safe_bind; [|intros ?]
  | |- respects _ (_ ≫= _) => apply respects_bind; [apply _| |intros ?]
  | |- respects _ (mret _) => apply respects_ret, _
  | |- fuel_safe (match ?x with _ => _ end) => destruct x
  | |- respects _ (match ?x with _ => _ end) => destruct x
  | |- fuel_safe (if ?b then _ else _) => destruct b
  | |- respects _ (if ?b then _ else _) => destruct b
  | |- _ => solve [eauto with pyrt]
  end.

(** The input part of [io_rel] alone. *)
Definition stdin_rel (w w' : world) : Prop := stdin w' `suffix_of` stdin w.

#[export] Instance stdin_rel_preorder : PreOrder stdin_rel.
Proof. split; [intros w; red; reflexivity|intros w1 w2 w3 H12 H23; red; by etrans]. Qed.

Lemma io_rel_stdin {A} (m : M A) : respects io_rel m → respects stdin_rel m.
Proof. intros H w. apply H. Qed.

Lemma modify_students_stdin (f : list Student → list Student) :
  respects stdin_rel (modify_students f).
Proof. intros w. red. simpl. reflexivity. Qed.

#[export] Hint Resolve io_rel_stdin modify_students_stdin : pyrt.

(** ** Where [KeyboardInterrupt] can come from

    Only [input()] raises [KeyboardInterrupt], and only on a Ctrl-C. *)
Definition interrupt_free {A} (m : M A) : Prop :=
  ∀ w, CtrlC ∉ stdin w → (m w).1 ≠ Raise KeyboardInterrupt.

Lemma interrupt_free_bind {A B} (m : M A) (k : A → M B) :
  respects stdin_rel m → interrupt_free m → (∀ a, interrupt_free (k a)) →
  interrupt_free (m ≫= k).
Proof.
  intros Hio Hm Hk w Hw. specialize (Hm w Hw). destruct (Hio w) as [pre Hsuf].
  unfold mbind, PyM_bind. set (r := m w) in *. clearbody r.
  destruct r as [[a|e|] w']; simpl in *; [|congruence|discriminate].
  apply Hk. intros Hin. apply Hw. rewrite Hsuf. apply elem_of_app. by right.
Qed.

Lemma interrupt_free_ret {A} (a : A) : interrupt_free (mret a).
Proof. intros w _. done. Qed.

Lemma print_interrupt_free (m : msg) : interrupt_free (print m).
Proof. intros w _. done. Qed.

Lemma py_input_interrupt_free (p : prompt) : interrupt_free (py_input p).
Proof.
  intros [st [|[s|] inp] out] Hw; simpl; try done.
  destruct Hw. apply elem_of_cons. by left.
Qed.

Lemma get_students_interrupt_free : interrupt_free get_students.
Proof. intros w _. done. Qed.

Lemma modify_students_interrupt_free (f : list Student → list Student) :
  interrupt_free (modify_students f).
Proof. intros w _. done. Qed.

#[export] Hint Resolve interrupt_free_ret print_interrupt_free py_input_interrupt_free
  get_students_interrupt_free modify_students_interrupt_free : pyrt.

Ltac by_composition_if :=
  repeat match goal with
  | |- interrupt_free (_ ≫= _) => apply interrupt_free_bind; [by_composition| |intros ?]
  | |- interrupt_free (match ?x with _ => _ end) => destruct x
  | |- interrupt_free (if ?b then _ else _) => destruct b
  | |- _ => solve [eauto with pyrt]
  end.

(** An [input()] followed by anything that consumes input returns only after
    consuming at least one line. *)
Lemma input_bind_consumes {A} (p : prompt) (k : pystr → M A) (w w' : world) (a : A) :
  (∀ s, respects stdin_rel (k s)) → (py_input p ≫= k) w = (Ret a, w') →
  length (stdin w') < length (stdin w).
Proof.
  intros Hk. destruct w as [st [|[s|] inp] out]; run_M; try discriminate.
  intros E. pose proof (Hk s (mkWorld st inp (out ++ [MPrompt p]))) as Hs.
  rewrite E in Hs. apply suffix_length in Hs. simpl in *. lia.
Qed.
