(* ===== verification/Handlers.v ===== *)
(** * The two handlers that change the registry

    [add_new_student] (menu choice 1) and [add_grades_for_student] (menu
    choice 2) of [src/lecture_3/student_grade_analyzer.py], with its
    [while True] grade loop.  The loop runs on fuel: each iteration reads
    one line, so fuel above the number of lines left is always enough
    ([grade_loop_total]).  Python's [try: int(...) except ValueError] and
    range check are [classify_grade], whose result is the branch the loop
    body takes.  [spec_add_student] is the specification's [addStudent] on
    the abstract registry of [Students.AbsSpec], which choice 1 refines. *)

From S2P Require Import Prelude PyStr Students Console.
From stdpp Require Import gmap.

Local Open Scope pystr_scope.

(** ** Menu choice 1 *)

Definition add_new_student : M unit :=
  raw ← py_input PromptName;
  let n := py_strip raw in
  if bool_decide (n = []) then print MNameEmpty
  else
    st ← get_students;
    match find_student st n with
    | Some _ => print (MStudentExists n)
    | None => modify_students (λ st, append_student st n);; print (MStudentAdded n)
    end.

(** The specification's [addStudent] (section 4.2) on the abstract
    registry: the message printed and the registry after it. *)
Definition spec_add_student (m : gmap pystr Student) (raw : pystr) : msg * gmap pystr Student :=
  let n := py_strip raw in
  if bool_decide (n = []) then (MNameEmpty, m)
  else match m !! AbsSpec.normalize raw with
       | Some _ => (MStudentExists n, m)
       | None => (MStudentAdded n, <[AbsSpec.normalize raw := mkStudent n []]> m)
       end.

(** ** Menu choice 2 *)

(** The branch the body of the grade loop takes on one input line. *)
Inductive grade_token : Type :=
  | GDone                (* 'done' in any case: break *)
  | GNotANumber          (* int() raised ValueError: warn and continue *)
  | GOutOfRange (g : Z)  (* not 0 <= grade <= 100: warn and continue *)
  | GValid (g : Z).      (* appended to the student's grades *)

Definition classify_grade (raw : pystr) : grade_token :=
  let grade_str := py_strip raw in
  if bool_decide (py_lower grade_str = "done") then GDone
  else match py_int grade_str with
       | None => GNotANumber
       | Some g => if grade_ok g then GValid g else GOutOfRange g
       end.

Fixpoint grade_loop (fuel : nat) (i : nat) : M unit :=
  match fuel with
  | O => out_of_fuel
  | S fuel =>
      raw ← py_input PromptGrade;
      match classify_grade raw with
      | GDone => mret ()
      | GNotANumber => print MInvalidNumber;; grade_loop fuel i
      | GOutOfRange _ => print MGradeOutOfRange;; grade_loop fuel i
      | GValid g => modify_students (append_grade i g);; grade_loop fuel i
      end
  end.

(** The record [find_student] returned is the object at index [i] of the
    list; the loop appends to it in place, and the final message reads the
    same object back.  The [None] branch is unreachable: the loop keeps the
    length of the list ([length_append_grade]). *)
Definition add_grades_for_student (fuel : nat) : M unit :=
  st ← get_students;
  if decide (st = []) then print MNoStudentsAddFirst
  else
    raw ← py_input PromptName;
    let n := py_strip raw in
    match find_student st n with
    | None => print (MStudentNotFound n)
    | Some (i, s) =>
        let initial_count := length (grades s) in
        grade_loop fuel i;;
        st' ← get_students;
        match st' !! i with
        | Some s' =>
            print (MGradesUpdated (name s')
                     (Z.of_nat (length (grades s')) - Z.of_nat initial_count))
        | None => mret ()
        end
    end.

(** ** The handlers keep the registry invariant and never grow the input *)

Lemma classify_grade_valid (raw : pystr) (g : Z) :
  classify_grade raw = GValid g → (0 <= g <= 100)%Z.
Proof.
  unfold classify_grade. case_bool_decide; [done|].
  destruct (py_int _) as [g'|]; [|done].
  destruct (grade_ok g') eqn:E; intros Hg; simplify_eq. by apply grade_ok_spec.
Qed.

Lemma grade_loop_io (fuel i : nat) : respects io_rel (grade_loop fuel i).
Proof.
  induction fuel as [|fuel IH]; simpl; [apply respects_out_of_fuel; apply _|].
  apply respects_bind; [apply _|apply py_input_io|intros raw].
  destruct (classify_grade raw) as [| |g|g] eqn:E.
  - apply respects_ret, _.
  - apply respects_bind; [apply _|apply print_io|done].
  - apply respects_bind; [apply _|apply print_io|done].
  - apply respects_bind; [apply _| |done].
    apply modify_students_io. intros st Hst.
    by apply append_grade_wf, (classify_grade_valid raw).
Qed.

Lemma add_grades_for_student_io (fuel : nat) : respects io_rel (add_grades_for_student fuel).
Proof.
  unfold add_grades_for_student.
  apply respects_bind; [apply _|apply get_students_io|intros st].
  case_decide; [apply print_io|].
  apply respects_bind; [apply _|apply py_input_io|intros raw].
  destruct (find_student st _) as [[i s]|]; [|apply print_io].
  apply respects_bind; [apply _|apply grade_loop_io|intros []].
  apply respects_bind; [apply _|apply get_students_io|intros st'].
  destruct (st' !! i); [apply print_io|apply respects_ret, _].
Qed.

(** The add handler looks the name up in the list it then appends to; the
    proof follows the world through. *)
Lemma add_new_student_io : respects io_rel add_new_student.
Proof.
  intros [st inp out]. unfold add_new_student.
  destruct inp as [|[raw|] inp]; run_M;
    try (split; simpl; [done|first [reflexivity | apply suffix_cons_r; reflexivity]]).
  case_bool_decide as Hempty; run_M.
  { split; simpl; [done|apply suffix_cons_r; reflexivity]. }
  destruct (find_student st (py_strip raw)) eqn:Hfind; run_M;
    split; simpl; try (apply suffix_cons_r; reflexivity); [done|].
  intros Hwf. by apply append_student_wf; [|apply py_strip_idem| |].
Qed.

(** ** What the grade loop does

    The specification of the loop is stated over the lines it reads: the
    grades appended are the valid tokens, in the order received, and the
    output is, per line, its prompt and its warning. *)

Definition token_grade (raw : pystr) : option Z :=
  match classify_grade raw with GValid g => Some g | _ => None end.

Definition token_msgs (raw : pystr) : list msg :=
  MPrompt PromptGrade ::
  match classify_grade raw with
  | GNotANumber => [MInvalidNumber]
  | GOutOfRange _ => [MGradeOutOfRange]
  | _ => []
  end.

Definition append_grades (i : nat) (gs : list Z) (st : list Student) : list Student :=
  alter (λ s, mkStudent (name s) (grades s ++ gs)) i st.

Lemma append_grades_nil (i : nat) (st : list Student) : append_grades i [] st = st.
Proof. apply list_alter_id. intros [n gs]. simpl. by rewrite app_nil_r. Qed.

Lemma append_grades_cons (i : nat) (g : Z) (gs : list Z) (st : list Student) :
  append_grades i gs (append_grade i g st) = append_grades i (g :: gs) st.
Proof.
  apply list_eq. intros j. unfold append_grades, append_grade.
  rewrite !list_lookup_alter. repeat case_decide; subst; try done.
  destruct (st !! j); simpl; [|done]. by rewrite <-app_assoc.
Qed.

Lemma append_grades_lookup (i : nat) (gs : list Z) (st : list Student) :
  append_grades i gs st !! i = (λ s, mkStudent (name s) (grades s ++ gs)) <$> st !! i.
Proof. apply list_lookup_alter_eq. Qed.

(** Reading [toks], none of them 'done', costs one unit of fuel per line
    and leaves the loop in the state the valid tokens give. *)
Lemma grade_loop_prefix (toks : list pystr) (fuel i : nat) (st : list Student)
    (rest : list input_event) (out : list msg) :
  Forall (λ t, classify_grade t ≠ GDone) toks → length toks ≤ fuel →
  grade_loop fuel i (mkWorld st (map Line toks ++ rest) out) =
  grade_loop (fuel - length toks) i
    (mkWorld (append_grades i (omap token_grade toks) st) rest
       (out ++ concat (map token_msgs toks))).
Proof.
  intros Htoks. revert fuel st out.
  induction Htoks as [|t toks Ht Htoks IH]; intros fuel st out Hfuel.
  { simpl. rewrite append_grades_nil, app_nil_r, Nat.sub_0_r. done. }
  destruct fuel as [|fuel]; [simpl in Hfuel; lia|]. simpl in Hfuel.
  cbn [grade_loop]. run_M.
  unfold token_grade, token_msgs at 1. simpl.
  destruct (classify_grade t) as [| |g|g] eqn:E; [done| | |]; run_M;
    rewrite IH by lia; simpl; rewrite <-!app_assoc; try done.
  rewrite append_grades_cons. done.
Qed.

(** A line reading 'done' after [toks] ends the loop normally. *)
Lemma grade_loop_done (toks : list pystr) (d : pystr) (fuel i : nat) (st : list Student)
    (rest : list input_event) (out : list msg) :
  Forall (λ t, classify_grade t ≠ GDone) toks → classify_grade d = GDone →
  length toks < fuel →
  grade_loop fuel i (mkWorld st (map Line toks ++ Line d :: rest) out) =
  (Ret (), mkWorld (append_grades i (omap token_grade toks) st) rest
             (out ++ concat (map token_msgs toks) ++ [MPrompt PromptGrade])).
Proof.
  intros Htoks Hd Hfuel. rewrite grade_loop_prefix by (done || lia).
  destruct (fuel - length toks) as [|f] eqn:Ef; [lia|].
  cbn [grade_loop]. run_M. rewrite Hd. run_M. by rewrite <-app_assoc.
Qed.

(** C14: A Ctrl-C while the loop waits for a grade raises [KeyboardInterrupt]
    out of the handler; the grades appended before it stay in the list,
    since they were appended in place. *)
Lemma grade_loop_interrupt (toks : list pystr) (fuel i : nat) (st : list Student)
    (rest : list input_event) (out : list msg) :
  Forall (λ t, classify_grade t ≠ GDone) toks → length toks < fuel →
  grade_loop fuel i (mkWorld st (map Line toks ++ CtrlC :: rest) out) =
  (Raise KeyboardInterrupt, mkWorld (append_grades i (omap token_grade toks) st) rest
             (out ++ concat (map token_msgs toks) ++ [MPrompt PromptGrade])).
Proof.
  intros Htoks Hfuel. rewrite grade_loop_prefix by (done || lia).
  destruct (fuel - length toks) as [|f] eqn:Ef; [lia|].
  cbn [grade_loop]. run_M. by rewrite <-app_assoc.
Qed.

(** The end of the input inside the loop raises [EOFError]. *)
Lemma grade_loop_eof (toks : list pystr) (fuel i : nat) (st : list Student) (out : list msg) :
  Forall (λ t, classify_grade t ≠ GDone) toks → length toks < fuel →
  grade_loop fuel i (mkWorld st (map Line toks) out) =
  (Raise EOFError, mkWorld (append_grades i (omap token_grade toks) st) []
             (out ++ concat (map token_msgs toks) ++ [MPrompt PromptGrade])).
Proof.
  intros Htoks Hfuel. rewrite <-(app_nil_r (map Line toks)).
  rewrite grade_loop_prefix by (done || lia).
  destruct (fuel - length toks) as [|f] eqn:Ef; [lia|].
  cbn [grade_loop]. run_M. by rewrite <-app_assoc.
Qed.

(** Fuel above the number of lines left is enough: the loop never runs out
    of fuel, it returns or raises. *)
Theorem grade_loop_total (fuel i : nat) (w : world) :
  length (stdin w) < fuel → (grade_loop fuel i w).1 ≠ OutOfFuel.
Proof.
  revert w. induction fuel as [|fuel IH]; intros [st inp out] Hlen; [simpl in Hlen; lia|].
  cbn [grade_loop]. run_M.
  destruct inp as [|[raw|] inp]; run_M; try done. simpl in Hlen.
  destruct (classify_grade raw); run_M; try done; apply IH; simpl; lia.
Qed.

(** ** Menu choice 2, end to end *)

(** C1: With a registered student and grade lines ended by 'done': the valid
    grades are appended to that student in order, every other record is
    untouched, and the count reported is the number of valid grades. *)
Theorem add_grades_for_student_spec (fuel : nat) (st : list Student) (raw d : pystr)
    (toks : list pystr) (rest : list input_event) (out : list msg) (i : nat) (s : Student) :
  find_student st (py_strip raw) = Some (i, s) →
  Forall (λ t, classify_grade t ≠ GDone) toks → classify_grade d = GDone →
  length toks < fuel →
  add_grades_for_student fuel (mkWorld st (Line raw :: map Line toks ++ Line d :: rest) out) =
  (Ret (), mkWorld (append_grades i (omap token_grade toks) st) rest
     (out ++ MPrompt PromptName :: concat (map token_msgs toks) ++
      [MPrompt PromptGrade;
       MGradesUpdated (name s) (Z.of_nat (length (omap token_grade toks)))])).
Proof.
  intros Hfind Htoks Hd Hfuel. pose proof Hfind as (Hi & _ & _)%find_student_Some.
  unfold add_grades_for_student. run_M.
  case_decide; [subst st; by rewrite lookup_nil in Hi|]. run_M.
  rewrite Hfind. run_M. rewrite grade_loop_done by done. run_M.
  rewrite append_grades_lookup, Hi. run_M.
  rewrite length_app, Nat2Z.inj_add, Z.add_simpl_l, <-!app_assoc. done.
Qed.

(** With no student, the handler reads nothing and changes nothing. *)
Lemma add_grades_for_student_empty (fuel : nat) (inp : list input_event) (out : list msg) :
  add_grades_for_student fuel (mkWorld [] inp out) =
  (Ret (), mkWorld [] inp (out ++ [MNoStudentsAddFirst])).
Proof. reflexivity. Qed.

(** C15: An unknown name reads one line and changes nothing. *)
Lemma add_grades_for_student_not_found (fuel : nat) (st : list Student) (raw : pystr)
    (rest : list input_event) (out : list msg) :
  st ≠ [] → find_student st (py_strip raw) = None →
  add_grades_for_student fuel (mkWorld st (Line raw :: rest) out) =
  (Ret (), mkWorld st rest (out ++ [MPrompt PromptName; MStudentNotFound (py_strip raw)])).
Proof.
  intros Hne Hfind. unfold add_grades_for_student. run_M.
  case_decide; [done|]. run_M. rewrite Hfind. run_M. by rewrite <-app_assoc.
Qed.

Theorem add_grades_for_student_total (fuel : nat) (w : world) :
  length (stdin w) < fuel → (add_grades_for_student fuel w).1 ≠ OutOfFuel.
Proof.
  intros Hlen. destruct w as [st inp out]. unfold add_grades_for_student. run_M.
  case_decide; run_M; [done|].
  destruct inp as [|[raw|] inp]; run_M; try done. simpl in Hlen.
  destruct (find_student st (py_strip raw)) as [[i s]|]; run_M; [|done].
  pose proof (grade_loop_total fuel i (mkWorld st inp (out ++ [MPrompt PromptName]))) as Ht.
  destruct (grade_loop fuel i _) as [[[]|e|] w'] eqn:E; run_M; simpl in Ht.
  - destruct (_ !! i); run_M; done.
  - done.
  - apply Ht. lia.
Qed.

(** ** Menu choice 1 *)

Lemma add_new_student_added (st : list Student) (raw : pystr)
    (rest : list input_event) (out : list msg) :
  py_strip raw ≠ [] → find_student st (py_strip raw) = None →
  add_new_student (mkWorld st (Line raw :: rest) out) =
  (Ret (), mkWorld (append_student st (py_strip raw)) rest
             (out ++ [MPrompt PromptName; MStudentAdded (py_strip raw)])).
Proof.
  intros Hne Hfind. unfold add_new_student. run_M.
  rewrite bool_decide_eq_false_2 by done. run_M. rewrite Hfind. run_M.
  by rewrite <-app_assoc.
Qed.

Lemma add_new_student_exists (st : list Student) (raw : pystr)
    (rest : list input_event) (out : list msg) (p : nat * Student) :
  py_strip raw ≠ [] → find_student st (py_strip raw) = Some p →
  add_new_student (mkWorld st (Line raw :: rest) out) =
  (Ret (), mkWorld st rest (out ++ [MPrompt PromptName; MStudentExists (py_strip raw)])).
Proof.
  intros Hne Hfind. unfold add_new_student. run_M.
  rewrite bool_decide_eq_false_2 by done. run_M. rewrite Hfind. run_M.
  by rewrite <-app_assoc.
Qed.

(** A name that is empty after [strip()] is refused with a message, and
    the registry is unchanged. *)
Lemma add_new_student_empty (st : list Student) (raw : pystr)
    (rest : list input_event) (out : list msg) :
  py_strip raw = [] →
  add_new_student (mkWorld st (Line raw :: rest) out) =
  (Ret (), mkWorld st rest (out ++ [MPrompt PromptName; MNameEmpty])).
Proof.
  intros He. unfold add_new_student. run_M. rewrite bool_decide_eq_true_2 by done. run_M.
  by rewrite <-app_assoc.
Qed.

(** C3: Menu choice 1 reads one line and implements the specification's
    [addStudent] on the abstract registry keyed by the normalised name: it
    prints the prompt and the specification's message (empty name,
    existing student, or added under the stripped name), leaves the
    registry's map view as the specification's, keeps the invariant, and
    raises nothing. *)
Theorem add_new_student_refines (st : list Student) (raw : pystr)
    (rest : list input_event) (out : list msg) :
  registry_wf st →
  let '(r, w') := add_new_student (mkWorld st (Line raw :: rest) out) in
  r = Ret () ∧ stdin w' = rest ∧ registry_wf (students w') ∧
  stdout w' = out ++ [MPrompt PromptName; (spec_add_student (AbsSpec.abs st) raw).1] ∧
  AbsSpec.abs (students w') = (spec_add_student (AbsSpec.abs st) raw).2.
Proof.
  intros Hwf. unfold spec_add_student.
  assert (Hn : AbsSpec.normalize (py_strip raw) = AbsSpec.normalize raw).
  { unfold AbsSpec.normalize. by rewrite py_strip_idem. }
  assert (Hk : AbsSpec.abs st !! AbsSpec.normalize raw = snd <$> find_student st (py_strip raw)).
  { rewrite abs_lookup, find_student_refines_spec by apply Hwf. unfold AbsSpec.spec_find.
    by rewrite Hn. }
  case_bool_decide as He.
  - rewrite add_new_student_empty by done. simpl. by split_and!.
  - rewrite Hk. destruct (find_student st (py_strip raw)) as [p|] eqn:Hf; simpl.
    + rewrite (add_new_student_exists st raw rest out p) by done. simpl. by split_and!.
    + rewrite add_new_student_added by done. simpl. split_and!; [done|done| |done|].
      * apply append_student_wf; [done|apply py_strip_idem|done|done].
      * rewrite abs_append_student by (done || apply Hwf). by rewrite Hn.
Qed.

Lemma add_new_student_fuel_safe : fuel_safe add_new_student.
Proof. unfold add_new_student. by_composition. Qed.

#[export] Hint Resolve grade_loop_io add_grades_for_student_io add_new_student_io
  add_new_student_fuel_safe : pyrt.

(** ** Only a Ctrl-C raises [KeyboardInterrupt] in the handlers *)

Lemma grade_loop_interrupt_free (fuel i : nat) : interrupt_free (grade_loop fuel i).
Proof.
  induction fuel as [|fuel IH]; simpl; [intros w _; done|]. by_composition_if.
Qed.

#[export] Hint Resolve grade_loop_interrupt_free : pyrt.

Lemma add_new_student_interrupt_free : interrupt_free add_new_student.
Proof. unfold add_new_student. by_composition_if. Qed.

Lemma add_grades_for_student_interrupt_free (fuel : nat) :
  interrupt_free (add_grades_for_student fuel).
Proof. unfold add_grades_for_student. by_composition_if. Qed.

#[export] Hint Resolve add_new_student_interrupt_free add_grades_for_student_interrupt_free : pyrt.

(** ** Name uniqueness, as the specification tests it *)

Lemma stripped_query_nonempty (r1 r2 : pystr) :
  py_strip r1 ≠ [] → py_lower (py_strip r1) = py_lower (py_strip r2) →
  py_strip r2 ≠ [].
Proof.
  intros Hne Heq He2. apply Hne, py_lower_empty. rewrite Heq, He2. done.
Qed.

(** C12: Adding a name, then the same name up to case and surrounding spaces:
    the first is added, the second is refused with [DuplicateName] and the
    registry is left as the first add left it. *)
Theorem add_student_twice_rejected (st : list Student) (r1 r2 : pystr)
    (rest : list input_event) (out : list msg) :
  py_strip r1 ≠ [] → find_student st (py_strip r1) = None →
  py_lower (py_strip r1) = py_lower (py_strip r2) →
  let w1 := mkWorld (append_student st (py_strip r1)) (Line r2 :: rest)
              (out ++ [MPrompt PromptName; MStudentAdded (py_strip r1)]) in
  add_new_student (mkWorld st (Line r1 :: Line r2 :: rest) out) = (Ret (), w1) ∧
  add_new_student w1 =
    (Ret (), mkWorld (append_student st (py_strip r1)) rest
               (stdout w1 ++ [MPrompt PromptName; MStudentExists (py_strip r2)])).
Proof.
  intros Hne Hfind Heq w1. split; [by apply add_new_student_added|].
  apply (add_new_student_exists _ _ _ _ (length st, mkStudent (py_strip r1) [])).
  - by eapply stripped_query_nonempty.
  - unfold append_student. rewrite find_student_snoc.
    rewrite (find_student_normalized _ _ (py_strip r1)), Hfind by (by rewrite !py_strip_idem).
    simpl. rewrite py_strip_idem, Heq. by case_decide.
Qed.

(** Two names that differ after [strip] and [lower] are both added, and
    each is then found, at its insertion position. *)
Theorem add_two_distinct_students (st : list Student) (r1 r2 : pystr)
    (rest : list input_event) (out : list msg) :
  py_strip r1 ≠ [] → py_strip r2 ≠ [] →
  find_student st (py_strip r1) = None → find_student st (py_strip r2) = None →
  py_lower (py_strip r1) ≠ py_lower (py_strip r2) →
  let st' := append_student (append_student st (py_strip r1)) (py_strip r2) in
  (add_new_student ≫= λ _, add_new_student) (mkWorld st (Line r1 :: Line r2 :: rest) out) =
    (Ret (), mkWorld st' rest
       (out ++ [MPrompt PromptName; MStudentAdded (py_strip r1);
                MPrompt PromptName; MStudentAdded (py_strip r2)])) ∧
  find_student st' r1 = Some (length st, mkStudent (py_strip r1) []) ∧
  find_student st' r2 = Some (S (length st), mkStudent (py_strip r2) []).
Proof.
  intros Hne1 Hne2 Hf1 Hf2 Hdiff st'.
  assert (Hf2' : find_student (append_student st (py_strip r1)) (py_strip r2) = None).
  { unfold append_student. rewrite find_student_snoc, Hf2. simpl.
    rewrite py_strip_idem. case_decide; [congruence|done]. }
  split; [|split].
  - unfold mbind at 1, PyM_bind at 1. rewrite add_new_student_added by done.
    rewrite add_new_student_added by done. by rewrite <-app_assoc.
  - unfold st', append_student. rewrite !find_student_snoc.
    rewrite (find_student_normalized _ r1 (py_strip r1)), Hf1 by (by rewrite py_strip_idem).
    simpl. case_decide as H1; [|by destruct H1].
    done.
  - unfold st', append_student. rewrite !find_student_snoc.
    rewrite (find_student_normalized _ r2 (py_strip r2)), Hf2 by (by rewrite py_strip_idem).
    simpl. case_decide as H1; [congruence|]. case_decide as H2; [|by destruct H2].
    rewrite length_app. simpl. do 2 f_equal. lia.
Qed.

(** ** Enough fuel is not observable *)

Lemma grade_loop_fuel_irrelevant (f1 f2 i : nat) (w : world) :
  length (stdin w) < f1 → length (stdin w) < f2 → grade_loop f1 i w = grade_loop f2 i w.
Proof.
  revert f2 w. induction f1 as [|f1 IH]; intros [|f2] [st inp out] H1 H2; simpl in *; try lia.
  run_M. destruct inp as [|[raw|] inp]; run_M; try reflexivity. simpl in *.
  destruct (classify_grade raw); run_M; try reflexivity; apply IH; simpl; lia.
Qed.

Lemma add_grades_for_student_fuel_irrelevant (f1 f2 : nat) (w : world) :
  length (stdin w) < f1 → length (stdin w) < f2 →
  add_grades_for_student f1 w = add_grades_for_student f2 w.
Proof.
  intros H1 H2. destruct w as [st inp out]. unfold add_grades_for_student. run_M.
  case_decide; run_M; [reflexivity|].
  destruct inp as [|[raw|] inp]; run_M; try reflexivity. simpl in *.
  destruct (find_student st (py_strip raw)) as [[i s]|]; run_M; [|reflexivity].
  rewrite (grade_loop_fuel_irrelevant f1 f2) by (simpl; lia). reflexivity.
Qed.

(** ** Witnesses *)

Lemma add_grades_for_student_spec_witness :
  find_student [mkStudent "Ann" [90%Z]] (py_strip " ann ") = Some (0, mkStudent "Ann" [90%Z]) ∧
  Forall (λ t, classify_grade t ≠ GDone) ["50"; "x"; "150"] ∧
  classify_grade "Done" = GDone ∧ length ["50"; "x"; "150"] < 4 ∧
  add_grades_for_student 4
    (mkWorld [mkStudent "Ann" [90%Z]] (Line " ann " :: map Line ["50"; "x"; "150"] ++ [Line "Done"]) []) =
  (Ret (), mkWorld (append_grades 0 (omap token_grade ["50"; "x"; "150"]) [mkStudent "Ann" [90%Z]]) []
     ([] ++ MPrompt PromptName :: concat (map token_msgs ["50"; "x"; "150"]) ++
      [MPrompt PromptGrade;
       MGradesUpdated (name (mkStudent "Ann" [90%Z]))
         (Z.of_nat (length (omap token_grade ["50"; "x"; "150"])))])).
Proof.
  split; [discharge|]. split; [discharge|]. split; [discharge|]. split; [discharge|].
  apply add_grades_for_student_spec; discharge.
Defined.

Lemma grade_loop_interrupt_witness :
  Forall (λ t, classify_grade t ≠ GDone) ["70"; "101"] ∧ length ["70"; "101"] < 3 ∧
  grade_loop 3 0 (mkWorld [mkStudent "Ann" []] (map Line ["70"; "101"] ++ CtrlC :: []) []) =
  (Raise KeyboardInterrupt,
   mkWorld (append_grades 0 (omap token_grade ["70"; "101"]) [mkStudent "Ann" []]) []
     ([] ++ concat (map token_msgs ["70"; "101"]) ++ [MPrompt PromptGrade])).
Proof.
  split; [discharge|]. split; [discharge|]. apply grade_loop_interrupt; discharge.
Defined.

Lemma grade_loop_eof_witness :
  Forall (λ t, classify_grade t ≠ GDone) ["70"] ∧ length ["70"] < 2 ∧
  grade_loop 2 0 (mkWorld [mkStudent "Ann" []] (map Line ["70"]) []) =
  (Raise EOFError, mkWorld (append_grades 0 (omap token_grade ["70"]) [mkStudent "Ann" []]) []
     ([] ++ concat (map token_msgs ["70"]) ++ [MPrompt PromptGrade])).
Proof.
  split; [discharge|]. split; [discharge|]. apply grade_loop_eof; discharge.
Defined.

Lemma add_grades_for_student_not_found_witness :
  [mkStudent "Ann" []] ≠ [] ∧ find_student [mkStudent "Ann" []] (py_strip "Bo") = None ∧
  add_grades_for_student 3 (mkWorld [mkStudent "Ann" []] [Line "Bo"; Line "5"] []) =
  (Ret (), mkWorld [mkStudent "Ann" []] [Line "5"]
             ([] ++ [MPrompt PromptName; MStudentNotFound (py_strip "Bo")])).
Proof.
  split; [discharge|]. split; [discharge|].
  apply add_grades_for_student_not_found; discharge.
Defined.

Lemma add_new_student_empty_witness :
  py_strip "   " = [] ∧
  add_new_student (mkWorld [] [Line "   "] []) =
  (Ret (), mkWorld [] [] ([] ++ [MPrompt PromptName; MNameEmpty])).
Proof. split; [discharge|]. apply add_new_student_empty; discharge. Defined.

Lemma add_student_twice_rejected_witness :
  py_strip "Ann" ≠ [] ∧ find_student [] (py_strip "Ann") = None ∧
  py_lower (py_strip "Ann") = py_lower (py_strip " aNN ") ∧
  let w1 := mkWorld (append_student [] (py_strip "Ann")) (Line " aNN " :: [])
              ([] ++ [MPrompt PromptName; MStudentAdded (py_strip "Ann")]) in
  add_new_student (mkWorld [] (Line "Ann" :: Line " aNN " :: []) []) = (Ret (), w1) ∧
  add_new_student w1 =
    (Ret (), mkWorld (append_student [] (py_strip "Ann")) []
               (stdout w1 ++ [MPrompt PromptName; MStudentExists (py_strip " aNN ")])).
Proof.
  split; [discharge|]. split; [discharge|]. split; [discharge|].
  apply add_student_twice_rejected; discharge.
Defined.

Lemma add_two_distinct_students_witness :
  py_strip "Ann" ≠ [] ∧ py_strip "Bob" ≠ [] ∧
  find_student [] (py_strip "Ann") = None ∧ find_student [] (py_strip "Bob") = None ∧
  py_lower (py_strip "Ann") ≠ py_lower (py_strip "Bob") ∧
  let st' := append_student (append_student [] (py_strip "Ann")) (py_strip "Bob") in
  (add_new_student ≫= λ _, add_new_student) (mkWorld [] (Line "Ann" :: Line "Bob" :: []) []) =
    (Ret (), mkWorld st' []
       ([] ++ [MPrompt PromptName; MStudentAdded (py_strip "Ann");
               MPrompt PromptName; MStudentAdded (py_strip "Bob")])) ∧
  find_student st' "Ann" = Some (length (@nil Student), mkStudent (py_strip "Ann") []) ∧
  find_student st' "Bob" = Some (S (length (@nil Student)), mkStudent (py_strip "Bob") []).
Proof.
  split; [discharge|]. split; [discharge|]. split; [discharge|]. split; [discharge|].
  split; [discharge|]. apply add_two_distinct_students; discharge.
Defined.

Lemma add_new_student_refines_witness :
  registry_wf [mkStudent "Ann" [90%Z]; mkStudent "Bob" []] ∧
  let '(r, w') := add_new_student
                    (mkWorld [mkStudent "Ann" [90%Z]; mkStudent "Bob" []] [Line " bob "] []) in
  r = Ret () ∧ stdin w' = [] ∧ registry_wf (students w') ∧
  stdout w' = [] ++ [MPrompt PromptName;
    (spec_add_student (AbsSpec.abs [mkStudent "Ann" [90%Z]; mkStudent "Bob" []]) " bob ").1] ∧
  AbsSpec.abs (students w') =
    (spec_add_student (AbsSpec.abs [mkStudent "Ann" [90%Z]; mkStudent "Bob" []]) " bob ").2.
Proof.
  assert (Hwf : registry_wf [mkStudent "Ann" [90%Z]; mkStudent "Bob" []]).
  { apply (registry_wfb_spec _). vm_compute. reflexivity. }
  split; [exact Hwf|]. exact (add_new_student_refines _ " bob " [] [] Hwf).
Defined.

(** How the loop classifies tokens the specification does not mention:
    [int()] accepts a sign, surrounding whitespace, leading zeros and
    underscores between digits, so "1_00" and " +07 " are grades, while
    "1__0", "_5" and "5_" are not numbers, and "-0" is the grade 0; it also
    reads the decimal digits of every script and strips Unicode
    whitespace, so the Arabic-Indic "٩٠", the full-width "１００" and
    "٧" between ideographic spaces are the grades 90, 100 and 7, while the
    superscript "²" and the numeral "Ⅻ", digits but not decimal ones, are
    not numbers, nor is the full-width "ＤＯＮＥ" the sentinel. *)
Example classify_grade_python_int :
  classify_grade "1_00" = GValid 100 ∧ classify_grade " +07 " = GValid 7 ∧
  classify_grade "-0" = GValid 0 ∧ classify_grade "1__0" = GNotANumber ∧
  classify_grade "_5" = GNotANumber ∧ classify_grade "5_" = GNotANumber ∧
  classify_grade "1e2" = GNotANumber ∧ classify_grade " DoNe " = GDone ∧
  classify_grade "-1" = GOutOfRange (-1) ∧ classify_grade "101" = GOutOfRange 101 ∧
  classify_grade "٩٠" = GValid 90 ∧ classify_grade "１００" = GValid 100 ∧
  classify_grade "　٧　" = GValid 7 ∧ classify_grade "1_٥" = GValid 15 ∧
  classify_grade "²" = GNotANumber ∧ classify_grade "Ⅻ" = GNotANumber ∧
  classify_grade "ＤＯＮＥ" = GNotANumber.
Proof. vm_compute. repeat split. Qed.

(** Names are compared by [str.lower()], which is not a caseless
    comparison: "ΟΔΟΣ" lowers with a final sigma to "οδος", while "οδοσ",
    which differs from it only in case, lowers to itself.  After "ΟΔΟΣ" is
    added, "οδοσ" is not found and is added as a second student. *)
Theorem lower_not_caseless :
  py_lower "ΟΔΟΣ" = "οδος" ∧ py_lower "οδοσ" = "οδοσ" ∧
  find_student [mkStudent "ΟΔΟΣ" []] "οδοσ" = None ∧
  (add_new_student ≫= λ _, add_new_student) (mkWorld [] [Line "ΟΔΟΣ"; Line "οδοσ"] []) =
    (Ret (), mkWorld [mkStudent "ΟΔΟΣ" []; mkStudent "οδοσ" []] []
       [MPrompt PromptName; MStudentAdded "ΟΔΟΣ"; MPrompt PromptName; MStudentAdded "οδοσ"]).
Proof. vm_compute. repeat split. Qed.
