(* ===== verification/Report.v ===== *)
(** * The two reporting handlers

    [show_report] (menu choice 3) and [find_top_performer] (menu choice 4)
    of [src/lecture_3/student_grade_analyzer.py].  They read the registry
    and print; neither changes it.  Every average is a binary64 float, as
    in CPython: [sum(grades) / len(grades)] of two ints is the correctly
    rounded quotient ([PyFormat.py_float_div]), [sum(averages) /
    len(averages)] a float sum rounded after each addition, divided by the
    float nearest the length ([PyFormat.py_float_mean]); [max], [min] and
    [max(..., key=...)] are the first-extremum scans of the prelude. *)

From S2P Require Import Prelude PyStr PyFormat Students Console.

(** ** Menu choice 3 *)

(** [avg = sum(grades) / len(grades)], with [ZeroDivisionError] caught
    into [avg = None]. *)
Definition student_average (s : Student) : option Q :=
  py_float_div (py_sum (grades s)) (Z.of_nat (length (grades s))).

(** The [for student in students] loop: print each student's line and
    collect the defined averages. *)
Fixpoint report_students (l : list Student) (averages : list Q) : M (list Q) :=
  match l with
  | [] => mret averages
  | s :: l' =>
      match student_average s with
      | None => print (MAverageNA (name s));; report_students l' averages
      | Some avg => print (MAverage (name s) avg);; report_students l' (averages ++ [avg])
      end
  end.

Definition show_report : M unit :=
  st ← get_students;
  if decide (st = []) then print MNoStudentsToReport
  else
    print MReportHeader;;
    averages ← report_students st [];
    match averages with
    | [] => print MNoGradesYet;; print MRuleEnd
    | a :: rest =>
        let max_avg := py_max a rest in
        let min_avg := py_min a rest in
        let overall_avg := py_float_mean averages in
        print MRule;;
        print (MMaxAverage max_avg);;
        print (MMinAverage min_avg);;
        print (MOverallAverage overall_avg);;
        print MRuleEnd
    end.

(** ** Menu choice 4 *)

(** The key [lambda s: sum(s["grades"]) / len(s["grades"])]; it is only
    applied to students with grades, where it cannot divide by zero. *)
Definition mean_key (s : Student) : Q :=
  rn (inject_Z (py_sum (grades s)) / inject_Z (Z.of_nat (length (grades s))))%Q.

Definition find_top_performer : M unit :=
  st ← get_students;
  if decide (st = []) then print MNoStudentsFound
  else
    let students_with_grades := filter (λ s, grades s ≠ []) st in
    match students_with_grades with
    | [] => print MNoGradesForTop
    | s0 :: rest =>
        let top_student := py_max_by mean_key s0 rest in
        let top_avg := mean_key top_student in
        print (MTopStudent (name top_student) top_avg)
    end.

(** ** The report *)

Definition report_line (s : Student) : msg :=
  match student_average s with
  | None => MAverageNA (name s)
  | Some a => MAverage (name s) a
  end.

(** The lines [show_report] prints on a registry. *)
Definition report_output (st : list Student) : list msg :=
  if decide (st = []) then [MNoStudentsToReport]
  else MReportHeader :: map report_line st ++
    match omap student_average st with
    | [] => [MNoGradesYet; MRuleEnd]
    | a :: rest =>
        [MRule; MMaxAverage (py_max a rest); MMinAverage (py_min a rest);
         MOverallAverage (py_float_mean (a :: rest)); MRuleEnd]
    end.

(** The line [find_top_performer] prints on a registry. *)
Definition top_output (st : list Student) : list msg :=
  if decide (st = []) then [MNoStudentsFound]
  else match filter (λ s, grades s ≠ []) st with
    | [] => [MNoGradesForTop]
    | s0 :: rest =>
        let top := py_max_by mean_key s0 rest in [MTopStudent (name top) (mean_key top)]
    end.

Lemma report_students_run (l : list Student) (acc : list Q) (w : world) :
  report_students l acc w =
  (Ret (acc ++ omap student_average l),
   mkWorld (students w) (stdin w) (stdout w ++ map report_line l)).
Proof.
  revert acc w. induction l as [|s l IH]; intros acc [st inp out]; simpl.
  { by rewrite !app_nil_r. }
  unfold report_line at 1. destruct (student_average s) as [a|]; run_M;
    rewrite IH; simpl; by rewrite <-!app_assoc.
Qed.

Lemma student_average_cases (s : Student) :
  student_average s = if decide (grades s = []) then None else Some (mean_key s).
Proof.
  unfold student_average, py_float_div, py_truediv, mean_key.
  destruct (grades s) as [|g gs]; simpl; [done|].
  destruct (Z.eqb_spec (Z.of_nat (S (length gs))) 0); [lia|done].
Qed.

Lemma show_report_run (st : list Student) (inp : list input_event) (out : list msg) :
  show_report (mkWorld st inp out) = (Ret (), mkWorld st inp (out ++ report_output st)).
Proof.
  unfold show_report, report_output. run_M. case_decide; [done|]. run_M.
  rewrite report_students_run. run_M.
  destruct (omap student_average st); run_M; by rewrite <-!app_assoc.
Qed.

Lemma find_top_performer_run (st : list Student) (inp : list input_event) (out : list msg) :
  find_top_performer (mkWorld st inp out) = (Ret (), mkWorld st inp (out ++ top_output st)).
Proof.
  unfold find_top_performer, top_output. run_M. case_decide; [done|]. by destruct (filter _ st).
Qed.

(** C13: A student without grades has no average ([N/A]), never [0.0]; one with
    grades has [sum / len]. *)
Theorem student_average_spec (s : Student) :
  (student_average s = None ↔ grades s = []) ∧
  (grades s ≠ [] → student_average s = Some (mean_key s)).
Proof.
  rewrite student_average_cases. split; case_decide; try done.
Qed.

Lemma averages_as_keys (st : list Student) :
  omap student_average st = map mean_key (filter (λ s, grades s ≠ []) st).
Proof.
  induction st as [|s st IH]; [done|].
  change (omap student_average (s :: st)) with
    (match student_average s with
     | Some y => y :: omap student_average st
     | None => omap student_average st
     end).
  rewrite filter_cons, student_average_cases, IH.
  by case_decide; case_decide.
Qed.

(** Every average of a well-formed record lies in [[0, 100]]. *)
Lemma mean_key_bounds (s : Student) :
  student_wf s → grades s ≠ [] → (0 <= mean_key s <= 100)%Q.
Proof.
  intros [_ _ Hrange] Hne. unfold mean_key.
  pose proof (py_sum_bounds 0 100 (grades s) Hrange) as [Hlo Hhi].
  assert (0 < Z.of_nat (length (grades s)))%Z by (destruct (grades s); simpl; [done|lia]).
  assert (Hq : (0 <= inject_Z (py_sum (grades s)) / inject_Z (Z.of_nat (length (grades s))) <= 100)%Q).
  { apply Qdiv_bounds.
    - change 0%Q with (inject_Z 0). by rewrite <-Zlt_Qlt.
    - change 0%Q with (inject_Z 0). change 100%Q with (inject_Z 100).
      rewrite <-!inject_Z_mult, <-!Zle_Qle. lia. }
  split; [apply rn_nonneg; lra|].
  rewrite <-(rn_Z 100) by lia. apply rn_mono; change (inject_Z 100) with 100%Q; lra.
Qed.

(** C6: With at least one average, the report prints each student's line, then
    the maximum, the minimum and the float mean of the per-student averages
    (an average of averages, not a pooled mean of all grades). *)
Theorem show_report_summary (st : list Student) (inp : list input_event) (out : list msg)
    (a : Q) (rest : list Q) :
  omap student_average st = a :: rest →
  show_report (mkWorld st inp out) =
  (Ret (), mkWorld st inp
     (out ++ MReportHeader :: map report_line st ++
      [MRule; MMaxAverage (py_max a rest); MMinAverage (py_min a rest);
       MOverallAverage (py_float_mean (a :: rest)); MRuleEnd])).
Proof.
  intros Havg. rewrite show_report_run. unfold report_output.
  case_decide; [by subst st|]. by rewrite Havg.
Qed.

(** C16: With students but no grade at all, every line reads N/A and no
    statistics are computed. *)
Lemma show_report_no_grades (st : list Student) (inp : list input_event) (out : list msg) :
  st ≠ [] → omap student_average st = [] →
  show_report (mkWorld st inp out) =
  (Ret (), mkWorld st inp
     (out ++ MReportHeader :: map report_line st ++ [MNoGradesYet; MRuleEnd])).
Proof.
  intros Hne Havg. rewrite show_report_run. unfold report_output.
  case_decide; [done|]. by rewrite Havg.
Qed.

Lemma averages_bounds (st : list Student) :
  Forall student_wf st → Forall (λ q, 0 <= q <= 100)%Q (omap student_average st).
Proof.
  intros Hall. rewrite averages_as_keys, Forall_forall. intros q Hq.
  apply list_elem_of_In, in_map_iff in Hq as (s & <- & Hs).
  apply list_elem_of_In, list_elem_of_filter in Hs as [Hne Hs].
  rewrite Forall_forall in Hall. by apply mean_key_bounds; [apply Hall|].
Qed.

(** C7: On a well-formed registry of at most [2^40] students the printed
    statistics lie in [[0, 100]] and [min <= max].  The overall average is
    not claimed to lie between them: its float sum is rounded after every
    addition (see [Render.overall_below_min]). *)
Theorem report_summary_bounds (st : list Student) (a : Q) (rest : list Q) :
  Forall student_wf st → omap student_average st = a :: rest →
  (Z.of_nat (length st) <= 2 ^ 40)%Z →
  (0 <= py_min a rest ∧ py_min a rest <= py_max a rest ∧ py_max a rest <= 100 ∧
   0 <= py_float_mean (a :: rest) <= 100)%Q.
Proof.
  intros Hall Havg Hlen.
  pose proof (averages_bounds st Hall) as Hb. rewrite Havg in Hb.
  assert (Hl : length (a :: rest) ≤ length st).
  { rewrite <-Havg, averages_as_keys, length_map. apply length_filter. }
  pose proof (py_float_mean_bounds (a :: rest) ltac:(done) Hb ltac:(lia)).
  rewrite Forall_forall in Hb.
  destruct (py_min_elem_le a rest) as [Hmin_in Hmin].
  destruct (py_max_elem_ge a rest) as [Hmax_in Hmax].
  pose proof (Hmin a ltac:(left)). pose proof (Hmax a ltac:(left)).
  pose proof (Hb _ Hmin_in). pose proof (Hb _ Hmax_in). lra.
Qed.

(** ** The top performer *)

(** C5: The student printed has grades, an average at least every other
    student's, and strictly above every student with grades before it in
    the registry: ties go to the first one registered. *)
Theorem find_top_performer_spec (st : list Student) (inp : list input_event) (out : list msg)
    (s0 : Student) (rest : list Student) :
  filter (λ s, grades s ≠ []) st = s0 :: rest →
  let top := py_max_by mean_key s0 rest in
  find_top_performer (mkWorld st inp out) =
    (Ret (), mkWorld st inp (out ++ [MTopStudent (name top) (mean_key top)])) ∧
  grades top ≠ [] ∧
  (∀ s, s ∈ st → grades s ≠ [] → (mean_key s <= mean_key top)%Q) ∧
  ∃ pre post, st = pre ++ top :: post ∧
    ∀ s, s ∈ pre → grades s ≠ [] → (mean_key s < mean_key top)%Q.
Proof.
  intros Hf top. destruct (py_max_by_spec mean_key s0 rest) as (pre' & post' & Hsplit & Hlt & Hle).
  fold top in Hsplit, Hlt, Hle. rewrite <-Hf in Hsplit.
  destruct (filter_split _ _ _ _ _ Hsplit) as (pre & post & Hst & Hpre & Htop).
  split; [|split; [done|split]].
  - rewrite find_top_performer_run. unfold top_output.
    case_decide as Hnil; [rewrite Hst in Hnil; by destruct pre|]. by rewrite Hf.
  - intros s Hs Hg. apply Hle. rewrite <-Hf. by apply list_elem_of_filter.
  - exists pre, post. split; [done|]. intros s Hs Hg. apply Hlt.
    rewrite <-Hpre. by apply list_elem_of_filter.
Qed.

(** The average printed for the top performer is the report's maximum. *)
Theorem top_avg_is_max_avg (st : list Student) (s0 : Student) (rest : list Student)
    (a : Q) (avs : list Q) :
  filter (λ s, grades s ≠ []) st = s0 :: rest → omap student_average st = a :: avs →
  mean_key (py_max_by mean_key s0 rest) = py_max a avs.
Proof.
  intros Hf Havg. rewrite averages_as_keys, Hf in Havg. simpl in Havg.
  injection Havg as <- <-. apply py_max_by_map.
Qed.

(** ** The reporting handlers only print *)

Lemma report_students_io (l : list Student) (acc : list Q) :
  respects io_rel (report_students l acc) ∧ fuel_safe (report_students l acc) ∧
  interrupt_free (report_students l acc).
Proof.
  revert acc. induction l as [|s l IH]; intros acc; simpl.
  - split; [apply respects_ret, _|split; [apply fuel_safe_ret|apply interrupt_free_ret]].
  - destruct (student_average s); (split; [|split]); by_composition; by_composition_if;
      apply IH.
Qed.

Lemma report_students_respects (l : list Student) (acc : list Q) :
  respects io_rel (report_students l acc).
Proof. apply report_students_io. Qed.

Lemma report_students_fuel_safe (l : list Student) (acc : list Q) :
  fuel_safe (report_students l acc).
Proof. apply report_students_io. Qed.

Lemma report_students_interrupt_free (l : list Student) (acc : list Q) :
  interrupt_free (report_students l acc).
Proof. apply report_students_io. Qed.

#[export] Hint Resolve report_students_respects report_students_fuel_safe
  report_students_interrupt_free : pyrt.

Lemma show_report_io : respects io_rel show_report.
Proof. unfold show_report. by_composition. Qed.

Lemma show_report_fuel_safe : fuel_safe show_report.
Proof. unfold show_report. by_composition. Qed.

Lemma show_report_interrupt_free : interrupt_free show_report.
Proof. unfold show_report. by_composition_if. Qed.

Lemma find_top_performer_io : respects io_rel find_top_performer.
Proof. unfold find_top_performer. by_composition. Qed.

Lemma find_top_performer_fuel_safe : fuel_safe find_top_performer.
Proof. unfold find_top_performer. by_composition. Qed.

Lemma find_top_performer_interrupt_free : interrupt_free find_top_performer.
Proof. unfold find_top_performer. by_composition_if. Qed.

#[export] Hint Resolve show_report_io show_report_fuel_safe show_report_interrupt_free
  find_top_performer_io find_top_performer_fuel_safe find_top_performer_interrupt_free : pyrt.

(** ** Witnesses

    The specification's skewed registry: [A = [100]] and [B = [0; 0; 0; 100]]
    (a pooled mean of 20, an average of averages of 62.5), and [C] without
    grades. *)

Definition skewed : list Student :=
  [mkStudent "A" [100%Z]; mkStudent "B" [0; 0; 0; 100]%Z; mkStudent "C" []].

Lemma student_average_spec_witness :
  grades (mkStudent "B" [0; 0; 0; 100]%Z) ≠ [] ∧
  student_average (mkStudent "B" [0; 0; 0; 100]%Z) = Some (mean_key (mkStudent "B" [0; 0; 0; 100]%Z)).
Proof. split; [discharge|]. apply (proj2 (student_average_spec _)). discharge. Defined.

Lemma show_report_summary_witness :
  omap student_average skewed = 100%Q :: [25%Q] ∧
  show_report (mkWorld skewed [] []) =
  (Ret (), mkWorld skewed []
     ([] ++ MReportHeader :: map report_line skewed ++
      [MRule; MMaxAverage (py_max 100%Q [25%Q]); MMinAverage (py_min 100%Q [25%Q]);
       MOverallAverage (py_float_mean (100%Q :: [25%Q])); MRuleEnd])).
Proof. split; [discharge|]. apply (show_report_summary skewed [] [] 100%Q [25%Q]). discharge. Defined.

Lemma report_summary_bounds_witness :
  Forall student_wf skewed ∧ omap student_average skewed = 100%Q :: [25%Q] ∧
  (Z.of_nat (length skewed) <= 2 ^ 40)%Z ∧
  (0 <= py_min 100%Q [25%Q] ∧ py_min 100%Q [25%Q] <= py_max 100%Q [25%Q] ∧
   py_max 100%Q [25%Q] <= 100 ∧ 0 <= py_float_mean (100%Q :: [25%Q]) <= 100)%Q.
Proof.
  assert (Hwf : Forall student_wf skewed) by (apply (registry_wfb_spec _); vm_compute; reflexivity).
  assert (Havg : omap student_average skewed = 100%Q :: [25%Q]) by discharge.
  assert (Hlen : (Z.of_nat (length skewed) <= 2 ^ 40)%Z) by (unfold skewed; simpl; lia).
  split; [exact Hwf|]. split; [exact Havg|]. split; [exact Hlen|].
  exact (report_summary_bounds skewed _ _ Hwf Havg Hlen).
Defined.

Lemma find_top_performer_spec_witness :
  filter (λ s, grades s ≠ []) [mkStudent "A" [80%Z]; mkStudent "C" []; mkStudent "B" [80%Z]] =
    mkStudent "A" [80%Z] :: [mkStudent "B" [80%Z]] ∧
  let top := py_max_by mean_key (mkStudent "A" [80%Z]) [mkStudent "B" [80%Z]] in
  find_top_performer (mkWorld [mkStudent "A" [80%Z]; mkStudent "C" []; mkStudent "B" [80%Z]] [] []) =
    (Ret (), mkWorld [mkStudent "A" [80%Z]; mkStudent "C" []; mkStudent "B" [80%Z]] []
               ([] ++ [MTopStudent (name top) (mean_key top)])) ∧
  grades top ≠ [] ∧
  (∀ s, s ∈ [mkStudent "A" [80%Z]; mkStudent "C" []; mkStudent "B" [80%Z]] →
        grades s ≠ [] → (mean_key s <= mean_key top)%Q) ∧
  ∃ pre post, [mkStudent "A" [80%Z]; mkStudent "C" []; mkStudent "B" [80%Z]] = pre ++ top :: post ∧
    ∀ s, s ∈ pre → grades s ≠ [] → (mean_key s < mean_key top)%Q.
Proof. split; [discharge|]. apply find_top_performer_spec. discharge. Defined.

Lemma top_avg_is_max_avg_witness :
  filter (λ s, grades s ≠ []) skewed = mkStudent "A" [100%Z] :: [mkStudent "B" [0; 0; 0; 100]%Z] ∧
  omap student_average skewed = 100%Q :: [25%Q] ∧
  mean_key (py_max_by mean_key (mkStudent "A" [100%Z]) [mkStudent "B" [0; 0; 0; 100]%Z]) =
  py_max 100%Q [25%Q].
Proof. split; [discharge|]. split; [discharge|]. apply (top_avg_is_max_avg skewed); discharge. Defined.

Lemma show_report_no_grades_witness :
  [mkStudent "Ann" []] ≠ [] ∧ omap student_average [mkStudent "Ann" []] = [] ∧
  show_report (mkWorld [mkStudent "Ann" []] [] []) =
  (Ret (), mkWorld [mkStudent "Ann" []] []
     ([] ++ MReportHeader :: map report_line [mkStudent "Ann" []] ++ [MNoGradesYet; MRuleEnd])).
Proof. split; [discharge|]. split; [discharge|]. apply show_report_no_grades; discharge. Defined.
