(* ===== verification/Render.v ===== *)
(** * What the analyzer writes to standard output

    [Console.msg] records each [print] of
    [src/lecture_3/student_grade_analyzer.py] with the values it
    interpolates; [render] is the text that [print] writes (the f-string,
    then the newline [print] adds) and that [input(prompt)] writes for a
    prompt (no newline).  Numbers are formatted as [PyFormat] says: a count
    with [str(int)], which raises [ValueError] beyond 4300 digits (so
    [render] is partial), an average with [{avg:.1f}] of the binary64
    value the report computed ([Report] rounds every quotient and every
    addition as CPython does).
    [stdout_text] is the whole transcript of a run; [Driver] checks the
    transcript of the specification's scenario. *)

From S2P Require Import Prelude PyStr PyFormat Students Console Report.

Local Open Scope pystr_scope.

Definition nl : pystr := [10%Z].

Definition prompt_text (p : prompt) : pystr :=
  match p with
  | PromptName => "Enter student name: "
  | PromptGrade => "Enter a grade (or 'done' to finish): "
  | PromptChoice => "Enter your choice: "
  end.

(** [print_menu()] *)
Definition menu_text : pystr :=
  nl ++ "--- Student Grade Analyzer ---" ++ nl ++
  "1. Add a new student" ++ nl ++
  "2. Add grades for a student" ++ nl ++
  "3. Generate a full report" ++ nl ++
  "4. Find the top student" ++ nl ++
  "5. Exit program" ++ nl.

Definition rule : pystr := "------------------------".

Definition render (m : msg) : option pystr :=
  match m with
  | MPrompt p => Some (prompt_text p)
  | MNameEmpty => Some ("Student name cannot be empty." ++ nl)
  | MStudentExists n => Some ("Student '" ++ n ++ "' already exists." ++ nl)
  | MStudentAdded n => Some ("Student '" ++ n ++ "' added." ++ nl)
  | MNoStudentsAddFirst => Some ("No students found. Please add a student first." ++ nl)
  | MStudentNotFound n => Some ("Student '" ++ n ++ "' not found." ++ nl)
  | MInvalidNumber => Some ("Invalid input. Please enter a number." ++ nl)
  | MGradeOutOfRange => Some ("Invalid grade. Please enter a value between 0 and 100." ++ nl)
  | MGradesUpdated n added =>
      (λ k, "Grades updated for '" ++ n ++ "'. " ++ "(" ++ k ++ " grade(s) added)" ++ nl)
        <$> py_str_int added
  | MNoStudentsToReport => Some ("No students to report." ++ nl)
  | MReportHeader => Some (nl ++ "--- Student Report ---" ++ nl)
  | MAverageNA n => Some (n ++ "'s average grade is N/A." ++ nl)
  | MAverage n q => Some (n ++ "'s average grade is " ++ format_1f q ++ "." ++ nl)
  | MNoGradesYet => Some ("No grades have been added yet." ++ nl)
  | MRule => Some (rule ++ nl)
  | MRuleEnd => Some (rule ++ nl ++ nl)
  | MMaxAverage q => Some ("Max Average: " ++ format_1f q ++ nl)
  | MMinAverage q => Some ("Min Average: " ++ format_1f q ++ nl)
  | MOverallAverage q => Some ("Overall Average: " ++ format_1f q ++ nl)
  | MNoStudentsFound => Some ("No students found." ++ nl)
  | MNoGradesForTop => Some ("No grades available to determine top performer." ++ nl)
  | MTopStudent n q =>
      Some ("The student with the highest average is " ++ n ++ " " ++
            "with a grade of " ++ format_1f q ++ "." ++ nl)
  | MMenu => Some menu_text
  | MInvalidChoiceNaN => Some ("Invalid choice. Please enter a number from 1 to 5." ++ nl)
  | MInvalidChoiceRange => Some ("Invalid choice. Please select a number from 1 to 5." ++ nl)
  | MExiting => Some ("Exiting program." ++ nl)
  | MExitingInterrupt => Some (nl ++ "Exiting program." ++ nl)
  end.

(** The text of a sequence of prints; [None] when one of them raises. *)
Fixpoint stdout_text (out : list msg) : option pystr :=
  match out with
  | [] => Some ""
  | m :: out' => t ← render m; rest ← stdout_text out'; Some (t ++ rest)
  end.

(** ** The transcripts *)

(** Six students whose one grade of 1 among twenty gives each the average
    [0.05], whose nearest float lies just above [0.05]. *)
Definition twentieths : list Student :=
  map (λ n, mkStudent n (1 :: repeat 0 19)%Z) ["A"; "B"; "C"; "D"; "E"; "F"].

(** Three students with the averages [0.25], [0.35] and [0.45]. *)
Definition halfway : list Student :=
  [mkStudent "A" [1; 0; 0; 0]%Z; mkStudent "B" (7 :: repeat 0 19)%Z;
   mkStudent "C" (9 :: repeat 0 19)%Z].

(** The printed overall average can lie below the printed minimum:
    six students averaging [0.05] each have the float average
    [0.05000000000000000277], printed [0.1] as both maximum and minimum,
    while the float sum of the six averages divided by six falls below
    that float and prints [0.0]. *)
Theorem overall_below_min :
  omap student_average twentieths = repeat (rn (1#20)) 6 ∧
  (py_float_mean (repeat (rn (1#20)) 6) < py_min (rn (1#20)) (repeat (rn (1#20)) 5))%Q ∧
  stdout_text (report_output twentieths) = Some
"
--- Student Report ---
A's average grade is 0.1.
B's average grade is 0.1.
C's average grade is 0.1.
D's average grade is 0.1.
E's average grade is 0.1.
F's average grade is 0.1.
------------------------
Max Average: 0.1
Min Average: 0.1
Overall Average: 0.0
------------------------

".
Proof. vm_compute. repeat split. Qed.

(** Halfway cases are rounded on the binary value: the floats of [0.25],
    [0.35] and [0.45] print as [0.2], [0.3] and [0.5], and their float mean
    [0.35000000000000003] prints as [0.4]. *)
Lemma halfway_report :
  stdout_text (report_output halfway) = Some
"
--- Student Report ---
A's average grade is 0.2.
B's average grade is 0.3.
C's average grade is 0.5.
------------------------
Max Average: 0.5
Min Average: 0.2
Overall Average: 0.4
------------------------

".
Proof. vm_compute. reflexivity. Qed.
