(* ===== verification/Driver.v ===== *)
(** * The driver: [main()] and its menu loop

    [main] of [src/lecture_3/student_grade_analyzer.py] owns the registry
    ([students = []]), and runs [while True:] over menu iterations inside a
    [try ... except KeyboardInterrupt].  One iteration prints the menu,
    reads a choice, and dispatches; [menu_iteration] returns whether the
    loop goes on ([break] on choice 5 is [false]).  The loop runs on fuel;
    one more unit than the number of input lines is always enough, since
    every iteration that goes on has read at least one line.

    The session is also given as a state machine, [session_step], whose
    states are the specification's [Running] and [Exiting] and the crash
    an uncaught exception causes. *)

From S2P Require Import Prelude PyStr Students Console Handlers Report Render.
From stdpp Require Import relations.

Local Open Scope pystr_scope.

(** The body of the loop after the read: parse the choice and dispatch.
    [true] means the loop goes on. *)
Definition menu_dispatch (fuel : nat) (raw : pystr) : M bool :=
  let choice_str := py_strip raw in
  match py_int choice_str with
  | None => print MInvalidChoiceNaN;; mret true
  | Some choice =>
      if Z.eqb choice 1 then add_new_student;; mret true
      else if Z.eqb choice 2 then add_grades_for_student fuel;; mret true
      else if Z.eqb choice 3 then show_report;; mret true
      else if Z.eqb choice 4 then find_top_performer;; mret true
      else if Z.eqb choice 5 then print MExiting;; mret false
      else print MInvalidChoiceRange;; mret true
  end.

Definition menu_iteration (fuel : nat) : M bool :=
  print MMenu;;
  raw ← py_input PromptChoice;
  menu_dispatch fuel raw.

Fixpoint main_loop (fuel : nat) : M unit :=
  match fuel with
  | O => out_of_fuel
  | S fuel =>
      menu_iteration fuel ≫= λ go : bool, if go then main_loop fuel else mret ()
  end.

(** [try: body except KeyboardInterrupt: handler]. *)
Definition try_except_interrupt {A} (body : M A) (handler : M A) : M A := λ w,
  match body w with
  | (Raise KeyboardInterrupt, w') => handler w'
  | r => r
  end.

Definition main (fuel : nat) : M unit :=
  modify_students (λ _, []);;
  try_except_interrupt (main_loop fuel) (print MExitingInterrupt).

(** A run of the program on the lines standard input will deliver. *)
Definition run_program (inp : list input_event) : outcome () * world :=
  main (S (length inp)) (mkWorld [] inp []).

(** The process exit status: [main] returning is status 0; an exception
    escaping [main] prints a traceback and exits with status 1. *)
Definition exit_status (o : outcome ()) : option Z :=
  match o with
  | Ret _ => Some 0%Z
  | Raise _ => Some 1%Z
  | OutOfFuel => None
  end.

(** ** One iteration *)

(** A goal [(m w).1 ≠ OutOfFuel] for a loop-free [m]. *)
Ltac by_fuel_safe :=
  lazymatch goal with
  | |- (?m ?w).1 ≠ OutOfFuel => cut (fuel_safe m); [intros Hsafe; apply Hsafe|by_composition]
  end.

(** The specification's end-to-end scenario, line by line. *)
Definition spec_input : list input_event :=
  [Line "3"; Line "1"; Line "Ann"; Line "3"; Line "2"; Line "Ann"; Line "50";
   Line "notanumber"; Line "150"; Line "done"; Line "3"; Line "6"; Line "5"].

Lemma menu_dispatch_io (fuel : nat) (raw : pystr) : respects io_rel (menu_dispatch fuel raw).
Proof. unfold menu_dispatch. by_composition. Qed.

Lemma menu_dispatch_interrupt_free (fuel : nat) (raw : pystr) :
  interrupt_free (menu_dispatch fuel raw).
Proof. unfold menu_dispatch. by_composition_if. Qed.

#[export] Hint Resolve menu_dispatch_io menu_dispatch_interrupt_free : pyrt.

Lemma menu_iteration_io (fuel : nat) : respects io_rel (menu_iteration fuel).
Proof. unfold menu_iteration. by_composition. Qed.

Lemma menu_iteration_interrupt_free (fuel : nat) : interrupt_free (menu_iteration fuel).
Proof. unfold menu_iteration. by_composition_if. Qed.

#[export] Hint Resolve menu_iteration_io menu_iteration_interrupt_free : pyrt.

Lemma menu_iteration_run (fuel : nat) (w : world) :
  menu_iteration fuel w =
  (py_input PromptChoice ≫= menu_dispatch fuel) (mkWorld (students w) (stdin w) (stdout w ++ [MMenu])).
Proof. by destruct w. Qed.

(** An iteration that lets the loop go on has read its choice line. *)
Lemma menu_iteration_consumes (fuel : nat) (w w' : world) (b : bool) :
  menu_iteration fuel w = (Ret b, w') → length (stdin w') < length (stdin w).
Proof.
  rewrite menu_iteration_run. intros E. apply input_bind_consumes in E; [done|].
  intros s. apply io_rel_stdin, menu_dispatch_io.
Qed.

Lemma menu_dispatch_total (fuel : nat) (raw : pystr) (w : world) :
  length (stdin w) < fuel → (menu_dispatch fuel raw w).1 ≠ OutOfFuel.
Proof.
  intros Hlen. unfold menu_dispatch.
  destruct (py_int (py_strip raw)) as [c|]; [|by_fuel_safe].
  destruct (Z.eqb c 1); [by_fuel_safe|].
  destruct (Z.eqb c 2).
  { apply bind_not_out_of_fuel; [by apply add_grades_for_student_total|by_composition]. }
  repeat (destruct (Z.eqb c _); [by_fuel_safe|]). by_fuel_safe.
Qed.

Lemma menu_iteration_total (fuel : nat) (w : world) :
  length (stdin w) < S fuel → (menu_iteration fuel w).1 ≠ OutOfFuel.
Proof.
  intros Hlen. rewrite menu_iteration_run.
  destruct w as [st [|[s|] inp] out]; run_M; try done.
  apply menu_dispatch_total. simpl in *. lia.
Qed.

(** The loop stops (returns [false]) only on a line that parses to 5. *)
Lemma menu_iteration_exit (fuel : nat) (w w' : world) :
  menu_iteration fuel w = (Ret false, w') →
  ∃ raw rest, stdin w = Line raw :: rest ∧ py_int (py_strip raw) = Some 5%Z.
Proof.
  rewrite menu_iteration_run. destruct w as [st [|[s|] inp] out]; run_M; try discriminate.
  intros E. exists s, inp. split; [done|]. unfold menu_dispatch in E.
  destruct (py_int (py_strip s)) as [c|]; [|by apply bind_ret_const in E].
  destruct (Z.eqb_spec c 1); [by apply bind_ret_const in E|].
  destruct (Z.eqb_spec c 2); [by apply bind_ret_const in E|].
  destruct (Z.eqb_spec c 3); [by apply bind_ret_const in E|].
  destruct (Z.eqb_spec c 4); [by apply bind_ret_const in E|].
  destruct (Z.eqb_spec c 5); [by subst|by apply bind_ret_const in E].
Qed.

(** ** The loop *)

Theorem main_loop_total (fuel : nat) (w : world) :
  length (stdin w) < fuel → (main_loop fuel w).1 ≠ OutOfFuel.
Proof.
  revert w. induction fuel as [|fuel IH]; intros w Hlen; [simpl in Hlen; lia|].
  cbn [main_loop]. unfold mbind, PyM_bind.
  pose proof (menu_iteration_total fuel w Hlen) as Ht.
  destruct (menu_iteration fuel w) as [[b|e|] w'] eqn:E; [|done|done].
  apply menu_iteration_consumes in E.
  destruct b; [apply IH; lia|done].
Qed.

Lemma main_loop_io (fuel : nat) : respects io_rel (main_loop fuel).
Proof. induction fuel as [|fuel IH]; simpl; by_composition. Qed.

Lemma main_loop_interrupt_free (fuel : nat) : interrupt_free (main_loop fuel).
Proof.
  induction fuel as [|fuel IH]; simpl; [intros w _; done|]. by_composition_if.
Qed.

(** ** The whole program *)

Lemma run_program_unfold (inp : list input_event) :
  run_program inp =
  match main_loop (S (length inp)) (mkWorld [] inp []) with
  | (Raise KeyboardInterrupt, w') => print MExitingInterrupt w'
  | r => r
  end.
Proof. reflexivity. Qed.

(** C8: A run ends with [main] returning (exit status 0) or with an [EOFError]
    escaping it (status 1): a Ctrl-C never escapes, and the loop never
    needs more fuel than the input has lines. *)
Theorem run_program_exit (inp : list input_event) :
  (run_program inp).1 = Ret () ∨ (run_program inp).1 = Raise EOFError.
Proof.
  rewrite run_program_unfold.
  pose proof (main_loop_total (S (length inp)) (mkWorld [] inp [])) as Ht.
  specialize (Ht ltac:(simpl; lia)).
  destruct (main_loop _ _) as [[[]|[]|] w'] eqn:E; simpl in *; auto. done.
Qed.

(** Every world a run ends in satisfies the registry invariant, whatever
    the run read and however it ended. *)
Theorem run_program_wf (inp : list input_event) :
  registry_wf (students (run_program inp).2).
Proof.
  rewrite run_program_unfold.
  destruct (main_loop_io (S (length inp)) (mkWorld [] inp [])) as [Hwf _].
  assert (H0 : registry_wf []) by (split; constructor).
  specialize (Hwf H0).
  destruct (main_loop _ _) as [[[]|[]|] w'] eqn:E; simpl in *; auto.
Qed.

(** An input line that, read at the menu prompt, would not end the run. *)
Definition no_exit_line (e : input_event) : Prop :=
  match e with
  | Line s => py_int (py_strip s) ≠ Some 5%Z
  | CtrlC => False
  end.

Lemma main_loop_no_return (fuel : nat) (w : world) :
  Forall no_exit_line (stdin w) → (main_loop fuel w).1 ≠ Ret ().
Proof.
  revert w. induction fuel as [|fuel IH]; intros w Hgood; [done|].
  cbn [main_loop]. unfold mbind, PyM_bind.
  pose proof (menu_iteration_io fuel w) as [_ [pre Hsuf]].
  destruct (menu_iteration fuel w) as [[[]|e|] w'] eqn:E; simpl in *; try done.
  - apply IH. rewrite Hsuf in Hgood. by apply Forall_app in Hgood as [_ ?].
  - apply menu_iteration_exit in E as (raw & rest & Hin & H5).
    rewrite Hin in Hgood. by apply Forall_cons in Hgood as [Hl _].
Qed.

(** C9: The specification names menu choice 5 and Ctrl-C as the only ways the
    program ends, both with status 0.  An input with neither (every line
    read at the menu prompt is some other choice, and no Ctrl-C) ends the
    program with [input()] raising [EOFError] out of [main]: a traceback
    and exit status 1. *)
Theorem run_program_eof (inp : list input_event) :
  Forall no_exit_line inp → run_program inp = (Raise EOFError, (run_program inp).2) ∧
  exit_status (run_program inp).1 = Some 1%Z.
Proof.
  intros Hgood.
  assert (Hctrl : CtrlC ∉ inp).
  { intros Hin. rewrite Forall_forall in Hgood. by apply Hgood in Hin. }
  pose proof (main_loop_total (S (length inp)) (mkWorld [] inp [])) as Ht.
  pose proof (main_loop_no_return (S (length inp)) (mkWorld [] inp [])) as Hr.
  pose proof (main_loop_interrupt_free (S (length inp)) (mkWorld [] inp [])) as Hi.
  rewrite run_program_unfold.
  destruct (main_loop _ _) as [[[]|[]|] w'] eqn:E; simpl in *.
  - by destruct Hr.
  - done.
  - by destruct Hi.
  - destruct Ht; [simpl; lia|done].
Qed.

(** ** Menu dispatch *)

(** C17: A choice that is not a number, or a number outside 1..5, prints
    [InvalidChoice], leaves the registry as it was, and the loop goes on. *)
Theorem menu_invalid_choice (fuel : nat) (st : list Student) (raw : pystr)
    (rest : list input_event) (out : list msg) :
  match py_int (py_strip raw) with None => True | Some c => (c < 1 ∨ 5 < c)%Z end →
  menu_iteration fuel (mkWorld st (Line raw :: rest) out) =
  (Ret true, mkWorld st rest
     (out ++ [MMenu; MPrompt PromptChoice;
              if py_int (py_strip raw) is Some _ then MInvalidChoiceRange else MInvalidChoiceNaN])).
Proof.
  intros Hc. rewrite menu_iteration_run. run_M. unfold menu_dispatch.
  destruct (py_int (py_strip raw)) as [c|]; run_M.
  - destruct (Z.eqb_spec c 1); [lia|]. destruct (Z.eqb_spec c 2); [lia|].
    destruct (Z.eqb_spec c 3); [lia|]. destruct (Z.eqb_spec c 4); [lia|].
    destruct (Z.eqb_spec c 5); [lia|]. run_M. rewrite <-?app_assoc. reflexivity.
  - rewrite <-?app_assoc. reflexivity.
Qed.

(** C18: Choice 5 prints the farewell and stops the loop. *)
Theorem menu_choice_exit (fuel : nat) (st : list Student) (raw : pystr)
    (rest : list input_event) (out : list msg) :
  py_int (py_strip raw) = Some 5%Z →
  menu_iteration fuel (mkWorld st (Line raw :: rest) out) =
  (Ret false, mkWorld st rest (out ++ [MMenu; MPrompt PromptChoice; MExiting])).
Proof.
  intros H5. rewrite menu_iteration_run. run_M. unfold menu_dispatch. rewrite H5. run_M.
  by rewrite <-!app_assoc.
Qed.

(** The end-to-end scenario of the specification: an empty report, adding
    Ann, a report with N/A, the grades 50, "notanumber", 150 and done (one
    grade kept, two warnings), a report with 50.0 overall, an out-of-range
    choice, and exit. *)
Example spec_scenario :
  run_program [Line "3"; Line "1"; Line "Ann"; Line "3"; Line "2"; Line "Ann"; Line "50";
               Line "notanumber"; Line "150"; Line "done"; Line "3"; Line "6"; Line "5"] =
  (Ret (), mkWorld [mkStudent "Ann" [50%Z]] []
    [MMenu; MPrompt PromptChoice; MNoStudentsToReport;
     MMenu; MPrompt PromptChoice; MPrompt PromptName; MStudentAdded "Ann";
     MMenu; MPrompt PromptChoice; MReportHeader; MAverageNA "Ann"; MNoGradesYet; MRuleEnd;
     MMenu; MPrompt PromptChoice; MPrompt PromptName;
     MPrompt PromptGrade; MPrompt PromptGrade; MInvalidNumber;
     MPrompt PromptGrade; MGradeOutOfRange; MPrompt PromptGrade; MGradesUpdated "Ann" 1;
     MMenu; MPrompt PromptChoice; MReportHeader; MAverage "Ann" 50; MRule;
     MMaxAverage 50; MMinAverage 50; MOverallAverage 50; MRuleEnd;
     MMenu; MPrompt PromptChoice; MInvalidChoiceRange;
     MMenu; MPrompt PromptChoice; MExiting]).
Proof. vm_compute. reflexivity. Qed.

(** ** Enough fuel is not observable *)

Lemma menu_iteration_fuel_irrelevant (f1 f2 : nat) (w : world) :
  length (stdin w) < S f1 → length (stdin w) < S f2 →
  menu_iteration f1 w = menu_iteration f2 w.
Proof.
  intros H1 H2. rewrite !menu_iteration_run.
  destruct w as [st [|[raw|] inp] out]; run_M; try reflexivity. simpl in *.
  unfold menu_dispatch. destruct (py_int (py_strip raw)) as [c|]; [|reflexivity].
  destruct (Z.eqb c 1); [reflexivity|]. destruct (Z.eqb c 2); [|reflexivity].
  run_M. rewrite (add_grades_for_student_fuel_irrelevant f1 f2) by (simpl; lia).
  reflexivity.
Qed.

(** The loop returns the same result for every fuel above the number of
    input lines, and never runs out of it: the fuel is only a device to
    write the [while True] loop as a function, and no run depends on it. *)
Theorem main_loop_fuel_irrelevant (f1 f2 : nat) (w : world) :
  length (stdin w) < f1 → length (stdin w) < f2 →
  (main_loop f1 w).1 ≠ OutOfFuel ∧ main_loop f1 w = main_loop f2 w.
Proof.
  intros H1 H2. split; [by apply main_loop_total|].
  revert f2 w H1 H2. induction f1 as [|f1 IH]; intros [|f2] w H1 H2; try lia.
  cbn [main_loop]. unfold mbind, PyM_bind.
  rewrite (menu_iteration_fuel_irrelevant f1 f2 w) by done.
  destruct (menu_iteration f2 w) as [[[]|e|] w'] eqn:E; try reflexivity.
  apply menu_iteration_consumes in E. apply IH; lia.
Qed.

(** ** The session as a state machine

    The specification's driver has the states [Running] and [Exiting]; the
    code has a third end, an exception escaping [main].  One step is one
    menu iteration (run with fuel for the lines left, which
    [menu_iteration_fuel_irrelevant] shows is as good as any larger fuel). *)

Inductive session : Type :=
  | Running (w : world)
  | Exiting (w : world)
  | Crashed (e : py_exc) (w : world).

Definition session_world (s : session) : world :=
  match s with Running w | Exiting w | Crashed _ w => w end.

Inductive session_step : session → session → Prop :=
  | SContinue w w' :
      menu_iteration (length (stdin w)) w = (Ret true, w') →
      session_step (Running w) (Running w')
  | SExit w w' :
      menu_iteration (length (stdin w)) w = (Ret false, w') →
      session_step (Running w) (Exiting w')
  | SInterrupt w w' :
      menu_iteration (length (stdin w)) w = (Raise KeyboardInterrupt, w') →
      session_step (Running w) (Exiting (print MExitingInterrupt w').2)
  | SCrash w w' e :
      menu_iteration (length (stdin w)) w = (Raise e, w') → e ≠ KeyboardInterrupt →
      session_step (Running w) (Crashed e w').

Definition session_start (inp : list input_event) : session := Running (mkWorld [] inp []).

(** Where a run of the loop from [Running w] ends, as a state. *)
Definition loop_end (r : outcome () * world) : session :=
  match r with
  | (Ret _, w) => Exiting w
  | (Raise KeyboardInterrupt, w) => Exiting (print MExitingInterrupt w).2
  | (Raise e, w) => Crashed e w
  | (OutOfFuel, w) => Running w
  end.

(** Where a run of the program ends, as a state. *)
Definition program_end (r : outcome () * world) : session :=
  match r with
  | (Raise e, w) => Crashed e w
  | (_, w) => Exiting w
  end.

Lemma session_step_io (s s' : session) :
  session_step s s' → io_rel (session_world s) (session_world s').
Proof.
  destruct 1 as [w w' E|w w' E|w w' E|w w' e E _]; simpl;
    pose proof (menu_iteration_io (length (stdin w)) w) as Hio; rewrite E in Hio; simpl in Hio;
    done.
Qed.

(** C4: The registry invariant holds in every state reachable from the start,
    by induction on the steps. *)
Theorem session_reachable_wf (inp : list input_event) (s : session) :
  rtc session_step (session_start inp) s → registry_wf (students (session_world s)).
Proof.
  assert (H0 : registry_wf (students (session_world (session_start inp)))) by (split; constructor).
  revert H0. generalize (session_start inp) as s0. intros s0 H0 Hsteps.
  induction Hsteps as [s0|s0 s1 s2 Hstep _ IH]; [done|].
  apply IH. by apply (session_step_io _ _ Hstep).
Qed.

(** The loop, run with enough fuel, follows the steps of the machine to
    the state its result names. *)
Lemma main_loop_steps (fuel : nat) (w : world) :
  length (stdin w) < fuel → rtc session_step (Running w) (loop_end (main_loop fuel w)).
Proof.
  revert w. induction fuel as [|fuel IH]; intros w Hlen; [lia|].
  cbn [main_loop]. unfold mbind at 1, PyM_bind at 1.
  rewrite (menu_iteration_fuel_irrelevant fuel (length (stdin w))) by lia.
  destruct (menu_iteration (length (stdin w)) w) as [[[]|[]|] w'] eqn:E.
  - eapply rtc_l; [by apply SContinue|].
    apply IH. apply menu_iteration_consumes in E. lia.
  - apply rtc_once. by apply SExit.
  - apply rtc_once. by apply SCrash.
  - apply rtc_once. by apply SInterrupt.
  - by destruct (menu_iteration_total (length (stdin w)) w); [lia|rewrite E].
Qed.

(** C10: [run_program] refines the state machine: its result is a terminal
    state reachable from the start. *)
Theorem run_program_refines_session (inp : list input_event) :
  rtc session_step (session_start inp) (program_end (run_program inp)).
Proof.
  pose proof (main_loop_steps (S (length inp)) (mkWorld [] inp []) ltac:(simpl; lia)) as H.
  rewrite run_program_unfold.
  destruct (main_loop _ _) as [[[]|[]|] w'] eqn:E; try exact H.
  destruct (main_loop_total (S (length inp)) (mkWorld [] inp [])); [simpl; lia|by rewrite E].
Qed.

(** ** Termination of the session *)

(** Input lines left, plus one while the loop runs. *)
Definition session_measure (s : session) : nat :=
  match s with Running w => S (length (stdin w)) | _ => 0 end.

Lemma session_step_measure (s s' : session) :
  session_step s s' → session_measure s' < session_measure s.
Proof.
  destruct 1 as [w w' E|w w' E|w w' E|w w' e E _]; simpl; try lia.
  apply menu_iteration_consumes in E. lia.
Qed.

Lemma session_running_steps (w : world) : ∃ s', session_step (Running w) s'.
Proof.
  pose proof (menu_iteration_total (length (stdin w)) w ltac:(lia)) as Htot.
  destruct (menu_iteration _ w) as [[[]|e|] w'] eqn:E; simpl in Htot; [..|done].
  - eexists. by apply SContinue.
  - eexists. by apply SExit.
  - destruct (decide (e = KeyboardInterrupt)) as [->|He].
    + eexists. by apply SInterrupt.
    + eexists. by apply SCrash.
Qed.

Lemma session_final_nf (s : session) : (∀ w, s ≠ Running w) → nf session_step s.
Proof. intros Hs [s' Hstep]. destruct Hstep as [w|w|w|w]; by eapply Hs. Qed.

(** C11: The session always ends: no state starts an infinite run of steps
    (every menu iteration reads a line), and from every state a sequence of
    steps reaches a state that cannot step and is not running, so the
    program exits or crashes. *)
Theorem session_terminates (s : session) :
  sn session_step s ∧
  ∃ s', rtc session_step s s' ∧ nf session_step s' ∧ ∀ w, s' ≠ Running w.
Proof.
  induction s as [s IH] using (well_founded_induction (well_founded_ltof _ session_measure)).
  split.
  - constructor. intros s' Hstep. exact (proj1 (IH s' (session_step_measure _ _ Hstep))).
  - destruct s as [w|w|e w];
      [|exists (Exiting w); split; [done|split; [by apply session_final_nf|done]]
       |exists (Crashed e w); split; [done|split; [by apply session_final_nf|done]]].
    destruct (session_running_steps w) as [s' Hstep].
    destruct (IH s' (session_step_measure _ _ Hstep)) as [_ (s'' & Hrtc & Hnf & Hdone)].
    exists s''. split; [by eapply rtc_l|done].
Qed.

(** ** The transcript of the specification's scenario *)

(** The specification's end-to-end scenario (an empty report, add Ann,
    a report with Ann's average N/A, the grades 50, notanumber, 150 and done,
    a report, the choice 6, then 5) prints exactly the text CPython prints,
    ends with exit status 0, and leaves Ann with the one grade 50. *)
Theorem spec_scenario_transcript :
  exit_status (run_program spec_input).1 = Some 0%Z ∧
  students (run_program spec_input).2 = [mkStudent "Ann" [50%Z]] ∧
  stdout_text (stdout (run_program spec_input).2) = Some
"
--- Student Grade Analyzer ---
1. Add a new student
2. Add grades for a student
3. Generate a full report
4. Find the top student
5. Exit program
Enter your choice: No students to report.

--- Student Grade Analyzer ---
1. Add a new student
2. Add grades for a student
3. Generate a full report
4. Find the top student
5. Exit program
Enter your choice: Enter student name: Student 'Ann' added.

--- Student Grade Analyzer ---
1. Add a new student
2. Add grades for a student
3. Generate a full report
4. Find the top student
5. Exit program
Enter your choice: 
--- Student Report ---
Ann's average grade is N/A.
No grades have been added yet.
------------------------


--- Student Grade Analyzer ---
1. Add a new student
2. Add grades for a student
3. Generate a full report
4. Find the top student
5. Exit program
Enter your choice: Enter student name: Enter a grade (or 'done' to finish): Enter a grade (or 'done' to finish): Invalid input. Please enter a number.
Enter a grade (or 'done' to finish): Invalid grade. Please enter a value between 0 and 100.
Enter a grade (or 'done' to finish): Grades updated for 'Ann'. (1 grade(s) added)

--- Student Grade Analyzer ---
1. Add a new student
2. Add grades for a student
3. Generate a full report
4. Find the top student
5. Exit program
Enter your choice: 
--- Student Report ---
Ann's average grade is 50.0.
------------------------
Max Average: 50.0
Min Average: 50.0
Overall Average: 50.0
------------------------


--- Student Grade Analyzer ---
1. Add a new student
2. Add grades for a student
3. Generate a full report
4. Find the top student
5. Exit program
Enter your choice: Invalid choice. Please select a number from 1 to 5.

--- Student Grade Analyzer ---
1. Add a new student
2. Add grades for a student
3. Generate a full report
4. Find the top student
5. Exit program
Enter your choice: Exiting program.
".
Proof. vm_compute. repeat split. Qed.

(** ** Witnesses *)

Lemma session_reachable_wf_witness :
  rtc session_step (session_start [Line "1"; Line " Ann "; Line "5"])
    (Exiting (mkWorld [mkStudent "Ann" []] []
       [MMenu; MPrompt PromptChoice; MPrompt PromptName; MStudentAdded "Ann";
        MMenu; MPrompt PromptChoice; MExiting])) ∧
  registry_wf (students (session_world (Exiting (mkWorld [mkStudent "Ann" []] []
       [MMenu; MPrompt PromptChoice; MPrompt PromptName; MStudentAdded "Ann";
        MMenu; MPrompt PromptChoice; MExiting])))).
Proof.
  assert (Hsteps : rtc session_step (session_start [Line "1"; Line " Ann "; Line "5"])
    (Exiting (mkWorld [mkStudent "Ann" []] []
       [MMenu; MPrompt PromptChoice; MPrompt PromptName; MStudentAdded "Ann";
        MMenu; MPrompt PromptChoice; MExiting]))).
  { eapply rtc_l; [apply SContinue; vm_compute; reflexivity|].
    apply rtc_once, SExit. vm_compute. reflexivity. }
  split; [exact Hsteps|]. exact (session_reachable_wf _ _ Hsteps).
Defined.

Lemma run_program_eof_witness :
  Forall no_exit_line [Line "1"; Line "Ann"; Line "4"] ∧
  run_program [Line "1"; Line "Ann"; Line "4"] =
    (Raise EOFError, (run_program [Line "1"; Line "Ann"; Line "4"]).2) ∧
  exit_status (run_program [Line "1"; Line "Ann"; Line "4"]).1 = Some 1%Z.
Proof.
  assert (Hgood : Forall no_exit_line [Line "1"; Line "Ann"; Line "4"]).
  { repeat constructor; vm_compute; intros H; discriminate H. }
  split; [exact Hgood|]. exact (run_program_eof _ Hgood).
Defined.

Lemma menu_invalid_choice_witness :
  match py_int (py_strip " 6 ") with None => True | Some c => (c < 1 ∨ 5 < c)%Z end ∧
  menu_iteration 0 (mkWorld [] [Line " 6 "] []) =
  (Ret true, mkWorld [] []
     ([] ++ [MMenu; MPrompt PromptChoice;
             if py_int (py_strip " 6 ") is Some _ then MInvalidChoiceRange else MInvalidChoiceNaN])).
Proof.
  assert (Hc : match py_int (py_strip " 6 ") with None => True | Some c => (c < 1 ∨ 5 < c)%Z end).
  { vm_compute. right. reflexivity. }
  split; [exact Hc|]. exact (menu_invalid_choice 0 [] " 6 " [] [] Hc).
Defined.

Lemma menu_choice_exit_witness :
  py_int (py_strip " +5 ") = Some 5%Z ∧
  menu_iteration 0 (mkWorld [] [Line " +5 "] []) =
  (Ret false, mkWorld [] [] ([] ++ [MMenu; MPrompt PromptChoice; MExiting])).
Proof. split; [discharge|]. apply menu_choice_exit. discharge. Defined.
