(* ===== verification/Sql.v ===== *)
(** * The [books] table and the SQL the book service's ORM emits

    [src/lecture_5/book_api/main.py] reaches its data through SQLAlchemy:
    [database.py] (the engine and [get_db]) and [models.py] (the [Book]
    model) are not among the sources, so this file models them from the
    specification's description of the entity (an integer identifier, a
    title, an author, an optional year) and from SQLite's documented
    semantics:
    - a row is a [Book]; the table is the list of its rows in rowid order,
      the order in which a [SELECT] without [ORDER BY] returns them;
    - [INSERT] picks the rowid through [RowidAlloc], an interface whose
      only promise is a fresh identifier above every one in use; SQLite's
      rule (one more than the largest rowid, 1 in an empty table) is its
      instance [sqlite_rowid];
    - [WHERE id = ?], [DELETE], [UPDATE], [OFFSET ? LIMIT ?];
    - [ILIKE]: SQLAlchemy renders [a.ilike(b)] as [lower(a) LIKE lower(b)];
      SQLite's [lower] folds ASCII letters only, and [LIKE] (no [ESCAPE]
      clause) reads [%] as any run of characters and [_] as one character.

    - a Python [int] bound as a parameter must fit SQLite's 64-bit
      [INTEGER] ([int64], [bindable]).

    Text is a list of code points, as Python's [str] and SQLite's
    character-wise [LIKE] see it. *)

From S2P Require Import Prelude.
From stdpp Require Import gmap.
From Stdlib Require Import Sorted.

Local Open Scope Z_scope.

Definition text := list Z.

(** ASCII text, for writing literals. *)
Definition txt (s : string) : text :=
  (λ a, Z.of_nat (Ascii.nat_of_ascii a)) <$> String.list_ascii_of_string s.

Record Book : Type := mkBook {
  id : Z;
  title : text;
  author : text;
  year : option Z;
}.

#[export] Instance Book_eq_dec : EqDecision Book.
Proof. solve_decision. Defined.

(** ** Rowids *)

Class RowidAlloc : Type := {
  next_rowid : list Book → Z;
  next_rowid_fresh : ∀ rows b, b ∈ rows → id b < next_rowid rows;
}.

Definition max_rowid (rows : list Book) : option Z :=
  match rows with
  | [] => None
  | b :: rest => Some (foldr Z.max (id b) (id <$> rest))
  end.

(** SQLite: "one more than the largest ROWID currently in use; if the table
    is initially empty, then a ROWID of 1 is used". *)
Definition sqlite_next_rowid (rows : list Book) : Z :=
  match max_rowid rows with
  | None => 1
  | Some m => m + 1
  end.

(** ** The statements *)

Section Statements.
Context `{RowidAlloc}.

(** [db.add(Book(title=..., author=..., year=...)); db.commit(); db.refresh(...)] *)
Definition table_insert (rows : list Book) (t a : text) (y : option Z) : Book * list Book :=
  let b := mkBook (next_rowid rows) t a y in (b, rows ++ [b]).

End Statements.

(** [db.query(Book).filter(Book.id == book_id).first()] *)
Definition select_by_id (rows : list Book) (i : Z) : option Book :=
  head (filter (λ b, id b = i) rows).

(** [db.delete(db_book); db.commit()]: [DELETE FROM books WHERE id = ?] *)
Definition table_delete (rows : list Book) (i : Z) : list Book :=
  filter (λ b, id b ≠ i) rows.

(** The flush of a modified object: [UPDATE books SET ... WHERE id = ?] *)
Definition table_update (rows : list Book) (b : Book) : list Book :=
  (λ r, if decide (id r = id b) then b else r) <$> rows.

(** [.offset(skip).limit(limit)] on validated, non-negative arguments. *)
Definition offset_limit {A} (skip limit : Z) (l : list A) : list A :=
  take (Z.to_nat limit) (drop (Z.to_nat skip) l).

(** ** SQLite's [INTEGER] and the binding of Python ints

    An [INTEGER] value is a signed 64-bit integer.  Python's [sqlite3]
    binds an [int] parameter only in that range and raises
    [OverflowError] ("Python int too large to convert to SQLite INTEGER")
    otherwise, before the statement runs. *)
Definition int64_min : Z := - 2 ^ 63.
Definition int64_max : Z := 2 ^ 63 - 1.
Definition int64 (z : Z) : Prop := int64_min ≤ z ≤ int64_max.

#[export] Instance int64_dec (z : Z) : Decision (int64 z).
Proof. unfold int64. apply _. Defined.

(** Binding an [Optional[int]] parameter: [None] binds as [NULL]. *)
Definition bindable (oz : option Z) : bool :=
  match oz with Some z => bool_decide (int64 z) | None => true end.

(** ** [ILIKE] *)

Definition sql_lower_char (c : Z) : Z :=
  if (65 <=? c) && (c <=? 90) then c + 32 else c.

(** SQLite's [lower()] without ICU. *)
Definition sql_lower (s : text) : text := sql_lower_char <$> s.

Definition pct : Z := 37.   (* % *)
Definition underscore : Z := 95.   (* _ *)

(** SQLite's [patternCompare] for [LIKE] (case-insensitive on ASCII). *)
Fixpoint like (p s : text) : bool :=
  match p with
  | [] => bool_decide (s = [])
  | c :: p' =>
      if Z.eqb c pct then
        (fix any (s : text) : bool :=
           like p' s || match s with [] => false | _ :: s' => any s' end) s
      else
        match s with
        | [] => false
        | d :: s' =>
            (Z.eqb c underscore || Z.eqb (sql_lower_char c) (sql_lower_char d)) && like p' s'
        end
  end.

Definition ilike (col pattern : text) : bool := like (sql_lower pattern) (sql_lower col).

(** [f"%{q}%"] *)
Definition contains_pattern (q : text) : text := [pct] ++ q ++ [pct].

(** ** The table invariant: rowids strictly increase along the scan order *)

Definition table_wf (rows : list Book) : Prop :=
  StronglySorted (λ a b, id a < id b) rows.

(** The table as the map from identifier to row. *)
Definition table_abs (rows : list Book) : gmap Z Book :=
  list_to_map ((λ b, (id b, b)) <$> rows).

(** ** SQLite's rowid rule meets the interface *)

Lemma foldr_max_ge (m : Z) (l : list Z) : m ≤ foldr Z.max m l ∧ Forall (λ x, x ≤ foldr Z.max m l) l.
Proof.
  induction l as [|x l [IH1 IH2]]; simpl; [split; [lia|constructor]|].
  split; [lia|]. constructor; [lia|]. eapply Forall_impl; [exact IH2|]. simpl; lia.
Qed.

Lemma sqlite_next_rowid_fresh (rows : list Book) (b : Book) :
  b ∈ rows → id b < sqlite_next_rowid rows.
Proof.
  unfold sqlite_next_rowid. destruct rows as [|b0 rest]; [by intros ?%not_elem_of_nil|].
  simpl. destruct (foldr_max_ge (id b0) (id <$> rest)) as [H0 Hall].
  rewrite elem_of_cons. intros [->|Hin]; [lia|].
  rewrite Forall_forall in Hall. specialize (Hall (id b) ltac:(by apply list_elem_of_fmap_2)). lia.
Qed.

Lemma foldr_max_elem (m : Z) (l : list Z) : foldr Z.max m l ∈ m :: l.
Proof.
  induction l as [|x l IH]; simpl; [by left|].
  destruct (Z.max_spec x (foldr Z.max m l)) as [[_ ->]|[_ ->]]; set_solver.
Qed.

(** [max_rowid] is the largest rowid in use, [None] on the empty table. *)
Lemma max_rowid_spec (rows : list Book) :
  match max_rowid rows with
  | None => rows = []
  | Some m => m ∈ id <$> rows ∧ ∀ j, j ∈ id <$> rows → j ≤ m
  end.
Proof.
  destruct rows as [|b rest]; simpl; [done|].
  destruct (foldr_max_ge (id b) (id <$> rest)) as [H0 Hall]. rewrite Forall_forall in Hall.
  split; [apply foldr_max_elem|]. intros j [->|Hj]%elem_of_cons; [lia|by apply Hall].
Qed.

#[export] Instance sqlite_rowid : RowidAlloc :=
  {| next_rowid := sqlite_next_rowid; next_rowid_fresh := sqlite_next_rowid_fresh |}.

(** ** Rowids within a bound *)

(** Every rowid of the table is in [[1, k]]. *)
Definition ids_within (k : Z) (rows : list Book) : Prop := Forall (λ i, 1 ≤ i ≤ k) (id <$> rows).

Lemma ids_within_mono (k k' : Z) (rows : list Book) : k ≤ k' → ids_within k rows → ids_within k' rows.
Proof. intros Hk Hr. eapply Forall_impl; [exact Hr|]. simpl; lia. Qed.

Lemma foldr_max_le (m k : Z) (l : list Z) : m ≤ k → Forall (λ x, x ≤ k) l → foldr Z.max m l ≤ k.
Proof. intros Hm. induction 1; simpl; lia. Qed.

(** SQLite's next rowid is at most one above the bound. *)
Lemma sqlite_next_rowid_le (k : Z) (rows : list Book) :
  0 ≤ k → ids_within k rows → 1 ≤ sqlite_next_rowid rows ≤ k + 1.
Proof.
  unfold ids_within, sqlite_next_rowid. intros Hk Hids. destruct rows as [|b rest]; simpl; [lia|].
  apply Forall_cons in Hids as [Hb Hrest]. pose proof (proj1 (foldr_max_ge (id b) (id <$> rest))).
  assert (foldr Z.max (id b) (id <$> rest) ≤ k); [|lia].
  apply foldr_max_le; [lia|]. eapply Forall_impl; [exact Hrest|]. simpl; lia.
Qed.

Lemma ids_within_delete (k : Z) (rows : list Book) (i : Z) :
  ids_within k rows → ids_within k (table_delete rows i).
Proof.
  unfold ids_within. rewrite !Forall_fmap, !Forall_forall. intros Hall b Hb.
  apply list_elem_of_filter in Hb as [_ Hb]. by apply Hall.
Qed.

(** An update keeps every rowid. *)
Lemma table_update_ids (rows : list Book) (b : Book) : id <$> table_update rows b = id <$> rows.
Proof.
  unfold table_update. rewrite <-list_fmap_compose. apply list_fmap_ext. intros _ r _. simpl.
  by case_decide.
Qed.

(** ** Lookup by identifier *)

Lemma filter_empty_iff {A} (P : A → Prop) `{∀ x, Decision (P x)} (l : list A) :
  filter P l = [] ↔ ∀ x, x ∈ l → ¬ P x.
Proof.
  induction l as [|y l IH]; simpl.
  - split; [intros _ x Hx; by apply not_elem_of_nil in Hx|done].
  - rewrite filter_cons. case_decide.
    + split; [done|]. intros Hn. exfalso. apply (Hn y); [by left|done].
    + rewrite IH. setoid_rewrite elem_of_cons. naive_solver.
Qed.

Lemma filter_all {A} (P : A → Prop) `{∀ x, Decision (P x)} (l : list A) :
  (∀ x, x ∈ l → P x) → filter P l = l.
Proof.
  induction l as [|y l IH]; intros Hl; [done|].
  rewrite filter_cons_True by (apply Hl; by left). f_equal. apply IH. intros x Hx. apply Hl. by right.
Qed.

Lemma select_by_id_Some (rows : list Book) (i : Z) (b : Book) :
  select_by_id rows i = Some b → b ∈ rows ∧ id b = i.
Proof.
  unfold select_by_id. intros Hh.
  assert (Hb : b ∈ filter (λ b, id b = i) rows).
  { destruct (filter _ rows); simplify_eq/=. by left. }
  by apply list_elem_of_filter in Hb as [? ?].
Qed.

Lemma select_by_id_None (rows : list Book) (i : Z) :
  select_by_id rows i = None ↔ ∀ b, b ∈ rows → id b ≠ i.
Proof.
  unfold select_by_id. split.
  - intros Hh. apply (filter_empty_iff (λ b, id b = i)). by destruct (filter _ rows).
  - intros Hno. by rewrite (proj2 (filter_empty_iff _ _)).
Qed.

(** The map view agrees with [SELECT ... WHERE id = ? LIMIT 1] on every
    table: both take the first row with that identifier. *)
Lemma table_abs_lookup (rows : list Book) (i : Z) : table_abs rows !! i = select_by_id rows i.
Proof.
  unfold table_abs, select_by_id. induction rows as [|b rows IH]; [done|].
  rewrite fmap_cons, list_to_map_cons, filter_cons.
  destruct (decide (id b = i)) as [<-|Hne]; simpl.
  - by rewrite lookup_insert_eq.
  - by rewrite lookup_insert_ne.
Qed.

(** The identifiers in use are the keys of the map. *)
Lemma table_abs_is_Some (rows : list Book) (i : Z) :
  is_Some (table_abs rows !! i) ↔ i ∈ id <$> rows.
Proof.
  rewrite table_abs_lookup, list_elem_of_fmap. split.
  - intros [b (Hb & <-)%select_by_id_Some]. by exists b.
  - intros (b & -> & Hb). destruct (select_by_id rows (id b)) eqn:E; [done|].
    exfalso. by apply (proj1 (select_by_id_None _ _) E b Hb).
Qed.

Lemma select_by_id_snoc (rows : list Book) (b : Book) (i : Z) :
  select_by_id (rows ++ [b]) i =
  match select_by_id rows i with
  | Some r => Some r
  | None => if decide (id b = i) then Some b else None
  end.
Proof.
  unfold select_by_id. rewrite filter_app, filter_cons, filter_nil.
  destruct (filter _ rows); simpl; [|done]. by case_decide.
Qed.

Lemma select_by_id_delete (rows : list Book) (i j : Z) :
  select_by_id (table_delete rows i) j = if decide (i = j) then None else select_by_id rows j.
Proof.
  unfold select_by_id, table_delete. rewrite list_filter_filter. case_decide as Hij.
  - subst. rewrite (proj2 (filter_empty_iff _ _)); [done|]. intros x _ [? ?]. done.
  - f_equal. apply list_filter_iff. intros x. naive_solver.
Qed.

Lemma select_by_id_update (rows : list Book) (b : Book) (j : Z) :
  select_by_id (table_update rows b) j =
  if decide (id b = j) then (λ _, b) <$> select_by_id rows j else select_by_id rows j.
Proof.
  unfold select_by_id, table_update. induction rows as [|r rows IH]; [by case_decide|].
  rewrite fmap_cons, !filter_cons.
  destruct (decide (id r = id b)) as [Er|Er]; simpl.
  - destruct (decide (id b = j)) as [Hj|Hj]; simpl.
    + by rewrite decide_True by congruence.
    + rewrite decide_False by congruence. by rewrite IH.
  - destruct (decide (id r = j)) as [<-|Hj]; simpl; [|done].
    by rewrite decide_False by congruence.
Qed.

(** ** The table as a map

    Each statement is the matching operation on [table_abs]; the insert
    needs the fresh rowid, the others hold on every table. *)

Lemma table_abs_insert `{RowidAlloc} (rows : list Book) (t a : text) (y : option Z) :
  let '(b, rows') := table_insert rows t a y in
  id b = next_rowid rows ∧ table_abs rows' = <[id b := b]> (table_abs rows).
Proof.
  simpl. split; [done|]. apply map_eq. intros j.
  rewrite table_abs_lookup, select_by_id_snoc, <-table_abs_lookup. simpl.
  destruct (decide (next_rowid rows = j)) as [<-|Hj].
  - rewrite lookup_insert_eq, table_abs_lookup.
    destruct (select_by_id rows _) as [r|] eqn:E; [|done].
    apply select_by_id_Some in E as [Hr Hid]. apply next_rowid_fresh in Hr. lia.
  - rewrite lookup_insert_ne by done. by destruct (table_abs rows !! j).
Qed.

Lemma table_abs_delete (rows : list Book) (i : Z) :
  table_abs (table_delete rows i) = delete i (table_abs rows).
Proof.
  apply map_eq. intros j. rewrite table_abs_lookup, select_by_id_delete.
  destruct (decide (i = j)) as [<-|Hj].
  - by rewrite lookup_delete_eq.
  - by rewrite lookup_delete_ne, table_abs_lookup.
Qed.

Lemma table_abs_update (rows : list Book) (b : Book) :
  table_abs (table_update rows b) = alter (λ _, b) (id b) (table_abs rows).
Proof.
  apply map_eq. intros j. rewrite table_abs_lookup, select_by_id_update.
  destruct (decide (id b = j)) as [<-|Hj].
  - by rewrite lookup_alter_eq, table_abs_lookup.
  - by rewrite lookup_alter_ne, table_abs_lookup.
Qed.

(** ** The invariant *)

Lemma table_wf_snoc (rows : list Book) (b : Book) :
  table_wf rows → (∀ r, r ∈ rows → id r < id b) → table_wf (rows ++ [b]).
Proof.
  unfold table_wf. induction rows as [|r rows IH]; intros Hwf Hlt; simpl.
  - repeat constructor.
  - apply StronglySorted_inv in Hwf as [Hs Hall]. constructor.
    + apply IH; [done|]. intros x Hx. apply Hlt. by right.
    + apply Forall_app. split; [done|]. constructor; [|done]. apply Hlt. by left.
Qed.

Lemma table_insert_wf `{RowidAlloc} (rows : list Book) (t a : text) (y : option Z) :
  table_wf rows → table_wf (table_insert rows t a y).2.
Proof. intros Hwf. apply table_wf_snoc; [done|]. intros r Hr. by apply next_rowid_fresh. Qed.

Lemma table_wf_filter (P : Book → Prop) `{∀ b, Decision (P b)} (rows : list Book) :
  table_wf rows → table_wf (filter P rows).
Proof.
  unfold table_wf. induction rows as [|r rows IH]; intros Hwf; [constructor|].
  apply StronglySorted_inv in Hwf as [Hs Hall]. rewrite filter_cons. case_decide; [|by apply IH].
  constructor; [by apply IH|]. rewrite Forall_forall in Hall |- *.
  intros x [_ Hx]%list_elem_of_filter. by apply Hall.
Qed.

Lemma table_delete_wf (rows : list Book) (i : Z) : table_wf rows → table_wf (table_delete rows i).
Proof. apply table_wf_filter. Qed.

Lemma table_update_wf (rows : list Book) (b : Book) : table_wf rows → table_wf (table_update rows b).
Proof.
  unfold table_wf, table_update. induction rows as [|r rows IH]; intros Hwf; [constructor|].
  apply StronglySorted_inv in Hwf as [Hs Hall]. rewrite fmap_cons. constructor; [by apply IH|].
  apply Forall_fmap. eapply Forall_impl; [exact Hall|]. intros x Hx. simpl.
  repeat case_decide; simpl; congruence || lia.
Qed.

Lemma table_wf_ids_NoDup (rows : list Book) : table_wf rows → NoDup (id <$> rows).
Proof.
  unfold table_wf. induction rows as [|r rows IH]; intros Hwf; [constructor|].
  apply StronglySorted_inv in Hwf as [Hs Hall]. rewrite fmap_cons. constructor; [|by apply IH].
  rewrite list_elem_of_fmap. intros (x & Hx & Hin). rewrite Forall_forall in Hall.
  specialize (Hall x Hin). lia.
Qed.

(** ** Pagination

    Asking for the pages [skip = k * limit] for [k = 0 .. n-1] returns the
    first [n * limit] rows, each once and in order. *)
Lemma offset_limit_pages {A} (l : list A) (limit : Z) (n : nat) :
  0 ≤ limit →
  concat ((λ k, offset_limit (Z.of_nat k * limit) limit l) <$> seq 0 n) = take (n * Z.to_nat limit) l.
Proof.
  intros Hl. induction n as [|n IH]; [done|].
  rewrite seq_S, fmap_app, concat_app, IH. simpl. rewrite app_nil_r.
  unfold offset_limit. rewrite Z2Nat.inj_mul, Nat2Z.id by lia.
  rewrite take_take_drop. f_equal. lia.
Qed.

Lemma offset_limit_sublist {A} (skip limit : Z) (l : list A) : offset_limit skip limit l `sublist_of` l.
Proof.
  unfold offset_limit. etrans; [apply sublist_take|]. apply sublist_drop.
Qed.

(** ** The reference for substring search *)

Fixpoint is_prefixb (t s : text) : bool :=
  match t, s with
  | [], _ => true
  | c :: t', d :: s' => Z.eqb c d && is_prefixb t' s'
  | _ :: _, [] => false
  end.

(** [t in s] *)
Fixpoint substringb (t s : text) : bool :=
  is_prefixb t s || match s with [] => false | _ :: s' => substringb t s' end.

Lemma is_prefixb_spec (t s : text) : is_prefixb t s = true ↔ ∃ b, s = t ++ b.
Proof.
  revert s. induction t as [|c t IH]; intros [|d s]; simpl.
  - split; [by exists []|done].
  - split; [by eexists|done].
  - split; [done|by intros [b ?]].
  - rewrite andb_true_iff, Z.eqb_eq, IH. split.
    + intros [-> [b ->]]. by exists b.
    + intros [b Hb]. simplify_eq. eauto.
Qed.

Lemma substringb_spec (t s : text) : substringb t s = true ↔ ∃ a b, s = a ++ t ++ b.
Proof.
  induction s as [|d s IH]; simpl; rewrite orb_true_iff, is_prefixb_spec.
  - split; [intros [[b Hb]|?]; [by exists [], b|done]|].
    intros ([|??] & b & Hab); [left; by exists b|done].
  - rewrite IH. split.
    + intros [[b Hb]|(a & b & ->)]; [by exists [], b|by exists (d :: a), b].
    + intros ([|x a] & b & Hab); [left; by exists b|].
      simplify_eq/=. right. eauto.
Qed.

(** ** [LIKE] on wildcard-free patterns is substring search *)

(** Text [lower()] leaves alone, and patterns with no wildcard in them. *)
Definition lowered (s : text) : Prop := Forall (λ c, sql_lower_char c = c) s.
Definition wildcard_free (q : text) : Prop := Forall (λ c, c ≠ pct ∧ c ≠ underscore) q.

Lemma sql_lower_char_idem (c : Z) : sql_lower_char (sql_lower_char c) = sql_lower_char c.
Proof. unfold sql_lower_char. repeat (case_match; rewrite ?andb_true_iff, ?andb_false_iff, ?Z.leb_le, ?Z.leb_gt in *); lia. Qed.

Lemma sql_lower_char_wild (c : Z) : c ≠ pct ∧ c ≠ underscore → sql_lower_char c ≠ pct ∧ sql_lower_char c ≠ underscore.
Proof. unfold sql_lower_char, pct, underscore. case_match; rewrite ?andb_true_iff, ?Z.leb_le in *; lia. Qed.

Lemma sql_lower_lowered (s : text) : lowered (sql_lower s).
Proof. apply Forall_fmap, Forall_forall. intros c _. apply sql_lower_char_idem. Qed.

Lemma sql_lower_wildcard_free (q : text) : wildcard_free q → wildcard_free (sql_lower q).
Proof. intros Hq. apply Forall_fmap. eapply Forall_impl; [exact Hq|]. apply sql_lower_char_wild. Qed.

Lemma sql_lower_contains (q : text) : sql_lower (contains_pattern q) = contains_pattern (sql_lower q).
Proof. unfold sql_lower, contains_pattern. by rewrite !fmap_app. Qed.

Lemma like_pct (p s : text) : like (pct :: p) s = true ↔ ∃ a b, s = a ++ b ∧ like p b = true.
Proof.
  simpl. induction s as [|d s IH]; rewrite orb_true_iff.
  - split; [intros [H|?]; [by exists [], []|done]|].
    intros ([|??] & [|??] & Hs & Hl); simplify_eq/=; auto.
  - rewrite IH. split.
    + intros [H|(a & b & -> & Hl)]; [by exists [], (d :: s)|by exists (d :: a), b].
    + intros ([|x a] & b & Hs & Hl); simplify_eq/=; [by left|right; eauto].
Qed.

Lemma like_pct_any (s : text) : like [pct] s = true.
Proof. apply like_pct. exists s, []. by rewrite app_nil_r. Qed.

Lemma like_lit_cons (c d : Z) (p s : text) :
  c ≠ pct ∧ c ≠ underscore → sql_lower_char c = c → sql_lower_char d = d →
  like (c :: p) (d :: s) = Z.eqb c d && like p s.
Proof.
  intros [Hp Hu] Hc Hd. cbn [like].
  rewrite (proj2 (Z.eqb_neq c pct) Hp), (proj2 (Z.eqb_neq c underscore) Hu), Hc, Hd. done.
Qed.

Lemma like_lit_app (t p s : text) :
  wildcard_free t → lowered t → lowered s →
  like (t ++ p) s = true ↔ ∃ b, s = t ++ b ∧ like p b = true.
Proof.
  revert s. induction t as [|c t IH]; intros s Ht Hlt Hls; cbn [app].
  - split; [by exists s|by intros (b & -> & ?)].
  - apply Forall_cons in Ht as [Hc Ht]. apply Forall_cons in Hlt as [Hlc Hlt].
    destruct s as [|d s].
    + cbn [like]. rewrite (proj2 (Z.eqb_neq c pct) (proj1 Hc)). split; [done|by intros (? & ? & ?)].
    + apply Forall_cons in Hls as [Hld Hls]. rewrite like_lit_cons by done.
      rewrite andb_true_iff, Z.eqb_eq, IH by done. split.
      * intros [-> (b & -> & Hb)]. by exists b.
      * intros (b & Hs & Hb). simplify_eq. eauto.
Qed.

Lemma like_contains (t s : text) :
  wildcard_free t → lowered t → lowered s → like (contains_pattern t) s = substringb t s.
Proof.
  intros Hw Ht Hs. apply Bool.eq_iff_eq_true. rewrite substringb_spec.
  unfold contains_pattern. simpl app. rewrite like_pct. split.
  - intros (a & b & -> & Hb). apply Forall_app in Hs as [_ Hb'].
    apply like_lit_app in Hb as (c & -> & _); [|done..]. by exists a, c.
  - intros (a & c & ->). exists a, (t ++ c). split; [done|].
    apply Forall_app in Hs as [_ Hb']. apply like_lit_app; [done..|].
    exists c. split; [done|]. apply like_pct_any.
Qed.

(** [title.ilike(f"%{q}%")] for a wildcard-free [q] is [q.lower() in
    title.lower()] with SQLite's ASCII-only [lower]. *)
Lemma ilike_contains (q col : text) :
  wildcard_free q → ilike col (contains_pattern q) = substringb (sql_lower q) (sql_lower col).
Proof.
  intros Hq. unfold ilike. rewrite sql_lower_contains.
  apply like_contains; [by apply sql_lower_wildcard_free|apply sql_lower_lowered..].
Qed.
