(* ===== verification/BookApi.v ===== *)
(** * The book service: [src/lecture_5/book_api/main.py] and [schemas.py]

    Each FastAPI route is one function from the request's validated
    parameters and the [books] table ([Sql.v]) to the HTTP response and the
    table after the request's session closes:
    - [create_book] (POST /books/, 201): insert, return the row;
    - [list_books] (GET /books/): [Query] validation of [skip >= 0] and
      [0 < limit <= 100] (422 otherwise), then [OFFSET]/[LIMIT];
    - [delete_book] (DELETE /books/{book_id}, 204): 404 when no row has the
      id;
    - [update_book] (PUT /books/{book_id}): 404, else [setattr] of every
      field of [model_dump(exclude_unset=True)] and a commit, which fails on
      a [NULL] title or author (500, the session is rolled back);
    - [search_books] (GET /books/search/): the [ILIKE]/equality filters the
      given parameters add, in the code's order, then [OFFSET]/[LIMIT].
    Request bodies arrive as the pydantic models of [schemas.py]; a field of
    [BookUpdate] is absent ([Unset]), an explicit [null] or a value.
    [handle] dispatches a request to its route.

    Ids, years and paging parameters are Python ints; SQLite stores a
    64-bit INTEGER, and Python's [sqlite3] raises [OverflowError] when it
    binds an int outside [[-2^63, 2^63-1]], which the route does not catch
    (500).  Every route binds its ints before touching the table
    ([Sql.bindable], [Sql.int64]); [req_bindable] says a request binds,
    and on a request that does not, [handle] answers 422, 404 or 500 as
    the code's earlier checks decide and leaves the table unchanged.
    [serve] runs a sequence of requests from the empty table.  [BookSpec]
    is the service the table implements, on a map from id to book:
    [spec_state] is one request given the fresh id, [spec_fresh] the id a
    new book receives (one above the largest in use), [spec_serve] a whole
    run; the rowids [serve] produces stay within the number of requests,
    so SQLite's random-rowid fallback after [2^63-1] is never reached by
    fewer than [2^63-1] requests.

    The liveness service of [src/lecture_6/main.py] is [healthcheck]. *)

From S2P Require Import Prelude Sql.
From stdpp Require Import gmap.
From Stdlib Require Import Sorted.

Local Open Scope Z_scope.

(** ** [schemas.py] *)

(** [BookCreate(BookBase)]: [title: str], [author: str], [year: Optional[int] = None]. *)
Record BookCreate : Type := mkBookCreate {
  c_title : text;
  c_author : text;
  c_year : option Z;
}.

(** A field of a partial-update body: absent from the JSON, or given
    (possibly as [null]). *)
Inductive field (A : Type) : Type :=
  | Unset
  | Given (v : option A).
Arguments Unset {A}.
Arguments Given {A} v.

(** [BookUpdate]: every field [Optional[...] = None]. *)
Record BookUpdate : Type := mkBookUpdate {
  u_title : field text;
  u_author : field text;
  u_year : field Z;
}.

(** [BookRead] is the row itself, [Book], with its [id]. *)

(** One item of [model_dump(exclude_unset=True)]: a field name and its value. *)
Inductive update_item : Type :=
  | SetTitle (v : option text)
  | SetAuthor (v : option text)
  | SetYear (v : option Z).

(** The dict keeps the fields that were set, in declaration order. *)
Definition model_dump_exclude_unset (u : BookUpdate) : list update_item :=
  match u_title u with Given v => [SetTitle v] | Unset => [] end ++
  match u_author u with Given v => [SetAuthor v] | Unset => [] end ++
  match u_year u with Given v => [SetYear v] | Unset => [] end.

(** ** The ORM object of a row

    In the session a [models.Book] instance is a Python object whose
    attributes [setattr] may set to [None]; the commit writes it back under
    the table's [NOT NULL] constraints. *)
Record BookObj : Type := mkBookObj {
  o_id : Z;
  o_title : option text;
  o_author : option text;
  o_year : option Z;
}.

Definition to_obj (b : Book) : BookObj := mkBookObj (id b) (Some (title b)) (Some (author b)) (year b).

(** [setattr(db_book, field, value)] *)
Definition setattr (o : BookObj) (it : update_item) : BookObj :=
  match it with
  | SetTitle v => mkBookObj (o_id o) v (o_author o) (o_year o)
  | SetAuthor v => mkBookObj (o_id o) (o_title o) v (o_year o)
  | SetYear v => mkBookObj (o_id o) (o_title o) (o_author o) v
  end.

(** [db.commit()]: [None] is the [IntegrityError] of a [NULL] title or author. *)
Definition commit_obj (o : BookObj) : option Book :=
  match o_title o, o_author o with
  | Some t, Some a => Some (mkBook (o_id o) t a (o_year o))
  | _, _ => None
  end.

(** The [UPDATE] of the commit binds the values the loop set: a year
    outside SQLite's [INTEGER] raises [OverflowError]. *)
Definition item_bindable (it : update_item) : bool :=
  match it with SetYear v => bindable v | _ => true end.

(** ** Responses *)

Inductive response : Type :=
  | Created (b : Book)           (* 201, a [BookRead] *)
  | Ok (b : Book)                (* 200, a [BookRead] *)
  | OkList (l : list Book)       (* 200, a [List[BookRead]] *)
  | NoContent                    (* 204 *)
  | NotFound (book_id : Z)       (* 404, "Book with id {book_id} not found." *)
  | Unprocessable                (* 422, a [Query] constraint failed *)
  | InternalServerError.         (* 500, a statement raised *)

(** [skip: int = Query(0, ge=0)], [limit: int = Query(10, gt=0, le=100)];
    [None] is an absent parameter. *)
Definition page_params (skip limit : option Z) : option (Z * Z) :=
  let s := default 0 skip in
  let l := default 10 limit in
  if (0 <=? s) && (0 <? l) && (l <=? 100) then Some (s, l) else None.

(** ** The routes *)

Section Routes.
Context `{RowidAlloc}.

Definition create_book (book : BookCreate) (rows : list Book) : response * list Book :=
  if bindable (c_year book) then
    let '(db_book, rows') := table_insert rows (c_title book) (c_author book) (c_year book) in
    (Created db_book, rows')
  else (InternalServerError, rows).

Definition list_books (skip limit : option Z) (rows : list Book) : response * list Book :=
  match page_params skip limit with
  | None => (Unprocessable, rows)
  | Some (s, l) =>
      if decide (int64 s) then (OkList (offset_limit s l rows), rows)
      else (InternalServerError, rows)
  end.

Definition delete_book (book_id : Z) (rows : list Book) : response * list Book :=
  if decide (int64 book_id) then
    match select_by_id rows book_id with
    | None => (NotFound book_id, rows)
    | Some db_book => (NoContent, table_delete rows (id db_book))
    end
  else (InternalServerError, rows).

Definition update_book (book_id : Z) (book_update : BookUpdate) (rows : list Book) :
    response * list Book :=
  if decide (int64 book_id) then
    match select_by_id rows book_id with
    | None => (NotFound book_id, rows)
    | Some db_book =>
        let update_data := model_dump_exclude_unset book_update in
        let obj := foldl setattr (to_obj db_book) update_data in
        if forallb item_bindable update_data then
          match commit_obj obj with
          | None => (InternalServerError, rows)
          | Some b => (Ok b, table_update rows b)
          end
        else (InternalServerError, rows)
    end
  else (InternalServerError, rows).

(** [query.filter(...)] for the parameters that are not [None]. *)
Definition title_filter (title_q : option text) (q : list Book) : list Book :=
  match title_q with
  | Some t => filter (λ b, ilike (title b) (contains_pattern t) = true) q
  | None => q
  end.

Definition author_filter (author_q : option text) (q : list Book) : list Book :=
  match author_q with
  | Some a => filter (λ b, ilike (author b) (contains_pattern a) = true) q
  | None => q
  end.

(** [Book.year == year]: a [NULL] year equals nothing. *)
Definition year_filter (year_q : option Z) (q : list Book) : list Book :=
  match year_q with
  | Some y => filter (λ b, year b = Some y) q
  | None => q
  end.

Definition search_books (title_q author_q : option text) (year_q : option Z)
    (skip limit : option Z) (rows : list Book) : response * list Book :=
  match page_params skip limit with
  | None => (Unprocessable, rows)
  | Some (s, l) =>
      let query := year_filter year_q (author_filter author_q (title_filter title_q rows)) in
      if bindable year_q && bool_decide (int64 s) then (OkList (offset_limit s l query), rows)
      else (InternalServerError, rows)
  end.

Inductive request : Type :=
  | PostBook (book : BookCreate)
  | GetBooks (skip limit : option Z)
  | DeleteBook (book_id : Z)
  | PutBook (book_id : Z) (book_update : BookUpdate)
  | SearchBooks (title_q author_q : option text) (year_q skip limit : option Z).

Definition handle (req : request) (rows : list Book) : response * list Book :=
  match req with
  | PostBook book => create_book book rows
  | GetBooks skip limit => list_books skip limit rows
  | DeleteBook book_id => delete_book book_id rows
  | PutBook book_id u => update_book book_id u rows
  | SearchBooks t a y skip limit => search_books t a y skip limit rows
  end.

End Routes.

(** Every Python int the request's statements bind fits SQLite's
    [INTEGER]: the year of a POST or a search, the id of a DELETE or PUT,
    the year a PUT sets, the [skip] of a listing. *)
Definition req_bindable (req : request) : bool :=
  match req with
  | PostBook c => bindable (c_year c)
  | GetBooks skip _ => bool_decide (int64 (default 0 skip))
  | DeleteBook i => bool_decide (int64 i)
  | PutBook i u => bool_decide (int64 i) && match u_year u with Given y => bindable y | Unset => true end
  | SearchBooks _ _ y skip _ => bindable y && bool_decide (int64 (default 0 skip))
  end.

(** ** [src/lecture_6/main.py] *)

(** [GET /healthcheck] returns the JSON object [{"status": "ok"}]. *)
Definition healthcheck : list (string * string) := [("status", "ok")]%string.

(** ** What a partial update means

    The reference: an absent field keeps the old value, a given one
    replaces it, and a [null] title or author cannot be stored. *)
Definition merge_required (f : field text) (old : text) : option text :=
  match f with Unset => Some old | Given v => v end.

Definition merge_year (f : field Z) (old : option Z) : option Z :=
  match f with Unset => old | Given v => v end.

Definition apply_update (b : Book) (u : BookUpdate) : option Book :=
  match merge_required (u_title u) (title b), merge_required (u_author u) (author b) with
  | Some t, Some a => Some (mkBook (id b) t a (merge_year (u_year u) (year b)))
  | _, _ => None
  end.

(** ** The service as operations on a map from identifier to book

    [fresh] is the identifier the next insert receives. *)
Module BookSpec.

Definition spec_state (fresh : Z) (req : request) (m : gmap Z Book) : gmap Z Book :=
  match req with
  | PostBook c => <[fresh := mkBook fresh (c_title c) (c_author c) (c_year c)]> m
  | DeleteBook i => delete i m
  | PutBook i u =>
      match m !! i with
      | Some b => match apply_update b u with Some b' => <[i := b']> m | None => m end
      | None => m
      end
  | GetBooks _ _ | SearchBooks _ _ _ _ _ => m
  end.

(** The largest identifier in use, [None] in an empty collection. *)
Definition max_key (m : gmap Z Book) : option Z :=
  map_fold (λ k _ acc, Some (default k (Z.max k <$> acc))) None m.

(** A new book receives one more than the largest identifier in use, and
    1 in an empty collection. *)
Definition spec_fresh (m : gmap Z Book) : Z :=
  match max_key m with Some k => k + 1 | None => 1 end.

(** One request on the collection; one whose integers cannot be stored
    changes nothing. *)
Definition spec_step (m : gmap Z Book) (req : request) : gmap Z Book :=
  if req_bindable req then spec_state (spec_fresh m) req m else m.

(** A sequence of requests from the empty collection. *)
Definition spec_serve (reqs : list request) : gmap Z Book := foldl spec_step ∅ reqs.

End BookSpec.

(** One request of any route, on some table. *)
Definition service_step `{RowidAlloc} (rows rows' : list Book) : Prop :=
  ∃ req, (handle req rows).2 = rows'.

(** The table after a sequence of requests, each in its own session,
    served from the empty table. *)
Definition serve `{RowidAlloc} (reqs : list request) : list Book :=
  foldl (λ rows req, (handle req rows).2) [] reqs.

(** ** Lemmas *)

(** The [setattr] loop over the dumped fields, then the commit, is the
    reference update. *)
Lemma commit_setattr_loop (b : Book) (u : BookUpdate) :
  commit_obj (foldl setattr (to_obj b) (model_dump_exclude_unset u)) = apply_update b u.
Proof. destruct b, u as [[|[t|]] [|[a|]] [|y]]; reflexivity. Qed.

Lemma apply_update_id (b b' : Book) (u : BookUpdate) : apply_update b u = Some b' → id b' = id b.
Proof. unfold apply_update. repeat case_match; intros; simplify_eq; done. Qed.

(** The commit binds only a year the body sets. *)
Lemma update_items_bindable (u : BookUpdate) :
  forallb item_bindable (model_dump_exclude_unset u) =
  match u_year u with Given y => bindable y | Unset => true end.
Proof. by destruct u as [[|t] [|a] [|y]]; simpl; rewrite ?andb_true_r. Qed.

Lemma update_book_found (i : Z) (u : BookUpdate) (rows : list Book) (b : Book) :
  int64 i → select_by_id rows i = Some b →
  update_book i u rows =
  if match u_year u with Given y => bindable y | Unset => true end then
    match apply_update b u with
    | Some b' => (Ok b', table_update rows b')
    | None => (InternalServerError, rows)
    end
  else (InternalServerError, rows).
Proof.
  intros Hi E. unfold update_book. rewrite decide_True, E by done.
  by rewrite update_items_bindable, commit_setattr_loop.
Qed.

Lemma delete_book_found (i : Z) (rows : list Book) (b : Book) :
  int64 i → select_by_id rows i = Some b → delete_book i rows = (NoContent, table_delete rows i).
Proof.
  intros Hi E. unfold delete_book. rewrite decide_True, E by done.
  by apply select_by_id_Some in E as [_ ->].
Qed.

(** The reads never change the table. *)
Lemma list_books_rows (skip limit : option Z) (rows : list Book) : (list_books skip limit rows).2 = rows.
Proof. unfold list_books. by repeat case_match. Qed.

Lemma search_books_rows (t a : option text) (y skip limit : option Z) (rows : list Book) :
  (search_books t a y skip limit rows).2 = rows.
Proof. unfold search_books. by repeat case_match. Qed.

Lemma handle_wf `{RowidAlloc} (req : request) (rows : list Book) :
  table_wf rows → table_wf (handle req rows).2.
Proof.
  intros Hwf. destruct req as [c|s l|i|i u|t a y s l]; simpl.
  - unfold create_book. case_match; [by apply table_insert_wf|done].
  - by rewrite list_books_rows.
  - unfold delete_book. repeat case_match; simpl; try done; by apply table_delete_wf.
  - unfold update_book. repeat case_match; simpl; try done; by apply table_update_wf.
  - by rewrite search_books_rows.
Qed.

Lemma table_delete_absent (rows : list Book) (i : Z) :
  (∀ r, r ∈ rows → id r ≠ i) → table_delete rows i = rows.
Proof.
  apply filter_all.
Qed.

Lemma select_by_id_fresh `{RowidAlloc} (rows : list Book) : select_by_id rows (next_rowid rows) = None.
Proof. apply select_by_id_None. intros b Hb. apply next_rowid_fresh in Hb. lia. Qed.

(** The rows other than [b] of a table that holds [b] carry other ids. *)
Lemma table_wf_split_ids (pre post : list Book) (b : Book) :
  table_wf (pre ++ b :: post) → ∀ r, r ∈ pre ++ post → id r ≠ id b.
Proof.
  intros Hwf%table_wf_ids_NoDup r Hr Hid. rewrite fmap_app, fmap_cons in Hwf.
  apply NoDup_app in Hwf as (_ & Hdisj & Hpost%NoDup_cons).
  apply elem_of_app in Hr as [Hr|Hr].
  - apply (Hdisj (id b)); [rewrite <-Hid; by apply list_elem_of_fmap_2|by left].
  - apply (proj1 Hpost). rewrite <-Hid. by apply list_elem_of_fmap_2.
Qed.

(** The chained [query.filter(...)] calls select the rows satisfying all of
    the given conditions. *)
Definition search_pred (title_q author_q : option text) (year_q : option Z) (b : Book) : bool :=
  match title_q with Some t => ilike (title b) (contains_pattern t) | None => true end &&
  match author_q with Some a => ilike (author b) (contains_pattern a) | None => true end &&
  match year_q with Some y => bool_decide (year b = Some y) | None => true end.

Lemma search_filters (title_q author_q : option text) (year_q : option Z) (rows : list Book) :
  year_filter year_q (author_filter author_q (title_filter title_q rows)) =
  filter (λ b, search_pred title_q author_q year_q b = true) rows.
Proof.
  unfold year_filter, author_filter, title_filter, search_pred.
  destruct title_q, author_q, year_q; rewrite ?list_filter_filter;
    first [apply list_filter_iff | symmetry; apply filter_all]; intros b;
    rewrite ?andb_true_iff, ?bool_decide_eq_true; naive_solver.
Qed.

Lemma ilike_underscore (col : text) : ilike col (contains_pattern [underscore]) = bool_decide (col ≠ []).
Proof.
  apply Bool.eq_iff_eq_true. rewrite bool_decide_eq_true. unfold ilike.
  change (sql_lower (contains_pattern [underscore])) with (pct :: [underscore; pct]).
  rewrite like_pct. split.
  - intros (a & [|d b] & Hs & Hb); [done|]. intros ->. by destruct a.
  - intros Hne. destruct col as [|c col]; [done|]. exists [], (sql_lower (c :: col)).
    split; [done|]. simpl. rewrite like_pct_any. done.
Qed.

Lemma ilike_pct (col : text) : ilike col (contains_pattern [pct]) = true.
Proof.
  unfold ilike. change (sql_lower (contains_pattern [pct])) with (pct :: [pct; pct]).
  apply like_pct. exists (sql_lower col), []. rewrite app_nil_r. split; [done|]. reflexivity.
Qed.

(** ** The service against its map specification *)

(** The change a request makes to the map view of the table. *)
Lemma handle_abs `{RowidAlloc} (req : request) (rows : list Book) :
  table_abs (handle req rows).2 =
  if req_bindable req then BookSpec.spec_state (next_rowid rows) req (table_abs rows)
  else table_abs rows.
Proof.
  destruct req as [c|s l|i|i u|t a y s l]; simpl.
  - unfold create_book. destruct (bindable (c_year c)); [simpl|done].
    by destruct (table_abs_insert rows (c_title c) (c_author c) (c_year c)) as [_ ->].
  - rewrite list_books_rows. by case_match.
  - unfold delete_book. case_decide as Hi; [rewrite bool_decide_true by done|by rewrite bool_decide_false].
    destruct (select_by_id rows i) as [b|] eqn:E; simpl.
    + apply select_by_id_Some in E as [_ <-]. apply table_abs_delete.
    + symmetry. apply delete_id. by rewrite table_abs_lookup.
  - case_bool_decide as Hi; simpl; [|unfold update_book; by rewrite decide_False].
    rewrite table_abs_lookup. destruct (select_by_id rows i) as [b|] eqn:E.
    + rewrite (update_book_found i u rows b Hi E).
      destruct (match u_year u with Given y => bindable y | Unset => true end); [|done].
      destruct (apply_update b u) as [b'|] eqn:Eu; [|done]. simpl.
      pose proof (select_by_id_Some _ _ _ E) as [_ Hid].
      rewrite table_abs_update, (apply_update_id b b' u Eu), Hid.
      rewrite (alter_alt_Some _ _ _ b); [done|]. by rewrite table_abs_lookup.
    + unfold update_book. rewrite decide_True, E by done. by case_match.
  - rewrite search_books_rows. by case_match.
Qed.

(** C19: Every request of every route changes the table exactly as the map
    specification [BookSpec.spec_state] says, when SQLite can bind its
    integers: POST inserts a new book at the next rowid, DELETE removes the
    key, PUT replaces the book by the reference update when that update is
    storable, and the reads change nothing; a request with an integer
    outside SQLite's [INTEGER] changes nothing. *)
Theorem handle_refines_state `{RowidAlloc} (req : request) (rows : list Book) :
  table_abs (handle req rows).2 =
  if req_bindable req then BookSpec.spec_state (next_rowid rows) req (table_abs rows)
  else table_abs rows.
Proof. apply handle_abs. Qed.

Lemma max_key_spec (m : gmap Z Book) :
  match BookSpec.max_key m with
  | None => m = ∅
  | Some k => is_Some (m !! k) ∧ ∀ j, is_Some (m !! j) → j ≤ k
  end.
Proof.
  unfold BookSpec.max_key.
  apply (map_fold_weak_ind (λ r m, match r with
    | None => m = ∅
    | Some k => is_Some (m !! k) ∧ ∀ j, is_Some (m !! j) → j ≤ k end)); [done|].
  intros i x m0 [k|] Hi IH; simpl.
  - destruct IH as [Hk Hle]. split.
    + destruct (Z.max_spec i k) as [[_ ->]|[_ ->]].
      * rewrite lookup_insert_ne by (intros ->; by rewrite Hi in Hk). done.
      * by rewrite lookup_insert_eq.
    + intros j [y Hj]. apply lookup_insert_Some in Hj as [[-> _]|[_ Hj]]; [lia|].
      specialize (Hle j (mk_is_Some _ _ Hj)). lia.
  - subst m0. split; [by rewrite lookup_insert_eq|].
    intros j [y Hj]. apply lookup_insert_Some in Hj as [[-> _]|[_ Hj]]; [lia|done].
Qed.

(** SQLite's next rowid is the specification's fresh identifier of the
    map view, on every table. *)
Lemma sqlite_next_rowid_abs (rows : list Book) :
  sqlite_next_rowid rows = BookSpec.spec_fresh (table_abs rows).
Proof.
  unfold sqlite_next_rowid, BookSpec.spec_fresh.
  pose proof (max_rowid_spec rows) as Hr. pose proof (max_key_spec (table_abs rows)) as Hk.
  destruct (max_rowid rows) as [r|], (BookSpec.max_key _) as [k|].
  - destruct Hr as [Hr Hr'], Hk as [Hk Hk']. rewrite table_abs_is_Some in Hk.
    setoid_rewrite table_abs_is_Some in Hk'. specialize (Hr' k Hk). specialize (Hk' r Hr). lia.
  - destruct Hr as [Hr _]. apply table_abs_is_Some in Hr. rewrite Hk, lookup_empty in Hr.
    by destruct Hr.
  - subst rows. destruct Hk as [Hk _]. apply table_abs_is_Some in Hk. set_solver.
  - done.
Qed.

Lemma handle_spec_step (req : request) (rows : list Book) :
  table_abs (handle req rows).2 = BookSpec.spec_step (table_abs rows) req.
Proof.
  rewrite handle_abs. unfold BookSpec.spec_step. cbn [next_rowid sqlite_rowid].
  by rewrite sqlite_next_rowid_abs.
Qed.

(** C20: Serving any sequence of requests from the empty table, each in
    its own session, leaves the table whose map view is the abstract
    service run from the empty collection: the specification knows only
    the map, and gives a new book one more than the largest identifier in
    use, so an identifier freed by deleting the newest book is given
    again. *)
Theorem serve_refines_spec (reqs : list request) :
  table_abs (serve reqs) = BookSpec.spec_serve reqs.
Proof.
  unfold serve, BookSpec.spec_serve. change (∅ : gmap Z Book) with (table_abs []).
  generalize (@nil Book). induction reqs as [|req reqs IH]; intros rows; [done|].
  simpl. by rewrite IH, handle_spec_step.
Qed.

(** Every table the service can reach from the empty table, by any
    sequence of requests, has strictly increasing (so distinct)
    identifiers along its scan order. *)
Theorem service_reachable_wf `{RowidAlloc} (rows : list Book) :
  rtc service_step [] rows → table_wf rows.
Proof.
  intros Hr. cut (∀ x y, rtc service_step x y → table_wf x → table_wf y).
  { intros Hgen. apply (Hgen [] rows Hr). constructor. }
  induction 1 as [|x y z [req <-] _ IH]; [done|]. intros Hx. by apply IH, handle_wf.
Qed.

(** ** PUT /books/{book_id} *)

(** C22: When the book exists, its id fits SQLite's [INTEGER], and the body
    sets no title or author to [null] and no year outside that range, the
    response is 200 with the book whose id is unchanged, whose title,
    author and year are those the body sets, the old ones for the fields
    the body leaves out, and the table has that row replaced. *)
Theorem update_book_spec (i : Z) (u : BookUpdate) (rows : list Book) (b : Book) :
  int64 i → table_abs rows !! i = Some b → u_title u ≠ Given None → u_author u ≠ Given None →
  (∀ y, u_year u = Given (Some y) → int64 y) →
  ∃ b', update_book i u rows = (Ok b', table_update rows b') ∧ id b' = i ∧
    title b' = match u_title u with Given (Some t) => t | _ => title b end ∧
    author b' = match u_author u with Given (Some a) => a | _ => author b end ∧
    year b' = match u_year u with Given y => y | Unset => year b end.
Proof.
  rewrite table_abs_lookup. intros Hi E Ht Ha Hy.
  pose proof (select_by_id_Some _ _ _ E) as [_ Hid].
  rewrite (update_book_found i u rows b Hi E). unfold apply_update, merge_required, merge_year.
  destruct u as [[|[t|]] [|[a|]] [|[y|]]]; simpl in *; try congruence;
    rewrite ?bool_decide_true by (apply Hy; done); eexists; eauto.
Qed.

(** C23: A body that sets the title or the author to [null] passes the
    [BookUpdate] schema but fails the commit: the response is a server
    error and the table is unchanged. *)
Theorem update_book_null_field (i : Z) (u : BookUpdate) (rows : list Book) (b : Book) :
  table_abs rows !! i = Some b → u_title u = Given None ∨ u_author u = Given None →
  update_book i u rows = (InternalServerError, rows).
Proof.
  rewrite table_abs_lookup. intros E Hnull. unfold update_book. case_decide; [|done].
  rewrite E, commit_setattr_loop. unfold apply_update, merge_required.
  by destruct Hnull as [-> | ->]; repeat case_match.
Qed.

(** ** POST and DELETE *)

(** C24: A created book (its year, if any, fits SQLite's [INTEGER], and so
    does the id it receives) gets an identifier no other row has, is found
    under it, and deleting it gives back the table as it was before. *)
Theorem create_delete_roundtrip `{RowidAlloc} (c : BookCreate) (rows : list Book) :
  bindable (c_year c) = true → int64 (next_rowid rows) →
  let '(resp, rows') := create_book c rows in
  ∃ b, resp = Created b ∧ title b = c_title c ∧ author b = c_author c ∧ year b = c_year c ∧
    table_abs rows' !! id b = Some b ∧ delete_book (id b) rows' = (NoContent, rows).
Proof.
  intros Hy Hn. unfold create_book. rewrite Hy. simpl.
  set (b := mkBook (next_rowid rows) (c_title c) (c_author c) (c_year c)).
  assert (Hsel : select_by_id (rows ++ [b]) (id b) = Some b).
  { rewrite select_by_id_snoc. change (id b) with (next_rowid rows).
    rewrite select_by_id_fresh. by rewrite decide_True. }
  exists b. do 4 (split; [done|]). split; [by rewrite table_abs_lookup|].
  rewrite (delete_book_found (id b) _ b Hn Hsel). f_equal. unfold table_delete.
  rewrite filter_app, filter_cons_False, filter_nil, app_nil_r by (simpl; congruence).
  apply filter_all. intros r Hr. apply next_rowid_fresh in Hr. simpl. lia.
Qed.

(** DELETE of an existing book removes exactly that row and keeps the
    others in their order. *)
Theorem delete_book_spec (i : Z) (rows : list Book) (b : Book) :
  int64 i → table_wf rows → table_abs rows !! i = Some b →
  ∃ pre post, rows = pre ++ b :: post ∧ delete_book i rows = (NoContent, pre ++ post).
Proof.
  rewrite table_abs_lookup. intros Hi Hwf E. pose proof (select_by_id_Some _ _ _ E) as [Hin Hid].
  apply list_elem_of_split in Hin as (pre & post & ->). exists pre, post. split; [done|].
  rewrite (delete_book_found _ _ b Hi E). f_equal. unfold table_delete.
  rewrite filter_app, filter_cons_False by congruence. rewrite <-filter_app.
  apply filter_all. intros r Hr. rewrite <-Hid. by apply (table_wf_split_ids pre post).
Qed.

(** C25: DELETE or PUT of an identifier that fits SQLite's [INTEGER] and
    that no row has answers 404 with that identifier and leaves the table
    unchanged. *)
Theorem missing_id_not_found (i : Z) (rows : list Book) :
  int64 i → table_abs rows !! i = None →
  delete_book i rows = (NotFound i, rows) ∧ ∀ u, update_book i u rows = (NotFound i, rows).
Proof.
  rewrite table_abs_lookup. intros Hi E. unfold delete_book, update_book.
  split; [|intros u]; rewrite decide_True by exact Hi; by rewrite E.
Qed.

(** ** GET /books/ and GET /books/search/ *)

Lemma page_params_Some (skip limit : option Z) (s l : Z) :
  page_params skip limit = Some (s, l) ↔
  s = default 0 skip ∧ l = default 10 limit ∧ 0 ≤ s ∧ 0 < l ≤ 100.
Proof.
  unfold page_params.
  destruct (0 <=? default 0 skip) eqn:E1, (0 <? default 10 limit) eqn:E2,
    (default 10 limit <=? 100) eqn:E3; simpl;
    rewrite ?Z.leb_le, ?Z.leb_gt, ?Z.ltb_lt, ?Z.ltb_ge in *;
    split; intros; simplify_eq; naive_solver lia.
Qed.

Lemma page_params_None (skip limit : option Z) :
  page_params skip limit = None ↔ default 0 skip < 0 ∨ default 10 limit ≤ 0 ∨ 100 < default 10 limit.
Proof.
  destruct (page_params skip limit) as [[s l]|] eqn:Hp.
  - apply page_params_Some in Hp. split; [done|lia].
  - split; [intros _|done]. unfold page_params in Hp.
    destruct (0 <=? default 0 skip) eqn:E1, (0 <? default 10 limit) eqn:E2,
      (default 10 limit <=? 100) eqn:E3; simpl in Hp; try done;
      rewrite ?Z.leb_le, ?Z.leb_gt, ?Z.ltb_lt, ?Z.ltb_ge in *; lia.
Qed.

(** C26: A search answers the [OFFSET]/[LIMIT] window of the rows, in table
    order, that satisfy every condition the given parameters add (the
    chained filters are one conjunction); 422 on invalid paging
    parameters, and 500 when the year or [skip] does not fit SQLite's
    [INTEGER]; the table is unchanged. *)
Theorem search_books_spec (title_q author_q : option text) (year_q skip limit : option Z)
    (rows : list Book) :
  search_books title_q author_q year_q skip limit rows =
  (match page_params skip limit with
   | None => Unprocessable
   | Some (s, l) =>
       if bindable year_q && bool_decide (int64 s) then
         OkList (offset_limit s l (filter (λ b, search_pred title_q author_q year_q b = true) rows))
       else InternalServerError
   end, rows).
Proof. unfold search_books. rewrite search_filters. by repeat case_match. Qed.

(** C27: For a title query with no [%] or [_] in it, the title condition is
    case-insensitive (on ASCII letters) substring search: the search returns
    the window of the rows whose lowered title contains the lowered query. *)
Theorem search_title_substring (t : text) (skip limit : option Z) (rows : list Book) :
  wildcard_free t →
  (search_books (Some t) None None skip limit rows).1 =
  (list_books skip limit (filter (λ b, substringb (sql_lower t) (sql_lower (title b)) = true) rows)).1.
Proof.
  intros Ht. unfold search_books, list_books. rewrite search_filters.
  destruct (page_params skip limit) as [[s l]|]; [|done]. simpl.
  case_decide; [rewrite bool_decide_true by done|by rewrite bool_decide_false]. simpl. do 2 f_equal.
  apply list_filter_iff. intros b. unfold search_pred. rewrite ilike_contains by done.
  by rewrite !andb_true_r.
Qed.

(** C28: The query string is not escaped before it becomes a [LIKE]
    pattern, so [_] and [%] in a title query are wildcards: searching for
    the title "_" returns every book with a non-empty title, and searching
    for "%" returns the same page as listing the books. *)
Theorem search_title_wildcards (skip limit : option Z) (rows : list Book) :
  (search_books (Some [underscore]) None None skip limit rows).1 =
    (list_books skip limit (filter (λ b, title b ≠ []) rows)).1 ∧
  search_books (Some [pct]) None None skip limit rows = list_books skip limit rows.
Proof.
  unfold search_books, list_books. rewrite !search_filters.
  destruct (page_params skip limit) as [[s l]|]; [|done]. simpl. unfold search_pred.
  case_decide; [rewrite bool_decide_true by done|by rewrite bool_decide_false]. simpl. split.
  - do 2 f_equal. apply list_filter_iff. intros b.
    by rewrite ilike_underscore, !andb_true_r, bool_decide_eq_true.
  - do 3 f_equal. apply filter_all. intros b _. by rewrite ilike_pct.
Qed.

(** C29: Paging through the books with a valid [limit] and [skip = k *
    limit] for [k = 0, 1, ...] returns every row exactly once and in
    order, once the pages reach the end of the table (and while [skip]
    fits SQLite's [INTEGER]). *)
Theorem list_books_pages (l : Z) (n : nat) (rows : list Book) :
  0 < l ≤ 100 → (length rows ≤ n * Z.to_nat l)%nat → Z.of_nat n * l ≤ int64_max →
  concat ((λ k, match (list_books (Some (Z.of_nat k * l)) (Some l) rows).1 with
                | OkList p => p | _ => [] end) <$> seq 0 n) = rows.
Proof.
  intros Hl Hn Hmax. transitivity (take (n * Z.to_nat l) rows); [|by apply take_ge].
  rewrite <-(offset_limit_pages rows l n) by lia. f_equal. apply list_fmap_ext.
  intros j k Hk. apply lookup_seq in Hk as [-> Hj]. unfold list_books.
  rewrite (proj2 (page_params_Some _ _ (Z.of_nat j * l) l)) by (simpl; lia).
  rewrite decide_True; [done|]. unfold int64, int64_min in *. nia.
Qed.

(** C30: [skip] and [limit] default to 0 and 10; a negative [skip] or a
    [limit] outside [1, 100] is answered 422 before any query runs; a
    valid [skip] beyond SQLite's [INTEGER] makes the query fail with 500;
    a list never changes the table. *)
Theorem list_books_params (skip limit : option Z) (rows : list Book) :
  (list_books skip limit rows).2 = rows ∧
  ((list_books skip limit rows).1 = Unprocessable ↔
     default 0 skip < 0 ∨ default 10 limit ≤ 0 ∨ 100 < default 10 limit) ∧
  ((list_books skip limit rows).1 = InternalServerError ↔
     page_params skip limit ≠ None ∧ int64_max < default 0 skip) ∧
  (list_books None None rows).1 = OkList (take 10 rows).
Proof.
  split; [apply list_books_rows|]. rewrite <-page_params_None. unfold list_books.
  split; [|split; [|reflexivity]].
  - destruct (page_params skip limit) as [[s l]|]; [|done]. by case_decide.
  - destruct (page_params skip limit) as [[s l]|] eqn:Hp; [|naive_solver].
    apply page_params_Some in Hp as (-> & _ & Hs & _).
    case_decide as Hi; unfold int64, int64_min in Hi; split; intros Hr; try done.
    + destruct Hr as [_ Hbig]. lia.
    + split; [done|lia].
Qed.

(** ** Integers and SQLite's 64-bit [INTEGER] *)

(** C21: A request carrying a Python int that SQLite's [INTEGER] cannot
    hold leaves the table unchanged and answers 500 ([OverflowError] from
    [sqlite3]), except where an earlier step answers first: 422 when
    [skip] or [limit] fails its [Query] validation, and 404 when a PUT's
    id fits but no row has it (the lookup runs before the commit binds the
    year).  In particular a DELETE or PUT of an id beyond [2^63 - 1]
    answers 500, not 404. *)
Theorem handle_int_overflow `{RowidAlloc} (req : request) (rows : list Book) :
  req_bindable req = false →
  (handle req rows).2 = rows ∧
  (handle req rows).1 =
    match req with
    | GetBooks skip limit | SearchBooks _ _ _ skip limit =>
        if page_params skip limit then InternalServerError else Unprocessable
    | PutBook i _ =>
        if bool_decide (int64 i) && bool_decide (select_by_id rows i = None) then NotFound i
        else InternalServerError
    | _ => InternalServerError
    end.
Proof.
  destruct req as [c|s l|i|i u|t a y s l]; simpl; intros Hb.
  - unfold create_book. by rewrite Hb.
  - rewrite list_books_rows. split; [done|]. unfold list_books.
    destruct (page_params s l) as [[s' l']|] eqn:Hp; [|done].
    apply page_params_Some in Hp as (-> & _). apply bool_decide_eq_false in Hb.
    by rewrite decide_False.
  - apply bool_decide_eq_false in Hb. unfold delete_book. by rewrite decide_False.
  - unfold update_book. case_bool_decide as Hi; simpl in *; [|by rewrite decide_False].
    rewrite decide_True by done. destruct (select_by_id rows i) as [b|]; simpl; [|done].
    by rewrite update_items_bindable, Hb.
  - rewrite search_books_rows. split; [done|]. unfold search_books.
    destruct (page_params s l) as [[s' l']|] eqn:Hp; [|done].
    apply page_params_Some in Hp as (-> & _). by rewrite Hb.
Qed.

Lemma handle_ids_within (req : request) (rows : list Book) (k : Z) :
  0 ≤ k → ids_within k rows → ids_within (k + 1) (handle req rows).2.
Proof.
  intros Hk Hids. pose proof (ids_within_mono k (k + 1) rows ltac:(lia) Hids) as Hids'.
  destruct req as [c|s l|i|i u|t a y s l]; simpl.
  - unfold create_book. case_match; [simpl|done]. unfold ids_within.
    rewrite fmap_app. apply Forall_app. split; [done|].
    repeat constructor; apply (sqlite_next_rowid_le k rows Hk Hids).
  - by rewrite list_books_rows.
  - unfold delete_book. repeat case_match; simpl; try done; by apply ids_within_delete.
  - unfold update_book. repeat case_match; simpl; try done;
      unfold ids_within; by rewrite table_update_ids.
  - by rewrite search_books_rows.
Qed.

(** Serving any sequence of requests from the empty table leaves
    rowids between 1 and the number of requests, and SQLite's next rowid
    at most one above: the random rowid SQLite picks once the largest
    rowid is [2^63 - 1] is out of reach of fewer than [2^63 - 1]
    requests, so the rule [max + 1] of [sqlite_rowid] is the one SQLite
    applies. *)
Theorem serve_ids_bounded (reqs : list request) :
  (∀ b, b ∈ serve reqs → 1 ≤ id b ≤ Z.of_nat (length reqs)) ∧
  sqlite_next_rowid (serve reqs) ≤ Z.of_nat (length reqs) + 1.
Proof.
  assert (Hinv : ids_within (Z.of_nat (length reqs)) (serve reqs)).
  { induction reqs as [|r reqs IH] using rev_ind; [constructor|].
    unfold serve in *. rewrite foldl_app, length_app. simpl.
    rewrite Nat2Z.inj_add. apply handle_ids_within; [lia|exact IH]. }
  split; [|apply sqlite_next_rowid_le; [lia|exact Hinv]].
  intros b Hb. unfold ids_within in Hinv. rewrite Forall_fmap, Forall_forall in Hinv. by apply Hinv.
Qed.

(** ** Witnesses on a small table *)

Definition dune : Book := mkBook 1 (txt "Dune") (txt "Frank Herbert") (Some 1965).
Definition emma : Book := mkBook 2 (txt "Emma") (txt "Jane Austen") None.
Definition snow : Book := mkBook 4 (txt "Snow_Crash") (txt "Neal Stephenson") (Some 1992).
Definition shelf : list Book := [dune; emma; snow].

Definition post_dune : request := PostBook (mkBookCreate (txt "Dune") (txt "Frank Herbert") (Some 1965)).
Definition post_emma : request := PostBook (mkBookCreate (txt "Emma") (txt "Jane Austen") None).

Lemma shelf_wf : table_wf shelf.
Proof. repeat constructor; simpl; lia. Qed.

Lemma update_book_spec_witness :
  int64 1 ∧ table_abs shelf !! 1 = Some dune ∧
  ∃ b', update_book 1 (mkBookUpdate Unset (Given (Some (txt "F. Herbert"))) (Given None)) shelf =
        (Ok b', table_update shelf b') ∧ id b' = 1 ∧ author b' = txt "F. Herbert" ∧ year b' = None.
Proof.
  assert (H1 : int64 1) by (unfold int64, int64_min, int64_max; lia).
  split; [exact H1|]. split; [vm_compute; reflexivity|].
  destruct (update_book_spec 1 (mkBookUpdate Unset (Given (Some (txt "F. Herbert"))) (Given None)) shelf dune
    H1 ltac:(vm_compute; reflexivity) ltac:(discriminate) ltac:(discriminate) ltac:(discriminate))
    as (b' & E & Hi & _ & Ha & Hy).
  exists b'. simpl in *. done.
Defined.

Lemma update_book_null_field_witness :
  table_abs shelf !! 2 = Some emma ∧
  update_book 2 (mkBookUpdate (Given None) Unset Unset) shelf = (InternalServerError, shelf).
Proof.
  split; [vm_compute; reflexivity|].
  apply (update_book_null_field 2 _ shelf emma); [vm_compute; reflexivity|by left].
Defined.


Lemma missing_id_not_found_witness :
  int64 3 ∧ table_abs shelf !! 3 = None ∧ delete_book 3 shelf = (NotFound 3, shelf).
Proof.
  assert (H3 : int64 3) by (unfold int64, int64_min, int64_max; lia).
  split; [exact H3|]. split; [vm_compute; reflexivity|].
  apply (missing_id_not_found 3 shelf H3). vm_compute. reflexivity.
Defined.

Lemma create_delete_roundtrip_witness :
  bindable (c_year (mkBookCreate (txt "Emma") (txt "Jane Austen") (Some 1815))) = true ∧
  int64 (next_rowid shelf) ∧
  let '(resp, rows') := create_book (mkBookCreate (txt "Emma") (txt "Jane Austen") (Some 1815)) shelf in
  ∃ b, resp = Created b ∧ title b = txt "Emma" ∧ author b = txt "Jane Austen" ∧ year b = Some 1815 ∧
    table_abs rows' !! id b = Some b ∧ delete_book (id b) rows' = (NoContent, shelf).
Proof.
  assert (Hy : bindable (c_year (mkBookCreate (txt "Emma") (txt "Jane Austen") (Some 1815))) = true)
    by (vm_compute; reflexivity).
  assert (Hn : int64 (next_rowid shelf)) by (vm_compute; split; discriminate).
  split; [exact Hy|]. split; [exact Hn|].
  exact (create_delete_roundtrip (mkBookCreate (txt "Emma") (txt "Jane Austen") (Some 1815)) shelf Hy Hn).
Defined.

Lemma search_title_substring_witness :
  wildcard_free (txt "dUN") ∧
  (search_books (Some (txt "dUN")) None None None None shelf).1 = OkList [dune].
Proof.
  assert (Hw : wildcard_free (txt "dUN")) by (repeat constructor; cbv; lia).
  split; [exact Hw|]. rewrite (search_title_substring (txt "dUN") None None shelf Hw).
  vm_compute. reflexivity.
Defined.

Lemma list_books_pages_witness :
  0 < 2 ≤ 100 ∧ (length shelf ≤ 2 * Z.to_nat 2)%nat ∧ Z.of_nat 2 * 2 ≤ int64_max ∧
  concat ((λ k, match (list_books (Some (Z.of_nat k * 2)) (Some 2) shelf).1 with
                | OkList p => p | _ => [] end) <$> seq 0 2) = shelf.
Proof.
  split; [lia|]. split; [simpl; lia|]. split; [unfold int64_max; lia|].
  apply list_books_pages; unfold int64_max; simpl; lia.
Defined.

Lemma handle_int_overflow_witness :
  req_bindable (DeleteBook (2 ^ 63)) = false ∧
  (handle (DeleteBook (2 ^ 63)) shelf).2 = shelf ∧
  (handle (DeleteBook (2 ^ 63)) shelf).1 = InternalServerError.
Proof.
  assert (H : req_bindable (DeleteBook (2 ^ 63)) = false) by (vm_compute; reflexivity).
  split; [exact H|]. exact (handle_int_overflow (DeleteBook (2 ^ 63)) shelf H).
Defined.

(** The [Query] description of [search_books] says the title search is
    case-insensitive; SQLite's [LIKE] folds the ASCII letters only, so a
    search for "é" does not find the title "École", while "COLE" does. *)
Example search_title_ascii_only :
  (search_books (Some [233]) None None None None [mkBook 1 (201 :: txt "cole") (txt "Anon") None]).1
    = OkList [] ∧
  (search_books (Some (txt "COLE")) None None None None [mkBook 1 (201 :: txt "cole") (txt "Anon") None]).1
    = OkList [mkBook 1 (201 :: txt "cole") (txt "Anon") None].
Proof. vm_compute. split; reflexivity. Qed.

(** Deleting the newest book frees its identifier: the next POST receives
    it again. *)
Example serve_reuses_id :
  serve [post_dune; post_emma; DeleteBook 2; post_emma] =
    [dune; mkBook 2 (txt "Emma") (txt "Jane Austen") None].
Proof. vm_compute. reflexivity. Qed.
